(** * Telemetry collector: a shallow embedding of the two performance monitors

    The repository ships two collectors, each a class with a module-level
    singleton:

    - [PerformanceMonitor] (desktop, the class at the end of the performance
      utilities file): [init], [reportMetric], [sendToAnalytics], [getMetrics],
      [measure], [measureAsync], [destroy];
    - [MobilePerformanceMonitor] (the mobile performance file): [init],
      [logMetric], [getPerformanceScore], [getMetrics], [destroy].

    JavaScript numbers are IEEE-754 doubles and are modelled by Rocq's
    primitive floats.  Arrays and the [metrics] objects are mutated in place
    and shared by reference, so they live in an explicit heap; object
    literals that the collectors build and never mutate afterwards (samples,
    resource records) are immutable record values.  A [metrics] object is a
    plain object: its own properties are a finite map, and a name that is not
    an own property is looked up in [Object.prototype], so that [constructor],
    [toString] or [__proto__] read a built-in member.  Methods are computations
    in a state-and-exception monad over the page ([World]): a [throw] keeps
    the mutations made before it, as in JavaScript. *)

From Stdlib Require Import Floats ZArith String List.
From stdpp Require Import gmap strings list.
Import ListNotations.
Open Scope string_scope.
Open Scope list_scope.

Set Warnings "-register-all,-inexact-float".

(** ** JavaScript values and the heap *)

(** [JRef] is a reference into the heap; [JNative k] is the member [k] of
    [Object.prototype], a built-in function or, for [__proto__], the
    prototype object itself. *)
Inductive JsValue : Type :=
| JUndefined
| JBool (b : bool)
| JNum (x : float)
| JStr (s : string)
| JRecord (fields : list (string * JsValue))
| JRef (r : nat)
| JNative (name : string).

Inductive Cell : Type :=
| CObject (props : gmap string JsValue)
| CArray (elems : list JsValue).

Inductive JsError : Type :=
| TypeError
| ReferenceError
| AbortError
| OtherError (name : string).

(** [error.name] *)
Definition error_name (e : JsError) : string :=
  match e with
  | TypeError => "TypeError"
  | ReferenceError => "ReferenceError"
  | AbortError => "AbortError"
  | OtherError n => n
  end.

(** ToBoolean: [undefined], [false], [+0], [-0], [NaN] and the empty string
    are falsy; everything else, every object and array included, is truthy. *)
Definition truthy (v : JsValue) : bool :=
  match v with
  | JUndefined => false
  | JBool b => b
  | JNum x => negb (PrimFloat.eqb x 0 || PrimFloat.is_nan x)
  | JStr s => negb (String.eqb s EmptyString)
  | JRecord _ => true
  | JRef _ => true
  | JNative _ => true
  end.

(** [a || b] *)
Definition js_or (a b : JsValue) : JsValue := if truthy a then a else b.

(** ToNumber.  A string is parsed and an object goes through ToPrimitive in
    JavaScript; neither is modelled.  Every plain object and every array of
    one or more objects converts to NaN, which is what the collectors can
    put in a compared slot, and the model takes NaN for strings too. *)
Definition ToNumber (v : JsValue) : float :=
  match v with
  | JUndefined => PrimFloat.nan
  | JBool b => if b then 1%float else 0%float
  | JNum x => x
  | JStr _ => PrimFloat.nan
  | JRecord _ => PrimFloat.nan
  | JRef _ => PrimFloat.nan
  | JNative _ => PrimFloat.nan
  end.

(** The own properties of the object behind a reference. *)
Definition obj_props (h : list Cell) (r : nat) : gmap string JsValue :=
  match h !! r with
  | Some (CObject props) => props
  | _ => ∅
  end.

(** The names every object inherits from [Object.prototype].  All but
    [__proto__] are built-in functions; [__proto__] is an accessor that
    answers the prototype object itself. *)
Definition object_prototype : list string :=
  ["constructor"; "__defineGetter__"; "__defineSetter__"; "hasOwnProperty";
   "__lookupGetter__"; "__lookupSetter__"; "isPrototypeOf"; "propertyIsEnumerable";
   "toString"; "valueOf"; "__proto__"; "toLocaleString"].

Definition inherited (k : string) : bool := existsb (String.eqb k) object_prototype.

(** [o[k]]: an own property first, then the prototype chain of a plain
    object, which ends at [Object.prototype]; a name found in neither reads
    [undefined]. *)
Definition read_prop (h : list Cell) (r : nat) (k : string) : JsValue :=
  match obj_props h r !! k with
  | Some v => v
  | None => if inherited k then JNative k else JUndefined
  end.

(** Whether [o[k] = v] reaches the property table of [o]: it does for every
    name but [__proto__], which goes to the setter of [Object.prototype]
    unless the object has an own property of that name. *)
Definition assigns (props : gmap string JsValue) (k : string) : bool :=
  match props !! k with
  | Some _ => true
  | None => negb (String.eqb k "__proto__")
  end.

(** [o[k] = v].  An own property is updated; a new name becomes an own
    property, also when it shadows a function of [Object.prototype].  The
    [__proto__] setter leaves the property table as it is: it ignores a
    value that is not an object, and an object would become the prototype,
    which the model does not follow (the collectors never get there: on that
    path they store a number, or store an array only where the read was
    falsy, which a read of the prototype is not). *)
Definition write_prop (h : list Cell) (r : nat) (k : string) (v : JsValue) : list Cell :=
  match h !! r with
  | Some (CObject props) =>
      if assigns props k then <[r := CObject (<[k := v]> props)]> h else h
  | _ => h
  end.

(** A value that is an array: its address and elements. *)
Definition as_array (h : list Cell) (v : JsValue) : option (nat * list JsValue) :=
  match v with
  | JRef r => match h !! r with
              | Some (CArray elems) => Some (r, elems)
              | _ => None
              end
  | _ => None
  end.

(** ** The host page *)

Record Observer : Type := { obs_id : positive; obs_entryType : string }.

Inductive CleanupFn : Type :=
| RestoreReactPerformWork
| RemoveNetworkListener
| RemoveBatteryListeners.

Inductive ConsoleEntry : Type :=
| ConsoleLog (msg : string)
| ConsoleWarn (msg : string).

(** Calls into the platform, in the order they are made. *)
Inductive HostCall : Type :=
| HObserve (id : positive) (entryType : string)
| HDisconnect (id : positive)
| HSetInterval (id : positive) (ms : N)
| HClearInterval (id : positive)
| HCancelAnimationFrame (id : positive)
| HSetTimeout (id : positive) (ms : N)
| HClearTimeout (id : positive)
| HAbort (id : positive)
| HFetch (url : string) (signal : positive) (metric : string) (value : JsValue)
| HGtag (metric : string) (value : JsValue)
| HAddListener (target event : string)
| HRunCleanup (c : CleanupFn)
| HPatchReact
| HGetBattery
| HNewIntersectionObserver (id : positive).

(** What the page offers; fixed for the life of the page. *)
Record Host : Type := {
  hasPerformanceObserver : bool;        (* 'PerformanceObserver' in window *)
  observeThrows : string -> bool;       (* observe({entryTypes: [t]}) throws *)
  hasMemory : bool;                     (* 'memory' in performance *)
  hasReactReconciler : bool;            (* window.React internals with Reconciler.performWork *)
  hasConnection : bool;                 (* 'connection' in navigator *)
  effectiveType : string;               (* navigator.connection.effectiveType *)
  downlink : float;                     (* navigator.connection.downlink *)
  rtt : float;                          (* navigator.connection.rtt *)
  saveData : bool;                      (* navigator.connection.saveData *)
  hasGetBattery : bool;                 (* 'getBattery' in navigator *)
  hasIntersectionObserver : bool;       (* 'IntersectionObserver' in window *)
  gtag : option (option JsError);       (* window.gtag: absent, or a function that returns or throws *)
  hasAbortController : bool;            (* AbortController (and with it fetch) exists *)
  nodeEnv : string;                     (* process.env.NODE_ENV *)
  deviceMemory : option float;          (* navigator.deviceMemory *)
  hardwareConcurrency : option float;   (* navigator.hardwareConcurrency *)
  innerWidth : float;                   (* window.innerWidth *)
  prefersReducedMotion : bool;          (* matchMedia('(prefers-reduced-motion: reduce)').matches *)
  userAgent : string;
  platform : string;
  language : string
}.

(** The fields of a [PerformanceMonitor] instance.  Timer and animation
    handles are positive integers, so a handle that is there is truthy and
    [None] stands for [null]. *)
Module PM.
Record t : Type := mk {
  metrics : nat;
  observers : list Observer;
  isInitialized : bool;
  cleanupFunctions : list CleanupFn;
  memoryCheckInterval : option positive;
  frameRateMonitor : option positive
}.
Definition set_metrics (o : nat) (p : t) : t :=
  mk o (observers p) (isInitialized p) (cleanupFunctions p) (memoryCheckInterval p)
     (frameRateMonitor p).
Definition set_observers (l : list Observer) (p : t) : t :=
  mk (metrics p) l (isInitialized p) (cleanupFunctions p) (memoryCheckInterval p)
     (frameRateMonitor p).
Definition set_isInitialized (b : bool) (p : t) : t :=
  mk (metrics p) (observers p) b (cleanupFunctions p) (memoryCheckInterval p)
     (frameRateMonitor p).
Definition set_cleanupFunctions (l : list CleanupFn) (p : t) : t :=
  mk (metrics p) (observers p) (isInitialized p) l (memoryCheckInterval p)
     (frameRateMonitor p).
Definition set_memoryCheckInterval (i : option positive) (p : t) : t :=
  mk (metrics p) (observers p) (isInitialized p) (cleanupFunctions p) i
     (frameRateMonitor p).
Definition set_frameRateMonitor (i : option positive) (p : t) : t :=
  mk (metrics p) (observers p) (isInitialized p) (cleanupFunctions p)
     (memoryCheckInterval p) i.
End PM.

(** The fields of a [MobilePerformanceMonitor] instance. *)
Module MPM.
Record t : Type := mk {
  metrics : nat;
  observers : list Observer;
  cleanupFunctions : list CleanupFn;
  isLowEndDevice : bool;
  isReducedMotion : bool;
  memoryCheckInterval : option positive;
  batteryCheckInterval : option positive;
  intersectionObserver : option positive
}.
Definition set_metrics (o : nat) (p : t) : t :=
  mk o (observers p) (cleanupFunctions p) (isLowEndDevice p) (isReducedMotion p)
     (memoryCheckInterval p) (batteryCheckInterval p) (intersectionObserver p).
Definition set_observers (l : list Observer) (p : t) : t :=
  mk (metrics p) l (cleanupFunctions p) (isLowEndDevice p) (isReducedMotion p)
     (memoryCheckInterval p) (batteryCheckInterval p) (intersectionObserver p).
Definition set_cleanupFunctions (l : list CleanupFn) (p : t) : t :=
  mk (metrics p) (observers p) l (isLowEndDevice p) (isReducedMotion p)
     (memoryCheckInterval p) (batteryCheckInterval p) (intersectionObserver p).
Definition set_memoryCheckInterval (i : option positive) (p : t) : t :=
  mk (metrics p) (observers p) (cleanupFunctions p) (isLowEndDevice p) (isReducedMotion p)
     i (batteryCheckInterval p) (intersectionObserver p).
Definition set_batteryCheckInterval (i : option positive) (p : t) : t :=
  mk (metrics p) (observers p) (cleanupFunctions p) (isLowEndDevice p) (isReducedMotion p)
     (memoryCheckInterval p) i (intersectionObserver p).
Definition set_intersectionObserver (i : option positive) (p : t) : t :=
  mk (metrics p) (observers p) (cleanupFunctions p) (isLowEndDevice p) (isReducedMotion p)
     (memoryCheckInterval p) (batteryCheckInterval p) i.
End MPM.

(** The page: the heap, the two singletons, the [clsValue] variable captured
    by each layout-shift observer (keyed by the observer), the clocks, the
    console and the platform calls made so far. *)
Record World : Type := mkWorld {
  heap : list Cell;
  desktop : PM.t;
  mobile : MPM.t;
  clsValue : gmap positive float;
  host : Host;
  dateNow : float;
  perfNow : float;
  console : list ConsoleEntry;
  trace : list HostCall;
  nextHandle : positive
}.

Definition set_heap (h : list Cell) (w : World) : World :=
  mkWorld h (desktop w) (mobile w) (clsValue w) (host w) (dateNow w) (perfNow w)
          (console w) (trace w) (nextHandle w).
Definition set_desktop (d : PM.t) (w : World) : World :=
  mkWorld (heap w) d (mobile w) (clsValue w) (host w) (dateNow w) (perfNow w)
          (console w) (trace w) (nextHandle w).
Definition set_mobile (m : MPM.t) (w : World) : World :=
  mkWorld (heap w) (desktop w) m (clsValue w) (host w) (dateNow w) (perfNow w)
          (console w) (trace w) (nextHandle w).
Definition set_clsValue (c : gmap positive float) (w : World) : World :=
  mkWorld (heap w) (desktop w) (mobile w) c (host w) (dateNow w) (perfNow w)
          (console w) (trace w) (nextHandle w).
Definition set_dateNow (t : float) (w : World) : World :=
  mkWorld (heap w) (desktop w) (mobile w) (clsValue w) (host w) t (perfNow w)
          (console w) (trace w) (nextHandle w).
Definition set_perfNow (t : float) (w : World) : World :=
  mkWorld (heap w) (desktop w) (mobile w) (clsValue w) (host w) (dateNow w) t
          (console w) (trace w) (nextHandle w).
Definition set_console (c : list ConsoleEntry) (w : World) : World :=
  mkWorld (heap w) (desktop w) (mobile w) (clsValue w) (host w) (dateNow w) (perfNow w)
          c (trace w) (nextHandle w).
Definition set_trace (t : list HostCall) (w : World) : World :=
  mkWorld (heap w) (desktop w) (mobile w) (clsValue w) (host w) (dateNow w) (perfNow w)
          (console w) t (nextHandle w).
Definition set_nextHandle (n : positive) (w : World) : World :=
  mkWorld (heap w) (desktop w) (mobile w) (clsValue w) (host w) (dateNow w) (perfNow w)
          (console w) (trace w) n.

(** ** The effect monad *)

Inductive Completion (A : Type) : Type :=
| Normal (a : A)
| Throw (e : JsError).
Arguments Normal {A} a.
Arguments Throw {A} e.

Definition Eff (A : Type) : Type := World -> Completion A * World.

Definition ret {A} (a : A) : Eff A := fun w => (Normal a, w).

Definition bind {A B} (c : Eff A) (k : A -> Eff B) : Eff B :=
  fun w => match c w with
           | (Normal a, w') => k a w'
           | (Throw e, w') => (Throw e, w')
           end.

Definition throw {A} (e : JsError) : Eff A := fun w => (Throw e, w).

(** [try { body } catch (error) { handler(error) }] *)
Definition try_catch {A} (body : Eff A) (handler : JsError -> Eff A) : Eff A :=
  fun w => match body w with
           | (Normal a, w') => (Normal a, w')
           | (Throw e, w') => handler e w'
           end.

Declare Scope eff_scope.
Delimit Scope eff_scope with eff.
Bind Scope eff_scope with Eff.
Notation "x <- c ;; k" := (bind c (fun x => k))
  (at level 20, c at level 99, k at level 200, only parsing) : eff_scope.
Notation "c ;; k" := (bind c (fun _ => k))
  (at level 100, k at level 200, only parsing, right associativity) : eff_scope.
Open Scope eff_scope.

Definition gets {A} (f : World -> A) : Eff A := fun w => (Normal (f w), w).
Definition modify (f : World -> World) : Eff unit := fun w => (Normal tt, f w).
Definition when (b : bool) (c : Eff unit) : Eff unit := if b then c else ret tt.

(** [list.forEach(f)]: an exception leaves the loop. *)
Fixpoint forEach {A} (l : list A) (f : A -> Eff unit) : Eff unit :=
  match l with
  | [] => ret tt
  | x :: rest => f x ;; forEach rest f
  end.

(** The world a computation leaves, and how it completed. *)
Definition exec {A} (c : Eff A) (w : World) : World := snd (c w).
Definition completion {A} (c : Eff A) (w : World) : Completion A := fst (c w).

(** ** Platform primitives *)

Definition console_log (msg : string) : Eff unit :=
  modify (fun w => set_console (console w ++ [ConsoleLog msg]) w).
Definition console_warn (msg : string) : Eff unit :=
  modify (fun w => set_console (console w ++ [ConsoleWarn msg]) w).
Definition host_call (c : HostCall) : Eff unit :=
  modify (fun w => set_trace (trace w ++ [c]) w).
Definition fresh_handle : Eff positive :=
  fun w => (Normal (nextHandle w), set_nextHandle (Pos.succ (nextHandle w)) w).
Definition Date_now : Eff float := gets dateNow.
Definition performance_now : Eff float := gets perfNow.
Definition is_development : Eff bool := gets (fun w => String.eqb (nodeEnv (host w)) "development").
Definition is_production : Eff bool := gets (fun w => String.eqb (nodeEnv (host w)) "production").

(** An object or array literal: a new cell at the end of the heap. *)
Definition alloc (c : Cell) : Eff nat :=
  fun w => (Normal (length (heap w)), set_heap (heap w ++ [c]) w).

Definition get_prop (o : nat) (k : string) : Eff JsValue :=
  gets (fun w => read_prop (heap w) o k).
Definition set_prop (o : nat) (k : string) (v : JsValue) : Eff unit :=
  modify (fun w => set_heap (write_prop (heap w) o k v) w).

(** [v.length >= n] for a truthy [v].  On an array the element count is
    compared.  On anything else the outcome does not matter: no other value
    has a [shift] or [push] method, so the call that follows raises
    [TypeError] either way; the model answers [false]. *)
Definition length_ge (v : JsValue) (n : nat) : Eff bool :=
  gets (fun w => match as_array (heap w) v with
                 | Some (_, elems) => n <=? length elems
                 | None => false
                 end)%nat.

(** [v.shift()] *)
Definition array_shift (v : JsValue) : Eff unit :=
  fun w => match as_array (heap w) v with
           | Some (r, elems) => (Normal tt, set_heap (<[r := CArray (tail elems)]> (heap w)) w)
           | None => (Throw TypeError, w)
           end.

(** [v.push(x)] *)
Definition array_push (v x : JsValue) : Eff unit :=
  fun w => match as_array (heap w) v with
           | Some (r, elems) => (Normal tt, set_heap (<[r := CArray (elems ++ [x])]> (heap w)) w)
           | None => (Throw TypeError, w)
           end.

(** [window.gtag('event', 'performance_metric', {...})] when [window.gtag]
    is there. *)
Definition call_gtag (name : string) (value : JsValue) : Eff unit :=
  g <- gets (fun w => gtag (host w)) ;;
  match g with
  | None => ret tt
  | Some outcome =>
      host_call (HGtag name value) ;;
      match outcome with
      | None => ret tt
      | Some e => throw e
      end
  end.

(** [Math.round]: the integer nearest to [x], ties towards +∞; NaN, the
    infinities and the zeros are returned as they are.  The double is
    [m * 2^e]; for [e < 0] the result is [floor ((2m + 2^-e) / 2^(1-e))],
    computed exactly on integers. *)
Definition Math_round (x : float) : float :=
  match Prim2SF x with
  | S754_finite s m e =>
      if (0 <=? e)%Z then x
      else
        let v := if s then Z.neg m else Z.pos m in
        let r := ((2 * v + 2 ^ (- e)) / 2 ^ (1 - e))%Z in
        if (r =? 0)%Z then (if s then (-0)%float else 0%float)
        else if (r <? 0)%Z then PrimFloat.opp (PrimFloat.of_uint63 (Uint63.of_Z (- r)))
        else PrimFloat.of_uint63 (Uint63.of_Z r)
  | _ => x
  end.


(** ** Performance entries delivered to observer callbacks *)

Record PaintEntry : Type := { pe_startTime : float }.
Record FirstInputEntry : Type := { fi_processingStart : float; fi_startTime : float }.
Record LayoutShift : Type := { value : float; hadRecentInput : bool }.
Record ResourceEntry : Type := {
  re_name : string;
  initiatorType : string;
  duration : float;
  transferSize : JsValue
}.

(** The fields of a navigation entry the collector reads. *)
Record NavigationEntry : Type := {
  ne_entryType : string;
  domainLookupStart : float;
  domainLookupEnd : float;
  connectStart : float;
  connectEnd : float;
  requestStart : float;
  responseStart : float;
  domContentLoadedEventEnd : float;
  loadEventEnd : float;
  navigationStart : float
}.

(** [performance.memory] as read by a memory check. *)
Record MemoryInfo : Type := {
  usedJSHeapSize : float;
  totalJSHeapSize : float;
  jsHeapSizeLimit : float
}.

(** An intersection entry: [isIntersecting] and [target.tagName]. *)
Record IntersectionEntry : Type := { isIntersecting : bool; tagName : string }.

(** An entry of the paint observer: its [name] tells first paint from first
    contentful paint. *)
Record NamedPaintEntry : Type := { np_name : string; np_startTime : float }.

(** One line of what [checkThresholds] answers. *)
Record ThresholdResult : Type := {
  tr_value : JsValue;
  tr_threshold : float;
  tr_passed : bool
}.

(** How the pending [fetch] of a delivery settles.  [fetch] resolves for
    every HTTP status; it rejects on a network error; and when it is still
    pending after 5000 ms the timer calls [controller.abort()], which rejects
    it with an [AbortError]. *)
Inductive FetchOutcome : Type :=
| FetchResolved (status : nat)
| FetchRejected (e : JsError)
| FetchTimedOut.

Definition new_PerformanceObserver (entryType : string) : Eff Observer :=
  id <- fresh_handle ;;
  ret {| obs_id := id; obs_entryType := entryType |}.

Definition observe (o : Observer) : Eff unit :=
  bad <- gets (fun w => observeThrows (host w) (obs_entryType o)) ;;
  if bad then throw TypeError
  else host_call (HObserve (obs_id o) (obs_entryType o)).

(** The running total captured by layout-shift observer [id]. *)
Definition cls_total (id : positive) (w : World) : float :=
  default 0%float (clsValue w !! id).

(** [clsValue += v] *)
Definition cls_add (id : positive) (v : float) : Eff unit :=
  modify (fun w => set_clsValue (<[id := (cls_total id w + v)%float]> (clsValue w)) w).

(** ** The desktop collector: class PerformanceMonitor *)

Module PerformanceMonitor.

Definition this (f : PM.t -> PM.t) : Eff unit :=
  modify (fun w => set_desktop (f (desktop w)) w).

(** [this.metrics[name]] *)
Definition get_metric (name : string) : Eff JsValue :=
  o <- gets (fun w => PM.metrics (desktop w)) ;;
  get_prop o name.

(** [this.metrics[name] = v] *)
Definition set_metric (name : string) (v : JsValue) : Eff unit :=
  o <- gets (fun w => PM.metrics (desktop w)) ;;
  set_prop o name v.

Definition constructor : Eff unit :=
  o <- alloc (CObject ∅) ;;
  this (fun _ => PM.mk o [] false [] None None).

(** The part of the async [sendToAnalytics] that runs before its [await]:
    the payload, the abort controller, the 5000 ms timer and the [fetch]
    call.  It answers the timer of the pending delivery. *)
Definition sendToAnalytics_start (name : string) (value : JsValue) : Eff (option positive) :=
  try_catch
    (ok <- gets (fun w => hasAbortController (host w)) ;;
     if ok then
       timeoutId <- fresh_handle ;;
       host_call (HSetTimeout timeoutId 5000%N) ;;
       host_call (HFetch "/api/analytics/performance" timeoutId name value) ;;
       ret (Some timeoutId)
     else throw ReferenceError)
    (fun error =>
       when (negb (String.eqb (error_name error) "AbortError"))
            (console_warn "Failed to send performance data:") ;;
       ret None).

(** The rest of [sendToAnalytics], run when the [fetch] settles. *)
Definition sendToAnalytics_settle (timeoutId : positive) (outcome : FetchOutcome) : Eff unit :=
  try_catch
    (match outcome with
     | FetchResolved _ => host_call (HClearTimeout timeoutId)
     | FetchRejected e => throw e
     | FetchTimedOut => host_call (HAbort timeoutId) ;; throw AbortError
     end)
    (fun error =>
       when (negb (String.eqb (error_name error) "AbortError"))
            (console_warn "Failed to send performance data:")).

(** A whole delivery, from the call to the settling of its promise. *)
Definition sendToAnalytics (name : string) (value : JsValue) (outcome : FetchOutcome)
  : Eff unit :=
  pending <- sendToAnalytics_start name value ;;
  match pending with
  | Some timeoutId => sendToAnalytics_settle timeoutId outcome
  | None => ret tt
  end.

Definition reportMetric (name : string) (value : JsValue) : Eff unit :=
  try_catch
    (slot <- get_metric name ;;
     when (negb (truthy slot))
          (a <- alloc (CArray []) ;; set_metric name (JRef a)) ;;
     slot <- get_metric name ;;
     full <- length_ge slot 100 ;;
     when full (array_shift slot) ;;
     slot <- get_metric name ;;
     timestamp <- Date_now ;;
     array_push slot (JRecord [("value", value); ("timestamp", JNum timestamp)]) ;;
     call_gtag name value ;;
     _ <- sendToAnalytics_start name value ;;
     dev <- is_development ;;
     when dev (console_log ("Performance Metric - " ++ name ++ ":")%string))
    (fun _ => console_warn "Failed to report metric:").

Definition push_observer (o : Observer) : Eff unit :=
  this (fun p => PM.set_observers (PM.observers p ++ [o]) p).

Definition lcpObserver_callback (entries : list PaintEntry) : Eff unit :=
  match last entries with
  | None => throw TypeError
  | Some lastEntry =>
      set_metric "lcp" (JNum (pe_startTime lastEntry)) ;;
      reportMetric "LCP" (JNum (pe_startTime lastEntry))
  end.

Definition fidObserver_callback (entries : list FirstInputEntry) : Eff unit :=
  forEach entries (fun entry =>
    set_metric "fid" (JNum (fi_processingStart entry - fi_startTime entry)%float) ;;
    fid <- get_metric "fid" ;;
    reportMetric "FID" fid).

Definition clsObserver_callback (id : positive) (entries : list LayoutShift) : Eff unit :=
  forEach entries (fun entry =>
    when (negb (hadRecentInput entry))
         (cls_add id (value entry) ;;
          total <- gets (cls_total id) ;;
          set_metric "cls" (JNum total) ;;
          reportMetric "CLS" (JNum total))).

Definition resourceObserver_callback (entries : list ResourceEntry) : Eff unit :=
  forEach entries (fun entry =>
    when (String.eqb (initiatorType entry) "img" || String.eqb (initiatorType entry) "video")
         (slot <- get_metric "resources" ;;
          when (negb (truthy slot))
               (a <- alloc (CArray []) ;; set_metric "resources" (JRef a)) ;;
          slot <- get_metric "resources" ;;
          full <- length_ge slot 50 ;;
          when full (array_shift slot) ;;
          slot <- get_metric "resources" ;;
          array_push slot
            (JRecord [("name", JStr (re_name entry));
                      ("type", JStr (initiatorType entry));
                      ("duration", JNum (duration entry));
                      ("size", js_or (transferSize entry) (JNum 0))]))).

Definition setupWebVitals : Eff unit :=
  po <- gets (fun w => hasPerformanceObserver (host w)) ;;
  when po
    (try_catch
       (lcpObserver <- new_PerformanceObserver "largest-contentful-paint" ;;
        observe lcpObserver ;;
        push_observer lcpObserver)
       (fun _ => console_warn "LCP monitoring failed:") ;;
     try_catch
       (fidObserver <- new_PerformanceObserver "first-input" ;;
        observe fidObserver ;;
        push_observer fidObserver)
       (fun _ => console_warn "FID monitoring failed:") ;;
     try_catch
       (clsObserver <- new_PerformanceObserver "layout-shift" ;;
        modify (fun w => set_clsValue (<[obs_id clsObserver := 0%float]> (clsValue w)) w) ;;
        observe clsObserver ;;
        push_observer clsObserver)
       (fun _ => console_warn "CLS monitoring failed:")).

Definition setupPerformanceObserver : Eff unit :=
  po <- gets (fun w => hasPerformanceObserver (host w)) ;;
  when po
    (try_catch
       (navigationObserver <- new_PerformanceObserver "navigation" ;;
        observe navigationObserver ;;
        push_observer navigationObserver ;;
        paintObserver <- new_PerformanceObserver "paint" ;;
        observe paintObserver ;;
        push_observer paintObserver)
       (fun _ => console_warn "Performance observer setup failed:")).

Definition setupResourceTiming : Eff unit :=
  po <- gets (fun w => hasPerformanceObserver (host w)) ;;
  when po
    (try_catch
       (resourceObserver <- new_PerformanceObserver "resource" ;;
        observe resourceObserver ;;
        push_observer resourceObserver)
       (fun _ => console_warn "Resource timing monitoring failed:")).

(** [setupUserTiming] with [monitorReactPerformance] inlined: when React's
    reconciler is exposed, [performWork] is wrapped and a function that
    restores it is kept for [destroy]. *)
Definition setupUserTiming : Eff unit :=
  react <- gets (fun w => hasReactReconciler (host w)) ;;
  when react
    (try_catch
       (host_call HPatchReact ;;
        this (fun p => PM.set_cleanupFunctions
                         (PM.cleanupFunctions p ++ [RestoreReactPerformWork]) p))
       (fun _ => console_warn "React performance monitoring failed:")).

Definition setupMemoryMonitoring : Eff unit :=
  mem <- gets (fun w => hasMemory (host w)) ;;
  when mem
    (id <- fresh_handle ;;
     host_call (HSetInterval id 30000%N) ;;
     this (PM.set_memoryCheckInterval (Some id))).

Definition init : Eff unit :=
  started <- gets (fun w => PM.isInitialized (desktop w)) ;;
  if started then ret tt
  else
    try_catch
      (setupWebVitals ;;
       setupPerformanceObserver ;;
       setupResourceTiming ;;
       setupUserTiming ;;
       setupMemoryMonitoring ;;
       this (PM.set_isInitialized true) ;;
       dev <- is_development ;;
       when dev (console_log "Performance monitoring initialized"))
      (fun _ => console_warn "Performance monitoring initialization failed:").

(** [{ ...this.metrics }]: a new object with the same properties; the
    property values, array references included, are copied as they are. *)
Definition getMetrics : Eff JsValue :=
  o <- gets (fun w => PM.metrics (desktop w)) ;;
  props <- gets (fun w => obj_props (heap w) o) ;;
  copy <- alloc (CObject props) ;;
  ret (JRef copy).

Definition measure {R} (name : string) (fn : Eff R) : Eff R :=
  start <- performance_now ;;
  result <- fn ;;
  finish <- performance_now ;;
  let duration := (finish - start)%float in
  set_metric name (JNum duration) ;;
  reportMetric name (JNum duration) ;;
  ret result.

(** [measureAsync] awaits [fn()]: here [fn] is the awaited work together
    with whatever else the event loop ran until its promise settled. *)
Definition measureAsync {R} (name : string) (fn : Eff R) : Eff R :=
  start <- performance_now ;;
  result <- fn ;;
  finish <- performance_now ;;
  let duration := (finish - start)%float in
  set_metric name (JNum duration) ;;
  reportMetric name (JNum duration) ;;
  ret result.

Definition navigationObserver_callback (entries : list NavigationEntry) : Eff unit :=
  forEach entries (fun entry =>
    when (String.eqb (ne_entryType entry) "navigation")
         (set_metric "navigation"
            (JRecord [("dns", JNum (domainLookupEnd entry - domainLookupStart entry)%float);
                      ("tcp", JNum (connectEnd entry - connectStart entry)%float);
                      ("ttfb", JNum (responseStart entry - requestStart entry)%float);
                      ("domContentLoaded",
                       JNum (domContentLoadedEventEnd entry - navigationStart entry)%float);
                      ("loadComplete",
                       JNum (loadEventEnd entry - navigationStart entry)%float)]) ;;
          navigation <- get_metric "navigation" ;;
          reportMetric "Navigation" navigation)).

(** The callback of the 30 s interval of [setupMemoryMonitoring], run when
    [performance.memory] reads [memory]. *)
Definition memoryCheck (memory : MemoryInfo) : Eff unit :=
  let memoryUsage := (usedJSHeapSize memory / jsHeapSizeLimit memory)%float in
  when (0.7 <? memoryUsage)%float
       (set_metric "memory"
          (JRecord [("usedJSHeapSize", JNum (usedJSHeapSize memory));
                    ("totalJSHeapSize", JNum (totalJSHeapSize memory));
                    ("jsHeapSizeLimit", JNum (jsHeapSizeLimit memory));
                    ("usage", JNum memoryUsage)]) ;;
        reportMetric "Memory Usage" (JNum memoryUsage)).

Definition paintObserver_callback (entries : list NamedPaintEntry) : Eff unit :=
  forEach entries (fun entry =>
    when (String.eqb (np_name entry) "first-paint")
         (set_metric "fp" (JNum (np_startTime entry)) ;;
          reportMetric "FP" (JNum (np_startTime entry))) ;;
    when (String.eqb (np_name entry) "first-contentful-paint")
         (set_metric "fcp" (JNum (np_startTime entry)) ;;
          reportMetric "FCP" (JNum (np_startTime entry)))).

(** [getCoreWebVitals]: the four scalar slots as they are, [undefined] for
    a vital not seen yet. *)
Definition getCoreWebVitals : Eff JsValue :=
  lcp <- get_metric "lcp" ;;
  fid <- get_metric "fid" ;;
  cls <- get_metric "cls" ;;
  fcp <- get_metric "fcp" ;;
  ret (JRecord [("lcp", lcp); ("fid", fid); ("cls", cls); ("fcp", fcp)]).

(** The [thresholds] literal of [checkThresholds], in key order. *)
Definition thresholds : list (string * float) :=
  [("lcp", 2500%float); ("fid", 100%float); ("cls", 0.1%float); ("fcp", 1800%float)].

(** [checkThresholds]: the [results] object as the list of its properties in
    insertion order.  A metric is reported when [this.metrics[metric] !==
    undefined]; [passed] is [value <= threshold] on numbers. *)
Definition checkThresholds : Eff (list (string * ThresholdResult)) :=
  o <- gets (fun w => PM.metrics (desktop w)) ;;
  gets (fun w =>
    flat_map (fun entry =>
      match read_prop (heap w) o (fst entry) with
      | JUndefined => []
      | stored => [(fst entry,
                    {| tr_value := stored;
                       tr_threshold := snd entry;
                       tr_passed := (ToNumber stored <=? snd entry)%float |})]
      end) thresholds).

Definition destroy : Eff unit :=
  observers <- gets (fun w => PM.observers (desktop w)) ;;
  forEach observers (fun observer =>
    try_catch (host_call (HDisconnect (obs_id observer)))
              (fun _ => console_warn "Failed to disconnect observer:")) ;;
  interval <- gets (fun w => PM.memoryCheckInterval (desktop w)) ;;
  match interval with
  | Some id => host_call (HClearInterval id) ;; this (PM.set_memoryCheckInterval None)
  | None => ret tt
  end ;;
  frame <- gets (fun w => PM.frameRateMonitor (desktop w)) ;;
  match frame with
  | Some id => host_call (HCancelAnimationFrame id) ;; this (PM.set_frameRateMonitor None)
  | None => ret tt
  end ;;
  cleanups <- gets (fun w => PM.cleanupFunctions (desktop w)) ;;
  forEach cleanups (fun cleanupFn =>
    try_catch (host_call (HRunCleanup cleanupFn))
              (fun _ => console_warn "Failed to execute cleanup function:")) ;;
  this (PM.set_observers []) ;;
  this (PM.set_cleanupFunctions []) ;;
  o <- alloc (CObject ∅) ;;
  this (PM.set_metrics o) ;;
  this (PM.set_isInitialized false) ;;
  dev <- is_development ;;
  when dev (console_log "Performance monitoring destroyed and cleaned up").

Definition cleanup : Eff unit := destroy.

End PerformanceMonitor.

(** ** The mobile collector: class MobilePerformanceMonitor *)

(** What [getPerformanceScore] returns. *)
Record PerformanceScore : Type := {
  overall : float;
  score_lcp : float;
  score_fid : float;
  score_cls : float;
  score_isLowEndDevice : bool;
  recommendations : list string
}.

(** The [scores] object literal of [getPerformanceScore]; its keys are
    always [lcp], [fid] and [cls]. *)
Record Scores : Type := { s_lcp : float; s_fid : float; s_cls : float }.

Module MobilePerformanceMonitor.

Definition this (f : MPM.t -> MPM.t) : Eff unit :=
  modify (fun w => set_mobile (f (mobile w)) w).

Definition get_metric (name : string) : Eff JsValue :=
  o <- gets (fun w => MPM.metrics (mobile w)) ;;
  get_prop o name.

Definition set_metric (name : string) (v : JsValue) : Eff unit :=
  o <- gets (fun w => MPM.metrics (mobile w)) ;;
  set_prop o name v.

(** Each test is [x && x <= 4] (or the like) and the result is their
    [||]; only its truth value is ever used. *)
Definition detectLowEndDevice (h : Host) : bool :=
  let hasLowMemory :=
    match deviceMemory h with
    | Some m => truthy (JNum m) && (m <=? 4)%float
    | None => false
    end in
  let hasLowCPU :=
    match hardwareConcurrency h with
    | Some c => truthy (JNum c) && (c <=? 4)%float
    | None => false
    end in
  let hasSlowConnection :=
    hasConnection h &&
    (String.eqb (effectiveType h) "slow-2g" || String.eqb (effectiveType h) "2g"
     || String.eqb (effectiveType h) "3g") in
  let hasSmallScreen := (innerWidth h <=? 768)%float in
  hasLowMemory || hasLowCPU || hasSlowConnection || hasSmallScreen.

Definition detectReducedMotion (h : Host) : bool := prefersReducedMotion h.

Definition push_observer (o : Observer) : Eff unit :=
  this (fun p => MPM.set_observers (MPM.observers p ++ [o]) p).

Definition push_cleanup (c : CleanupFn) : Eff unit :=
  this (fun p => MPM.set_cleanupFunctions (MPM.cleanupFunctions p ++ [c]) p).

(** [sendToAnalytics(metric)]: a synchronous [gtag] call under try/catch. *)
Definition sendToAnalytics (name : string) (value : JsValue) : Eff unit :=
  try_catch (call_gtag name value)
            (fun _ => console_warn "Failed to send metric to analytics:").

(** [checkPerformanceWarnings]: the messages of the warnings raised, each
    also written to the console in development. *)
Definition checkPerformanceWarnings (name : string) (v : JsValue) : Eff (list string) :=
  let warnings : list string :=
    ((if String.eqb name "LCP" && (2500 <? ToNumber v)%float
     then ["LCP is above 2.5s threshold. Consider optimizing images and reducing render-blocking resources."]
     else []) ++
    (if String.eqb name "FID" && (100 <? ToNumber v)%float
     then ["FID is above 100ms threshold. Consider reducing JavaScript execution time."]
     else []) ++
    (if String.eqb name "CLS" && (0.1 <? ToNumber v)%float
     then ["CLS is above 0.1 threshold. Consider fixing layout shifts."]
     else []) ++
    (if String.eqb name "High Memory Usage" && (0.9 <? ToNumber v)%float
     then ["Memory usage is critically high. Consider implementing memory cleanup."]
     else []))%list in
  dev <- is_development ;;
  forEach warnings (fun message =>
    when dev (console_warn ("Performance Warning - " ++ message)%string)) ;;
  ret warnings.

Definition logMetric (name : string) (v : JsValue) : Eff unit :=
  timestamp <- Date_now ;;
  metric <- gets (fun w =>
    JRecord [("name", JStr name);
             ("value", v);
             ("timestamp", JNum timestamp);
             ("deviceInfo",
              JRecord [("isLowEnd", JBool (MPM.isLowEndDevice (mobile w)));
                       ("isReducedMotion", JBool (MPM.isReducedMotion (mobile w)));
                       ("userAgent", JStr (userAgent (host w)));
                       ("platform", JStr (platform (host w)));
                       ("language", JStr (language (host w)))])]) ;;
  slot <- get_metric name ;;
  when (negb (truthy slot))
       (a <- alloc (CArray []) ;; set_metric name (JRef a)) ;;
  slot <- get_metric name ;;
  full <- length_ge slot 50 ;;
  when full (array_shift slot) ;;
  slot <- get_metric name ;;
  array_push slot metric ;;
  dev <- is_development ;;
  when dev (console_log ("Performance Metric - " ++ name ++ ":")%string) ;;
  prod <- is_production ;;
  when prod (sendToAnalytics name v) ;;
  _ <- checkPerformanceWarnings name v ;;
  ret tt.

Definition lcpObserver_callback (entries : list PaintEntry) : Eff unit :=
  match last entries with
  | None => throw TypeError
  | Some lastEntry =>
      set_metric "lcp" (JNum (pe_startTime lastEntry)) ;;
      logMetric "LCP" (JNum (pe_startTime lastEntry))
  end.

Definition fidObserver_callback (entries : list FirstInputEntry) : Eff unit :=
  forEach entries (fun entry =>
    set_metric "fid" (JNum (fi_processingStart entry - fi_startTime entry)%float) ;;
    fid <- get_metric "fid" ;;
    logMetric "FID" fid).

Definition clsObserver_callback (id : positive) (entries : list LayoutShift) : Eff unit :=
  forEach entries (fun entry =>
    when (negb (hadRecentInput entry)) (cls_add id (value entry))) ;;
  total <- gets (cls_total id) ;;
  set_metric "cls" (JNum total) ;;
  logMetric "CLS" (JNum total).

Definition setupPerformanceObserver : Eff unit :=
  po <- gets (fun w => hasPerformanceObserver (host w)) ;;
  when po
    (try_catch
       (lcpObserver <- new_PerformanceObserver "largest-contentful-paint" ;;
        observe lcpObserver ;;
        push_observer lcpObserver)
       (fun _ => console_warn "LCP observer not supported:") ;;
     try_catch
       (fidObserver <- new_PerformanceObserver "first-input" ;;
        observe fidObserver ;;
        push_observer fidObserver)
       (fun _ => console_warn "FID observer not supported:") ;;
     try_catch
       (clsObserver <- new_PerformanceObserver "layout-shift" ;;
        modify (fun w => set_clsValue (<[obs_id clsObserver := 0%float]> (clsValue w)) w) ;;
        observe clsObserver ;;
        push_observer clsObserver)
       (fun _ => console_warn "CLS observer not supported:")).

Definition network_record (h : Host) : JsValue :=
  JRecord [("effectiveType", JStr (effectiveType h));
           ("downlink", JNum (downlink h));
           ("rtt", JNum (rtt h));
           ("saveData", JBool (saveData h))].

Definition setupNetworkObserver : Eff unit :=
  conn <- gets (fun w => hasConnection (host w)) ;;
  when conn
    (network <- gets (fun w => network_record (host w)) ;;
     set_metric "network" network ;;
     host_call (HAddListener "connection" "change") ;;
     push_cleanup RemoveNetworkListener).

(** [handleNetworkChange] *)
Definition handleNetworkChange : Eff unit :=
  network <- gets (fun w => network_record (host w)) ;;
  set_metric "network" network ;;
  logMetric "Network Change" network.

(** The battery promise is only requested here; [battery_ready] is its
    [then] callback, up to the registration of the two change handlers (the
    handlers themselves are not modelled). *)
Definition setupBatteryObserver : Eff unit :=
  bat <- gets (fun w => hasGetBattery (host w)) ;;
  when bat (host_call HGetBattery).

Definition battery_ready (level : float) (charging : bool) : Eff unit :=
  set_metric "battery" (JRecord [("level", JNum level); ("charging", JBool charging)]) ;;
  host_call (HAddListener "battery" "levelchange") ;;
  host_call (HAddListener "battery" "chargingchange") ;;
  push_cleanup RemoveBatteryListeners.

Definition setupMemoryObserver : Eff unit :=
  mem <- gets (fun w => hasMemory (host w)) ;;
  when mem
    (id <- fresh_handle ;;
     host_call (HSetInterval id 30000%N) ;;
     this (MPM.set_memoryCheckInterval (Some id))).

Definition setupIntersectionObserver : Eff unit :=
  io <- gets (fun w => hasIntersectionObserver (host w)) ;;
  when io
    (id <- fresh_handle ;;
     host_call (HNewIntersectionObserver id) ;;
     this (MPM.set_intersectionObserver (Some id))).

(** The callback of the 30 s interval of [setupMemoryObserver]. *)
Definition memoryCheck (memory : MemoryInfo) : Eff unit :=
  let memoryUsage := (usedJSHeapSize memory / jsHeapSizeLimit memory)%float in
  when (0.7 <? memoryUsage)%float
       (set_metric "memory"
          (JRecord [("usedJSHeapSize", JNum (usedJSHeapSize memory));
                    ("totalJSHeapSize", JNum (totalJSHeapSize memory));
                    ("jsHeapSizeLimit", JNum (jsHeapSizeLimit memory));
                    ("usage", JNum memoryUsage)]) ;;
        when (0.8 <? memoryUsage)%float
             (logMetric "High Memory Usage" (JNum memoryUsage))).

(** The callback of the intersection observer. *)
Definition intersectionObserver_callback (entries : list IntersectionEntry) : Eff unit :=
  forEach entries (fun entry =>
    when (isIntersecting entry) (logMetric "Element Visible" (JStr (tagName entry)))).

Definition init : Eff unit :=
  setupPerformanceObserver ;;
  setupNetworkObserver ;;
  setupBatteryObserver ;;
  setupMemoryObserver ;;
  setupIntersectionObserver.

Definition constructor : Eff unit :=
  o <- alloc (CObject ∅) ;;
  h <- gets host ;;
  this (fun _ => MPM.mk o [] [] (detectLowEndDevice h) (detectReducedMotion h)
                        None None None) ;;
  init.

(** [this.metrics.lcp || 0] and the breakpoints. *)
Definition getLCPScore : Eff float :=
  stored <- get_metric "lcp" ;;
  let lcp := ToNumber (js_or stored (JNum 0)) in
  ret (if (lcp <=? 2500)%float then 100
       else if (lcp <=? 4000)%float then 75
       else if (lcp <=? 6000)%float then 50
       else 25)%float.

Definition getFIDScore : Eff float :=
  stored <- get_metric "fid" ;;
  let fid := ToNumber (js_or stored (JNum 0)) in
  ret (if (fid <=? 100)%float then 100
       else if (fid <=? 300)%float then 75
       else if (fid <=? 500)%float then 50
       else 25)%float.

Definition getCLSScore : Eff float :=
  stored <- get_metric "cls" ;;
  let cls := ToNumber (js_or stored (JNum 0)) in
  ret (if (cls <=? 0.1)%float then 100
       else if (cls <=? 0.25)%float then 75
       else if (cls <=? 0.5)%float then 50
       else 25)%float.

Definition getRecommendations (scores : Scores) : Eff (list string) :=
  lowEnd <- gets (fun w => MPM.isLowEndDevice (mobile w)) ;;
  ret (((if (s_lcp scores <? 75)%float
        then ["Optimize images and reduce render-blocking resources"] else []) ++
       (if (s_fid scores <? 75)%float
        then ["Reduce JavaScript execution time and break up long tasks"] else []) ++
       (if (s_cls scores <? 75)%float
        then ["Fix layout shifts by reserving space for dynamic content"] else []) ++
       (if lowEnd
        then ["Consider implementing progressive enhancement for low-end devices"] else []))%list).

(** [Object.values(scores).reduce((a, b) => a + b, 0) / Object.keys(scores).length]:
    the three values are added to 0 in key order and divided by 3. *)
Definition getPerformanceScore : Eff PerformanceScore :=
  lcp <- getLCPScore ;;
  fid <- getFIDScore ;;
  cls <- getCLSScore ;;
  let scores := {| s_lcp := lcp; s_fid := fid; s_cls := cls |} in
  let averageScore := (fold_left PrimFloat.add [s_lcp scores; s_fid scores; s_cls scores] 0
                       / 3)%float in
  lowEnd <- gets (fun w => MPM.isLowEndDevice (mobile w)) ;;
  recs <- getRecommendations scores ;;
  ret {| overall := Math_round averageScore;
         score_lcp := s_lcp scores;
         score_fid := s_fid scores;
         score_cls := s_cls scores;
         score_isLowEndDevice := lowEnd;
         recommendations := recs |}.

Definition destroy : Eff unit :=
  observers <- gets (fun w => MPM.observers (mobile w)) ;;
  forEach observers (fun observer =>
    try_catch (host_call (HDisconnect (obs_id observer)))
              (fun _ => console_warn "Failed to disconnect observer:")) ;;
  io <- gets (fun w => MPM.intersectionObserver (mobile w)) ;;
  match io with
  | Some id => try_catch (host_call (HDisconnect id))
                         (fun _ => console_warn "Failed to disconnect intersection observer:")
  | None => ret tt
  end ;;
  interval <- gets (fun w => MPM.memoryCheckInterval (mobile w)) ;;
  match interval with
  | Some id => host_call (HClearInterval id) ;; this (MPM.set_memoryCheckInterval None)
  | None => ret tt
  end ;;
  battery <- gets (fun w => MPM.batteryCheckInterval (mobile w)) ;;
  match battery with
  | Some id => host_call (HClearInterval id) ;; this (MPM.set_batteryCheckInterval None)
  | None => ret tt
  end ;;
  cleanups <- gets (fun w => MPM.cleanupFunctions (mobile w)) ;;
  forEach cleanups (fun cleanupFn =>
    try_catch (host_call (HRunCleanup cleanupFn))
              (fun _ => console_warn "Failed to execute cleanup function:")) ;;
  this (MPM.set_observers []) ;;
  this (MPM.set_cleanupFunctions []) ;;
  o <- alloc (CObject ∅) ;;
  this (MPM.set_metrics o) ;;
  dev <- is_development ;;
  when dev (console_log "Mobile performance monitoring destroyed and cleaned up").

(** [return this.metrics]: the store object itself. *)
Definition getMetrics : Eff JsValue :=
  o <- gets (fun w => MPM.metrics (mobile w)) ;;
  ret (JRef o).

End MobilePerformanceMonitor.

(** ** Rate limiters: debounce.debounce and throttle.throttle *)

(** Both wrap a function [func] of the caller.  Of a call [func(...args)]
    the model keeps that it was made, with which arguments, and what it
    threw, if anything.  The closure variables and the pending timers of the
    platform are the state; a timer is kept with the arguments its callback
    closes over. *)

Module Debounce.
Section Debounce.
Context {Args : Type}.
Variable func : Args -> option JsError.
Variable wait : N.
Variable immediate : bool.

(** [timeout] is [None] while the variable is [undefined] or [null]. *)
Record t : Type := mk {
  timeout : option positive;
  timers : list (positive * (N * Args));
  nextTimer : positive;
  calls : list Args
}.

(** [let timeout;] *)
Definition debounce : t := mk None [] 1 [].

(** [func(...args)] *)
Definition call_func (args : Args) (s : t) : Completion unit * t :=
  (match func args with Some e => Throw e | None => Normal tt end,
   mk (timeout s) (timers s) (nextTimer s) (calls s ++ [args])).

(** [clearTimeout(id)]; clearing [undefined] or [null] does nothing. *)
Definition clearTimeout (id : option positive) (s : t) : t :=
  match id with
  | Some i => mk (timeout s) (List.filter (fun tm => negb (Pos.eqb (fst tm) i)) (timers s))
                 (nextTimer s) (calls s)
  | None => s
  end.

Definition executedFunction (args : Args) (s : t) : Completion unit * t :=
  let callNow := immediate && negb (bool_decide (is_Some (timeout s))) in
  let s := clearTimeout (timeout s) s in
  let id := nextTimer s in
  let s := mk (Some id) (timers s ++ [(id, (wait, args))]) (Pos.succ id) (calls s) in
  if callNow then call_func args s else (Normal tt, s).

(** The timer callback [later], closed over [args]. *)
Definition later (args : Args) (s : t) : Completion unit * t :=
  let s := mk None (timers s) (nextTimer s) (calls s) in
  if negb immediate then call_func args s else (Normal tt, s).

(** The platform runs timer [id]: a pending timer leaves the table and its
    callback runs; a timer that is not pending (cleared, or run before) does
    nothing. *)
Definition fire (id : positive) (s : t) : Completion unit * t :=
  match List.find (fun tm => Pos.eqb (fst tm) id) (timers s) with
  | Some (_, (_, args)) =>
      later args (mk (timeout s)
                     (List.filter (fun tm => negb (Pos.eqb (fst tm) id)) (timers s))
                     (nextTimer s) (calls s))
  | None => (Normal tt, s)
  end.

End Debounce.
End Debounce.

Module Throttle.
Section Throttle.
Context {Args : Type}.
Variable func : Args -> option JsError.
Variable limit : N.

(** [inThrottle] is [false] while the variable is [undefined]. *)
Record t : Type := mk {
  inThrottle : bool;
  timers : list (positive * N);
  nextTimer : positive;
  calls : list Args
}.

(** [let inThrottle;] *)
Definition throttle : t := mk false [] 1 [].

(** When [func] throws, the two statements after it are not reached. *)
Definition executedFunction (args : Args) (s : t) : Completion unit * t :=
  if negb (inThrottle s) then
    match func args with
    | Some e => (Throw e, mk (inThrottle s) (timers s) (nextTimer s) (calls s ++ [args]))
    | None =>
        (Normal tt,
         mk true (timers s ++ [(nextTimer s, limit)]) (Pos.succ (nextTimer s))
            (calls s ++ [args]))
    end
  else (Normal tt, s).

(** The platform runs timer [id], whose callback is [inThrottle = false]. *)
Definition fire (id : positive) (s : t) : t :=
  if existsb (fun tm => Pos.eqb (fst tm) id) (timers s) then
    mk false (List.filter (fun tm => negb (Pos.eqb (fst tm) id)) (timers s))
       (nextTimer s) (calls s)
  else s.

End Throttle.
End Throttle.

(** ** The animation loop: animationPerformance.animateWithRAF *)

(** [callback] is the caller's.  Of its [n]-th run the model keeps what it
    throws, if anything, and whether it calls the cancel function that
    [animateWithRAF] returned; it has no other access to the closure.  The
    state is the closure variable [animationId] and the frames the platform
    has pending. *)

Module AnimateWithRAF.
Section AnimateWithRAF.
Variable callback : nat -> option JsError * bool.

Record t : Type := mk {
  animationId : option positive;
  frames : list positive;
  nextFrame : positive;
  runs : nat
}.

(** The function [animateWithRAF] returns:
    [if (animationId) cancelAnimationFrame(animationId)]. *)
Definition cancel (s : t) : t :=
  match animationId s with
  | Some id => mk (animationId s) (List.filter (fun f => negb (Pos.eqb f id)) (frames s))
                  (nextFrame s) (runs s)
  | None => s
  end.

(** [animate]: the callback runs, then the next frame is requested; an
    exception of the callback leaves before the request. *)
Definition animate (s : t) : Completion unit * t :=
  let n := runs s in
  let s := mk (animationId s) (frames s) (nextFrame s) (S n) in
  let s := if snd (callback n) then cancel s else s in
  match fst (callback n) with
  | Some e => (Throw e, s)
  | None =>
      (Normal tt,
       mk (Some (nextFrame s)) (frames s ++ [nextFrame s]) (Pos.succ (nextFrame s)) (runs s))
  end.

(** [let animationId; animate();] *)
Definition animateWithRAF : Completion unit * t := animate (mk None [] 1 0).

(** The platform runs frame [id]: a pending frame leaves the table and
    [animate] runs; a frame that is not pending does nothing. *)
Definition frame (id : positive) (s : t) : Completion unit * t :=
  if existsb (Pos.eqb id) (frames s) then
    animate (mk (animationId s) (List.filter (fun f => negb (Pos.eqb f id)) (frames s))
                (nextFrame s) (runs s))
  else (Normal tt, s).

End AnimateWithRAF.
End AnimateWithRAF.

(** ** A page in which both modules have been loaded *)

Definition blank (h : Host) : World :=
  {| heap := [];
     desktop := PM.mk 0 [] false [] None None;
     mobile := MPM.mk 0 [] [] false false None None None;
     clsValue := ∅;
     host := h;
     dateNow := 0;
     perfNow := 0;
     console := [];
     trace := [];
     nextHandle := 1 |}.

(** Module load: [new PerformanceMonitor()] and [new MobilePerformanceMonitor()]. *)
Definition load_page (h : Host) : World :=
  exec (PerformanceMonitor.constructor ;; MobilePerformanceMonitor.constructor) (blank h).

(** A browser with every capability and no analytics tag. *)
Definition modern_browser : Host :=
  {| hasPerformanceObserver := true;
     observeThrows := fun _ => false;
     hasMemory := true;
     hasReactReconciler := false;
     hasConnection := true;
     effectiveType := "4g";
     downlink := 10;
     rtt := 50;
     saveData := false;
     hasGetBattery := true;
     hasIntersectionObserver := true;
     gtag := None;
     hasAbortController := true;
     nodeEnv := "production";
     deviceMemory := Some 8%float;
     hardwareConcurrency := Some 8%float;
     innerWidth := 1280;
     prefersReducedMotion := false;
     userAgent := "Mozilla/5.0";
     platform := "Linux x86_64";
     language := "en-US" |}.

(** A host without any of the optional hooks. *)
Definition bare_host : Host :=
  {| hasPerformanceObserver := false;
     observeThrows := fun _ => false;
     hasMemory := false;
     hasReactReconciler := false;
     hasConnection := false;
     effectiveType := EmptyString;
     downlink := 0;
     rtt := 0;
     saveData := false;
     hasGetBattery := false;
     hasIntersectionObserver := false;
     gtag := None;
     hasAbortController := false;
     nodeEnv := "test";
     deviceMemory := None;
     hardwareConcurrency := None;
     innerWidth := 1024;
     prefersReducedMotion := false;
     userAgent := "jsdom";
     platform := EmptyString;
     language := "en-US" |}.

(** ** Observations used in the statements *)

(** The series stored under [name] in object [o]: the elements of the array
    the property refers to, when it is an array. *)
Definition series_at (h : list Cell) (o : nat) (name : string) : option (list JsValue) :=
  snd <$> as_array h (read_prop h o name).

(** A computation that completes normally from every world. *)
Definition never_throws {A} (c : Eff A) : Prop :=
  forall w, exists a, completion c w = Normal a.

(** A computation that leaves an observation of the world as it was. *)
Definition preserves {A X} (f : World -> X) (c : Eff A) : Prop :=
  forall w, f (exec c w) = f w.

(** FIFO eviction: what is left of a series at capacity [limit] before one
    more element is pushed. *)
Definition evict (limit : nat) (elems : list JsValue) : list JsValue :=
  if (limit <=? length elems)%nat then tail elems else elems.

(** The sample literal of [reportMetric]. *)
Definition sample (v : JsValue) (timestamp : float) : JsValue :=
  JRecord [("value", v); ("timestamp", JNum timestamp)].

(** The [value] field of a record. *)
Definition value_of (s : JsValue) : JsValue :=
  match s with
  | JRecord fields => default JUndefined (snd <$> List.find (fun f => String.eqb (fst f) "value") fields)
  | _ => JUndefined
  end.

Module PerformanceMonitorView.
(** The property table of the desktop store. *)
Definition store (w : World) : gmap string JsValue :=
  obj_props (heap w) (PM.metrics (desktop w)).
Definition series (name : string) (w : World) : option (list JsValue) :=
  series_at (heap w) (PM.metrics (desktop w)) name.
(** The collector as a caller can observe it: the contents of the store
    and the other fields; the identity of the store object is left out. *)
Definition observable (w : World) : gmap string JsValue * PM.t :=
  (store w, PM.set_metrics 0 (desktop w)).
End PerformanceMonitorView.

Module MobilePerformanceMonitorView.
Definition store (w : World) : gmap string JsValue :=
  obj_props (heap w) (MPM.metrics (mobile w)).
Definition series (name : string) (w : World) : option (list JsValue) :=
  series_at (heap w) (MPM.metrics (mobile w)) name.
Definition observable (w : World) : gmap string JsValue * MPM.t :=
  (store w, MPM.set_metrics 0 (mobile w)).
End MobilePerformanceMonitorView.

(** ** Vocabulary of the statements and scenarios *)

(** The code shape shared by [reportMetric], the resource observer and
    [logMetric]: create the series if the slot is falsy, drop the oldest
    element at [limit], push. *)
Definition push_bounded (o : nat) (name : string) (limit : nat) (x : JsValue) : Eff unit :=
  slot <- get_prop o name ;;
  when (negb (truthy slot)) (a <- alloc (CArray []) ;; set_prop o name (JRef a)) ;;
  slot <- get_prop o name ;;
  full <- length_ge slot limit ;;
  when full (array_shift slot) ;;
  slot <- get_prop o name ;;
  array_push slot x.

(** The slot can take a sample: the store is an object and the slot is
    falsy or already a series. *)
Definition slot_ready (h : list Cell) (o : nat) (name : string) : Prop :=
  (exists props, h !! o = Some (CObject props)) /\
  (truthy (read_prop h o name) = false \/ is_Some (series_at h o name)).

(** The slot is taken: it reads a truthy value that is not an array, such
    as a number, a record, or a member the store inherits from
    [Object.prototype] ([constructor], [toString], ...). *)
Definition slot_taken (h : list Cell) (o : nat) (name : string) : Prop :=
  truthy (read_prop h o name) = true /\ series_at h o name = None.

(** What [reportMetric] does after the push. *)
Definition reportMetric_after_push (name : string) (v : JsValue) : Eff unit :=
  try_catch
    (call_gtag name v ;;
     _ <- PerformanceMonitor.sendToAnalytics_start name v ;;
     dev <- is_development ;;
     when dev (console_log ("Performance Metric - " ++ name ++ ":")%string))
    (fun _ => console_warn "Failed to report metric:").

(** The last [n] elements of a list. *)
Definition lastn {A} (n : nat) (l : list A) : list A := drop (length l - n) l.

(** Calls of [reportMetric name], one after the other, each at its own
    time on the page clock. *)
Definition reportMetric_all (name : string) (calls : list (JsValue * float)) (w : World)
  : World :=
  fold_left (fun w c => exec (PerformanceMonitor.reportMetric name (fst c))
                             (set_dateNow (snd c) w)) calls w.

Definition samples_of (calls : list (JsValue * float)) : list JsValue :=
  map (fun c => sample (fst c) (snd c)) calls.

(** The metric literal of [logMetric], built at time [t] on a device [m]
    of page [h]. *)
Definition metric_record (name : string) (v : JsValue) (t : float) (m : MPM.t) (h : Host)
  : JsValue :=
  JRecord [("name", JStr name);
           ("value", v);
           ("timestamp", JNum t);
           ("deviceInfo",
            JRecord [("isLowEnd", JBool (MPM.isLowEndDevice m));
                     ("isReducedMotion", JBool (MPM.isReducedMotion m));
                     ("userAgent", JStr (userAgent h));
                     ("platform", JStr (platform h));
                     ("language", JStr (language h))])].

(** What [logMetric] does after the push. *)
Definition logMetric_after_push (name : string) (v : JsValue) : Eff unit :=
  dev <- is_development ;;
  when dev (console_log ("Performance Metric - " ++ name ++ ":")%string) ;;
  prod <- is_production ;;
  when prod (MobilePerformanceMonitor.sendToAnalytics name v) ;;
  _ <- MobilePerformanceMonitor.checkPerformanceWarnings name v ;;
  ret tt.

(** Calls of [logMetric name], one after the other, each at its own time. *)
Definition logMetric_all (name : string) (calls : list (JsValue * float)) (w : World)
  : World :=
  fold_left (fun w c => exec (MobilePerformanceMonitor.logMetric name (fst c))
                             (set_dateNow (snd c) w)) calls w.

Definition metrics_of (name : string) (m : MPM.t) (h : Host) (calls : list (JsValue * float))
  : list JsValue :=
  map (fun c => metric_record name (fst c) (snd c) m h) calls.

(** The record the resource observer stores for an entry. *)
Definition resource_record (entry : ResourceEntry) : JsValue :=
  JRecord [("name", JStr (re_name entry));
           ("type", JStr (initiatorType entry));
           ("duration", JNum (duration entry));
           ("size", js_or (transferSize entry) (JNum 0))].

(** The entries the resource observer keeps: images and videos. *)
Definition is_media (entry : ResourceEntry) : bool :=
  String.eqb (initiatorType entry) "img" || String.eqb (initiatorType entry) "video".

(** Resource notifications delivered one after the other. *)
Definition resource_notifications (batches : list (list ResourceEntry)) (w : World) : World :=
  fold_left (fun w entries => exec (PerformanceMonitor.resourceObserver_callback entries) w)
            batches w.

Definition num_of_nat (n : nat) : float := PrimFloat.of_uint63 (Uint63.of_Z (Z.of_nat n)).

(** Values 1..150, the i-th recorded at time i. *)
Definition scenario_calls : list (JsValue * float) :=
  map (fun i => (JNum (num_of_nat i), num_of_nat i)) (seq 1 150).

(** 60 image loads with a script load in front. *)
Definition scenario_batches : list (list ResourceEntry) :=
  [ {| re_name := "app.js"; initiatorType := "script"; duration := 3; transferSize := JNum 900 |}
    :: map (fun i => {| re_name := "photo.png"; initiatorType := "img";
                        duration := num_of_nat i; transferSize := JUndefined |}) (seq 1 60) ].

Definition scenario_world : World := load_page modern_browser.

(** The platform calls [destroy] makes for a desktop collector. *)
Definition destroy_calls (p : PM.t) : list HostCall :=
  map (fun o => HDisconnect (obs_id o)) (PM.observers p) ++
  match PM.memoryCheckInterval p with Some id => [HClearInterval id] | None => [] end ++
  match PM.frameRateMonitor p with Some id => [HCancelAnimationFrame id] | None => [] end ++
  map HRunCleanup (PM.cleanupFunctions p).

Definition destroy_log (h : Host) (msg : string) : list ConsoleEntry :=
  if String.eqb (nodeEnv h) "development" then [ConsoleLog msg] else [].

(** The platform calls [destroy] makes for a mobile collector.  The
    intersection observer is disconnected but stays in its field. *)
Definition mobile_destroy_calls (p : MPM.t) : list HostCall :=
  map (fun o => HDisconnect (obs_id o)) (MPM.observers p) ++
  match MPM.intersectionObserver p with Some id => [HDisconnect id] | None => [] end ++
  match MPM.memoryCheckInterval p with Some id => [HClearInterval id] | None => [] end ++
  match MPM.batteryCheckInterval p with Some id => [HClearInterval id] | None => [] end ++
  map HRunCleanup (MPM.cleanupFunctions p).

(** A page on which a series was recorded under "render" before the same
    name is used for a timing. *)
Definition page_with_render_series : World :=
  exec (PerformanceMonitor.reportMetric "render" (JNum 5)) scenario_world.

(** A unit of work that takes 12 ms and answers "done". *)
Definition twelve_ms_of_work : Eff string :=
  modify (set_perfNow 12) ;; ret "done".

(** The platform calls of one delivery whose timer is [id]. *)
Definition delivery_calls (id : positive) (name : string) (v : JsValue)
    (outcome : FetchOutcome) : list HostCall :=
  [HSetTimeout id 5000%N; HFetch "/api/analytics/performance" id name v] ++
  match outcome with
  | FetchResolved _ => [HClearTimeout id]
  | FetchRejected _ => []
  | FetchTimedOut => [HAbort id]
  end.

(** What a delivery writes to the console: one warning for a failure other
    than an abort, nothing otherwise. *)
Definition delivery_log (h : Host) (outcome : FetchOutcome) : list ConsoleEntry :=
  if hasAbortController h then
    match outcome with
    | FetchRejected e =>
        if String.eqb (error_name e) "AbortError" then []
        else [ConsoleWarn "Failed to send performance data:"]
    | _ => []
    end
  else [ConsoleWarn "Failed to send performance data:"].

(** Layout-shift notifications delivered one after the other to observer
    [id] of the desktop collector, and of the mobile collector. *)
Definition desktop_layout_shifts (id : positive) (batches : list (list LayoutShift))
    (w : World) : World :=
  fold_left (fun w entries => exec (PerformanceMonitor.clsObserver_callback id entries) w)
            batches w.

Definition mobile_layout_shifts (id : positive) (batches : list (list LayoutShift))
    (w : World) : World :=
  fold_left (fun w entries => exec (MobilePerformanceMonitor.clsObserver_callback id entries) w)
            batches w.

(** The shifts that count: those not flagged as following recent input. *)
Definition counted (entries : list LayoutShift) : list LayoutShift :=
  List.filter (fun entry => negb (hadRecentInput entry)) entries.

(** The values of the counted shifts added in order onto [start]. *)
Definition sum_from (start : float) (entries : list LayoutShift) : float :=
  fold_left PrimFloat.add (map value (counted entries)) start.

(** The value a computation returns, when it returns. *)
Definition completion_value {A} (c : Eff A) (w : World) : option A :=
  match completion c w with
  | Normal a => Some a
  | Throw _ => None
  end.

Definition lcp_hint : string := "Optimize images and reduce render-blocking resources".
Definition low_end_hint : string :=
  "Consider implementing progressive enhancement for low-end devices".

(** A page without optional hooks whose mobile store is exactly
    [{lcp: 7000}]. *)
Definition page_lcp_7000 : World :=
  exec (MobilePerformanceMonitor.set_metric "lcp" (JNum 7000)) (load_page bare_host).

(** A page with one LCP sample in the desktop store. *)
Definition page_one_sample : World :=
  exec (PerformanceMonitor.reportMetric "LCP" (JNum 1)) scenario_world.

(** ** The store as a whole *)

(** The heap one bounded push leaves behind: the sample goes onto the
    series the slot refers to, or onto a new series when the slot is falsy;
    a slot that holds anything else makes the push fail with the heap as it
    was. *)
Definition pushed (h : list Cell) (o : nat) (name : string) (limit : nat) (x : JsValue)
  : list Cell :=
  match as_array h (read_prop h o name) with
  | Some (r, elems) => <[r := CArray (evict limit elems ++ [x])]> h
  | None =>
      if truthy (read_prop h o name) then h
      else <[length h := CArray [x]]>
             (write_prop (h ++ [CArray []]) o name (JRef (length h)))
  end.

(** A store in good order: an object whose array-valued slots refer to
    arrays of the heap, no array under two names, no series longer than
    [bound]. *)
Definition store_ok (bound : nat) (h : list Cell) (o : nat) : Prop :=
  exists props,
    h !! o = Some (CObject props) /\
    (forall k r, props !! k = Some (JRef r) ->
                 exists elems, h !! r = Some (CArray elems) /\ (length elems <= bound)%nat) /\
    (forall k1 k2 r, props !! k1 = Some (JRef r) -> props !! k2 = Some (JRef r) -> k1 = k2).


(** Two stores that share no array. *)
Definition stores_apart (h : list Cell) (o1 o2 : nat) : Prop :=
  o1 <> o2 /\
  forall k1 k2 r,
    obj_props h o1 !! k1 = Some (JRef r) -> obj_props h o2 !! k2 = Some (JRef r) -> False.

(** Both collectors in good order: the desktop series within 100 samples,
    the mobile series within 50, and nothing shared between the two. *)
Definition page_ok (w : World) : Prop :=
  store_ok 100 (heap w) (PM.metrics (desktop w)) /\
  store_ok 50 (heap w) (MPM.metrics (mobile w)) /\
  stores_apart (heap w) (PM.metrics (desktop w)) (MPM.metrics (mobile w)).

(** A computation that keeps a property of the world, however it ends. *)
Definition keeps {A} (P : World -> Prop) (c : Eff A) : Prop :=
  forall w, P w -> P (exec c w).

(** What can happen on a page once the modules are loaded: calls of the
    public methods, notifications from the platform, and the clocks moving
    on. *)
Inductive PageEvent : Type :=
| EvReportMetric (name : string) (value : JsValue)
| EvMeasure (name : string) (elapsed : float)
| EvLargestContentfulPaint (entries : list PaintEntry)
| EvFirstInput (entries : list FirstInputEntry)
| EvLayoutShift (id : positive) (entries : list LayoutShift)
| EvNavigation (entries : list NavigationEntry)
| EvPaint (entries : list NamedPaintEntry)
| EvResource (entries : list ResourceEntry)
| EvMemoryCheck (memory : MemoryInfo)
| EvDeliverySettled (timeoutId : positive) (outcome : FetchOutcome)
| EvInit
| EvDestroy
| EvGetMetrics
| EvCheckThresholds
| EvLogMetric (name : string) (value : JsValue)
| EvMobileLargestContentfulPaint (entries : list PaintEntry)
| EvMobileFirstInput (entries : list FirstInputEntry)
| EvMobileLayoutShift (id : positive) (entries : list LayoutShift)
| EvNetworkChange
| EvBatteryReady (level : float) (charging : bool)
| EvMobileMemoryCheck (memory : MemoryInfo)
| EvIntersection (entries : list IntersectionEntry)
| EvMobileInit
| EvMobileDestroy
| EvGetPerformanceScore
| EvClock (now : float).

(** A unit of work that takes [elapsed] ms on the performance clock. *)
Definition work_of (elapsed : float) : Eff unit :=
  modify (fun w => set_perfNow (perfNow w + elapsed)%float w).

Definition page_step (e : PageEvent) : Eff unit :=
  match e with
  | EvReportMetric name value => PerformanceMonitor.reportMetric name value
  | EvMeasure name elapsed => PerformanceMonitor.measure name (work_of elapsed)
  | EvLargestContentfulPaint entries => PerformanceMonitor.lcpObserver_callback entries
  | EvFirstInput entries => PerformanceMonitor.fidObserver_callback entries
  | EvLayoutShift id entries => PerformanceMonitor.clsObserver_callback id entries
  | EvNavigation entries => PerformanceMonitor.navigationObserver_callback entries
  | EvPaint entries => PerformanceMonitor.paintObserver_callback entries
  | EvResource entries => PerformanceMonitor.resourceObserver_callback entries
  | EvMemoryCheck memory => PerformanceMonitor.memoryCheck memory
  | EvDeliverySettled timeoutId outcome =>
      PerformanceMonitor.sendToAnalytics_settle timeoutId outcome
  | EvInit => PerformanceMonitor.init
  | EvDestroy => PerformanceMonitor.destroy
  | EvGetMetrics => _ <- PerformanceMonitor.getMetrics ;; ret tt
  | EvCheckThresholds => _ <- PerformanceMonitor.checkThresholds ;; ret tt
  | EvLogMetric name value => MobilePerformanceMonitor.logMetric name value
  | EvMobileLargestContentfulPaint entries => MobilePerformanceMonitor.lcpObserver_callback entries
  | EvMobileFirstInput entries => MobilePerformanceMonitor.fidObserver_callback entries
  | EvMobileLayoutShift id entries => MobilePerformanceMonitor.clsObserver_callback id entries
  | EvNetworkChange => MobilePerformanceMonitor.handleNetworkChange
  | EvBatteryReady level charging => MobilePerformanceMonitor.battery_ready level charging
  | EvMobileMemoryCheck memory => MobilePerformanceMonitor.memoryCheck memory
  | EvIntersection entries => MobilePerformanceMonitor.intersectionObserver_callback entries
  | EvMobileInit => MobilePerformanceMonitor.init
  | EvMobileDestroy => MobilePerformanceMonitor.destroy
  | EvGetPerformanceScore => _ <- MobilePerformanceMonitor.getPerformanceScore ;; ret tt
  | EvClock now => modify (set_dateNow now)
  end.

(** The page after a sequence of events; an event whose handler throws
    leaves the world as the handler left it, and the next event runs. *)
Definition page_run (events : list PageEvent) (w : World) : World :=
  fold_left (fun w e => exec (page_step e) w) events w.




(** A production page whose analytics tag throws on every call. *)
Definition page_with_failing_gtag : World :=
  load_page
    {| hasPerformanceObserver := true;
       observeThrows := fun _ => false;
       hasMemory := true;
       hasReactReconciler := false;
       hasConnection := true;
       effectiveType := "4g";
       downlink := 10;
       rtt := 50;
       saveData := false;
       hasGetBattery := true;
       hasIntersectionObserver := true;
       gtag := Some (Some (OtherError "SecurityError"));
       hasAbortController := true;
       nodeEnv := "production";
       deviceMemory := Some 8%float;
       hardwareConcurrency := Some 8%float;
       innerWidth := 1280;
       prefersReducedMotion := false;
       userAgent := "Mozilla/5.0";
       platform := "Linux x86_64";
       language := "en-US" |}.


(** The entry types [init] ends up subscribed to on host [h]: one observer
    per entry type whose [observe] call goes through; the paint observer
    shares its [try] block with the navigation observer and is lost with
    it. *)
Definition subscribed (h : Host) : list string :=
  if hasPerformanceObserver h then
    List.filter (fun ty => negb (observeThrows h ty))
                ["largest-contentful-paint"; "first-input"; "layout-shift"] ++
    (if observeThrows h "navigation" then []
     else "navigation" :: (if observeThrows h "paint" then [] else ["paint"])) ++
    List.filter (fun ty => negb (observeThrows h ty)) ["resource"]
  else [].

(** The platform calls by which a desktop collector in state [p] came to
    hold what it holds. *)
Definition acquire_calls (p : PM.t) : list HostCall :=
  map (fun o => HObserve (obs_id o) (obs_entryType o)) (PM.observers p) ++
  map (fun _ => HPatchReact) (PM.cleanupFunctions p) ++
  match PM.memoryCheckInterval p with Some id => [HSetInterval id 30000%N] | None => [] end.

(** The desktop collector part-way through the observer set-up of [init]
    started in world [base]: it holds one observer per entry type of
    [types], each subscribed by one [observe] call, and nothing else yet. *)
Definition subscribing (base : World) (types : list string) (w : World) : Prop :=
  trace w = trace base
            ++ map (fun o => HObserve (obs_id o) (obs_entryType o)) (PM.observers (desktop w)) /\
  map obs_entryType (PM.observers (desktop w)) = types /\
  PM.cleanupFunctions (desktop w) = [] /\
  PM.memoryCheckInterval (desktop w) = None /\
  PM.frameRateMonitor (desktop w) = None /\
  PM.isInitialized (desktop w) = false /\
  PM.metrics (desktop w) = PM.metrics (desktop base) /\
  heap w = heap base /\
  host w = host base.


(** A host on which [observe] throws for the navigation and layout-shift
    entry types, as on a browser that lacks them. *)
Definition partial_browser : Host :=
  {| hasPerformanceObserver := true;
     observeThrows := fun ty => String.eqb ty "navigation" || String.eqb ty "layout-shift";
     hasMemory := true;
     hasReactReconciler := true;
     hasConnection := false;
     effectiveType := EmptyString;
     downlink := 0;
     rtt := 0;
     saveData := false;
     hasGetBattery := false;
     hasIntersectionObserver := false;
     gtag := None;
     hasAbortController := true;
     nodeEnv := "production";
     deviceMemory := None;
     hardwareConcurrency := None;
     innerWidth := 1280;
     prefersReducedMotion := false;
     userAgent := "Mozilla/5.0";
     platform := "Linux x86_64";
     language := "en-US" |}.

(** The calls a computation added to the trace of [w]. *)
Definition calls_of {A} (c : Eff A) (w : World) : list HostCall :=
  drop (length (trace w)) (trace (exec c w)).


(** The line of the threshold report for one metric, given what the store
    holds under its name. *)
Definition threshold_line (metric : string) (threshold : float) (stored : JsValue)
  : list (string * ThresholdResult) :=
  match stored with
  | JUndefined => []
  | _ => [(metric, {| tr_value := stored;
                      tr_threshold := threshold;
                      tr_passed := (ToNumber stored <=? threshold)%float |})]
  end.

(** A report without the line of [metric]. *)
Definition without_line (metric : string) (report : list (string * ThresholdResult))
  : list (string * ThresholdResult) :=
  List.filter (fun line => negb (String.eqb (fst line) metric)) report.


(** The four score levels. *)
Definition score_levels : list float := [100; 75; 50; 25]%float.

(** What holds of an overall score computed from three levels: it lies
    between 25 and 100, it is 100 exactly when the three are, and below 75
    one of the three is below 75. *)
Definition overall_in_order (a b c : float) : bool :=
  let o := Math_round (fold_left PrimFloat.add [a; b; c] 0%float / 3)%float in
  ((25 <=? o) && (o <=? 100) &&
   Bool.eqb (o =? 100) ((a =? 100) && (b =? 100) && (c =? 100)) &&
   (negb (o <? 75) || (a <? 75) || (b <? 75) || (c <? 75)))%float.


(** The mobile collector part-way through [setupPerformanceObserver],
    started in world [base]. *)
Definition mobile_subscribing (base : World) (types : list string) (w : World) : Prop :=
  trace w = trace base
            ++ map (fun o => HObserve (obs_id o) (obs_entryType o)) (MPM.observers (mobile w)) /\
  map obs_entryType (MPM.observers (mobile w)) = types /\
  MPM.cleanupFunctions (mobile w) = [] /\
  MPM.memoryCheckInterval (mobile w) = None /\
  MPM.batteryCheckInterval (mobile w) = None /\
  MPM.intersectionObserver (mobile w) = None /\
  MPM.metrics (mobile w) = MPM.metrics (mobile base) /\
  MPM.isLowEndDevice (mobile w) = MPM.isLowEndDevice (mobile base) /\
  MPM.isReducedMotion (mobile w) = MPM.isReducedMotion (mobile base) /\
  heap w = heap base /\
  host w = host base.

(** The platform calls by which a mobile collector in state [p] came to
    hold what it holds, the battery request apart. *)
Definition mobile_acquire_calls (h : Host) (p : MPM.t) : list HostCall :=
  map (fun o => HObserve (obs_id o) (obs_entryType o)) (MPM.observers p) ++
  map (fun _ => HAddListener "connection" "change") (MPM.cleanupFunctions p) ++
  (if hasGetBattery h then [HGetBattery] else []) ++
  match MPM.memoryCheckInterval p with Some id => [HSetInterval id 30000%N] | None => [] end ++
  match MPM.intersectionObserver p with Some id => [HNewIntersectionObserver id] | None => [] end.


(** A page whose mobile store holds the three vitals as the observers
    write them: a slow LCP, a fast first input, no layout shift. *)
Definition page_with_vitals : World :=
  exec (MobilePerformanceMonitor.set_metric "lcp" (JNum 3100) ;;
        MobilePerformanceMonitor.set_metric "fid" (JNum 12) ;;
        MobilePerformanceMonitor.set_metric "cls" (JNum 0))
       scenario_world.


(** ** Handlers that complete *)

(** The names under which the collectors themselves keep a plain value or
    a record: what the observers and interval callbacks write with
    [this.metrics.x = ...]. *)
Definition desktop_scalars : list string :=
  ["lcp"; "fid"; "cls"; "fp"; "fcp"; "navigation"; "memory"].
Definition mobile_scalars : list string :=
  ["lcp"; "fid"; "cls"; "network"; "battery"; "memory"].

(** The names a history has used with [measure]. *)
Definition measured_names (events : list PageEvent) : list string :=
  flat_map (fun e => match e with EvMeasure name _ => [name] | _ => [] end) events.

(** A slot value a sample can be pushed under: falsy, or a reference. *)
Definition slot_open (v : JsValue) : Prop :=
  truthy v = false \/ exists r, v = JRef r.

(** Every name that is not kept for a plain value, nor was used with
    [measure] (the names of [measured]), nor is inherited from
    [Object.prototype], is open in both stores; and the mobile store has no
    own property under an inherited name. *)
Definition slots_open (measured : list string) (w : World) : Prop :=
  (forall name, ~ In name desktop_scalars -> ~ In name measured -> inherited name = false ->
                slot_open (read_prop (heap w) (PM.metrics (desktop w)) name)) /\
  (forall name, ~ In name mobile_scalars -> inherited name = false ->
                slot_open (read_prop (heap w) (MPM.metrics (mobile w)) name)) /\
  (forall name, inherited name = true ->
                obj_props (heap w) (MPM.metrics (mobile w)) !! name = None).

Definition page_calm (measured : list string) (w : World) : Prop :=
  page_ok w /\ slots_open measured w.

(** The events whose handler is sure to complete after a history that
    measured the names [measured]: all but a largest-contentful-paint
    notification without entries, a [logMetric] under one of the names the
    mobile collector keeps for a plain value or inherits from
    [Object.prototype], and a resource notification when [resources] was
    used with [measure]. *)
Definition completes (measured : list string) (e : PageEvent) : Prop :=
  match e with
  | EvLargestContentfulPaint entries => entries <> []
  | EvMobileLargestContentfulPaint entries => entries <> []
  | EvLogMetric name _ => ~ In name mobile_scalars /\ inherited name = false
  | EvResource _ => ~ In "resources" measured
  | _ => True
  end.

(** A computation that completes normally from every world with property
    [P]. *)
Definition sure {A} (P : World -> Prop) (c : Eff A) : Prop :=
  forall w, P w -> exists a, completion c w = Normal a.


(** ** Rate limiters in use *)

(** What can happen to a rate-limited function: it is called, or the
    platform runs one of the timers. *)
Inductive LimiterEvent (Args : Type) : Type :=
| Invoke (args : Args)
| TimerFires (id : positive).
Arguments Invoke {Args} args.
Arguments TimerFires {Args} id.

Section LimiterRuns.
Context {Args : Type}.
Variable func : Args -> option JsError.
Variable delay : N.

Definition debounce_step (immediate : bool) (s : Debounce.t) (e : LimiterEvent Args)
  : Debounce.t :=
  match e with
  | Invoke args => snd (Debounce.executedFunction func delay immediate args s)
  | TimerFires id => snd (Debounce.fire func immediate id s)
  end.

(** A debounced function after any history of calls and timers. *)
Definition debounce_run (immediate : bool) (events : list (LimiterEvent Args)) : Debounce.t :=
  fold_left (debounce_step immediate) events Debounce.debounce.

(** A burst: calls one after the other while no timer runs. *)
Definition debounce_burst (immediate : bool) (burst : list Args) (s : Debounce.t)
  : Debounce.t :=
  fold_left (fun s args => snd (Debounce.executedFunction func delay immediate args s)) burst s.

Definition throttle_step (s : Throttle.t) (e : LimiterEvent Args) : Throttle.t :=
  match e with
  | Invoke args => snd (Throttle.executedFunction func delay args s)
  | TimerFires id => Throttle.fire id s
  end.

Definition throttle_run (events : list (LimiterEvent Args)) : Throttle.t :=
  fold_left throttle_step events Throttle.throttle.

Definition throttle_burst (burst : list Args) (s : Throttle.t) : Throttle.t :=
  fold_left (fun s args => snd (Throttle.executedFunction func delay args s)) burst s.

(** The calls of a burst that reach [func] when the throttle is open: those
    on which [func] throws, up to and with the first on which it returns. *)
Fixpoint let_through (burst : list Args) : list Args :=
  match burst with
  | [] => []
  | args :: rest =>
      args :: match func args with Some _ => let_through rest | None => [] end
  end.

End LimiterRuns.

(** No timer is pending and [timeout] is unset. *)
Definition debounce_idle {Args} (s : @Debounce.t Args) : bool :=
  negb (bool_decide (is_Some (Debounce.timeout s))).

(** At most one timer is pending, and it is the one [timeout] names. *)
Definition debounce_inv {Args} (wait : N) (s : @Debounce.t Args) : Prop :=
  match Debounce.timeout s with
  | None => Debounce.timers s = []
  | Some id => exists args, Debounce.timers s = [(id, (wait, args))]
  end.

(** A reset timer is pending exactly while the throttle is closed. *)
Definition throttle_inv {Args} (limit : N) (s : @Throttle.t Args) : Prop :=
  if Throttle.inThrottle s then exists id, Throttle.timers s = [(id, limit)]
  else Throttle.timers s = [].


(** What can happen to an animation loop once it has started: the platform
    runs a frame, or the caller calls the cancel function. *)
Inductive FrameEvent : Type :=
| FrameRuns (id : positive)
| CancelCalled.

Definition raf_step (callback : nat -> option JsError * bool)
    (s : AnimateWithRAF.t) (e : FrameEvent) : AnimateWithRAF.t :=
  match e with
  | FrameRuns id => snd (AnimateWithRAF.frame callback id s)
  | CancelCalled => AnimateWithRAF.cancel s
  end.

(** The loop after [animateWithRAF(callback)] and any events since. *)
Definition raf_run (callback : nat -> option JsError * bool) (events : list FrameEvent)
  : AnimateWithRAF.t :=
  fold_left (raf_step callback) events (snd (AnimateWithRAF.animateWithRAF callback)).

(** No frame is pending, or one is and [animationId] names it. *)
Definition raf_inv (s : AnimateWithRAF.t) : Prop :=
  AnimateWithRAF.frames s = [] \/
  exists id, AnimateWithRAF.animationId s = Some id /\ AnimateWithRAF.frames s = [id].

(** * Proofs *)

(** ** The monad *)

Section Combinators.
Context {A B : Type}.

Lemma bind_normal (c : Eff A) (k : A -> Eff B) w a w' :
  c w = (Normal a, w') -> bind c k w = k a w'.
Proof. intros H. unfold bind. now rewrite H. Qed.

Lemma bind_throw (c : Eff A) (k : A -> Eff B) w e w' :
  c w = (Throw e, w') -> bind c k w = (Throw e, w').
Proof. intros H. unfold bind. now rewrite H. Qed.

Lemma never_throws_ret (a : A) : never_throws (ret a).
Proof. intros w. now exists a. Qed.

Lemma never_throws_bind (c : Eff A) (k : A -> Eff B) :
  never_throws c -> (forall a, never_throws (k a)) -> never_throws (bind c k).
Proof.
  intros Hc Hk w. destruct (Hc w) as [a Ha].
  unfold completion, bind in *. destruct (c w) as [[a'|e] w']; cbn in Ha; [|discriminate].
  apply Hk.
Qed.

Lemma never_throws_try_catch (body : Eff A) (handler : JsError -> Eff A) :
  (forall e, never_throws (handler e)) -> never_throws (try_catch body handler).
Proof.
  intros Hh w. unfold completion, try_catch.
  destruct (body w) as [[a|e] w']; cbn; [now exists a | apply Hh].
Qed.

Lemma never_throws_gets (f : World -> A) : never_throws (gets f).
Proof. intros w. now exists (f w). Qed.

Lemma preserves_ret {X} (f : World -> X) (a : A) : preserves f (ret a).
Proof. now intros w. Qed.

Lemma preserves_throw {X} (f : World -> X) (e : JsError) : preserves f (@throw A e).
Proof. now intros w. Qed.

Lemma preserves_gets {X} (f : World -> X) (g : World -> A) : preserves f (gets g).
Proof. now intros w. Qed.

Lemma preserves_bind {X} (f : World -> X) (c : Eff A) (k : A -> Eff B) :
  preserves f c -> (forall a, preserves f (k a)) -> preserves f (bind c k).
Proof.
  intros Hc Hk w. specialize (Hc w). unfold exec, bind in *.
  destruct (c w) as [[a|e] w'] eqn:E; cbn in *; [|exact Hc].
  rewrite <- Hc. apply Hk.
Qed.

Lemma preserves_try_catch {X} (f : World -> X) (body : Eff A) (handler : JsError -> Eff A) :
  preserves f body -> (forall e, preserves f (handler e)) ->
  preserves f (try_catch body handler).
Proof.
  intros Hb Hh w. specialize (Hb w). unfold exec, try_catch in *.
  destruct (body w) as [[a|e] w'] eqn:E; cbn in *; [exact Hb|].
  rewrite <- Hb. apply Hh.
Qed.
End Combinators.

Lemma never_throws_modify (g : World -> World) : never_throws (modify g).
Proof. intros w. now exists tt. Qed.

Lemma never_throws_when (b : bool) (c : Eff unit) :
  never_throws c -> never_throws (when b c).
Proof. intros H. destruct b; [exact H | apply never_throws_ret]. Qed.

Lemma never_throws_forEach {A} (l : list A) (f : A -> Eff unit) :
  (forall x, never_throws (f x)) -> never_throws (forEach l f).
Proof.
  intros H. induction l as [|x l IH]; cbn.
  - apply never_throws_ret.
  - apply never_throws_bind; [apply H | intros _; exact IH].
Qed.

Lemma preserves_modify {X} (f : World -> X) (g : World -> World) :
  (forall w, f (g w) = f w) -> preserves f (modify g).
Proof. intros H w. apply H. Qed.

Lemma preserves_when {X} (f : World -> X) (b : bool) (c : Eff unit) :
  preserves f c -> preserves f (when b c).
Proof. intros H. destruct b; [exact H | apply preserves_ret]. Qed.

Lemma preserves_forEach {A X} (f : World -> X) (l : list A) (g : A -> Eff unit) :
  (forall x, preserves f (g x)) -> preserves f (forEach l g).
Proof.
  intros H. induction l as [|x l IH]; cbn.
  - apply preserves_ret.
  - apply preserves_bind; [apply H | intros _; exact IH].
Qed.

Lemma preserves_array_shift {X} (f : World -> X) v :
  (forall h w, f (set_heap h w) = f w) -> preserves f (array_shift v).
Proof.
  intros H w. unfold exec, array_shift.
  destruct (as_array (heap w) v) as [[r elems]|]; cbn; [apply H | reflexivity].
Qed.

Lemma preserves_array_push {X} (f : World -> X) v x :
  (forall h w, f (set_heap h w) = f w) -> preserves f (array_push v x).
Proof.
  intros H w. unfold exec, array_push.
  destruct (as_array (heap w) v) as [[r elems]|]; cbn; [apply H | reflexivity].
Qed.

Lemma preserves_alloc {X} (f : World -> X) c :
  (forall h w, f (set_heap h w) = f w) -> preserves f (alloc c).
Proof. intros H w. apply H. Qed.

Lemma preserves_fresh_handle {X} (f : World -> X) :
  (forall n w, f (set_nextHandle n w) = f w) -> preserves f fresh_handle.
Proof. intros H w. apply H. Qed.

(** Goals of the form [preserves f c] and [never_throws c], by the structure
    of [c]. *)
Ltac eff_structure :=
  repeat first
    [ match goal with
      | |- forall _, _ => intro
      | |- preserves _ (match ?x with _ => _ end) => destruct x
      | |- never_throws (match ?x with _ => _ end) => destruct x
      end
    | apply preserves_ret | apply preserves_throw | apply preserves_gets
    | apply preserves_bind | apply preserves_try_catch | apply preserves_when
    | apply preserves_forEach
    | apply preserves_array_shift | apply preserves_array_push | apply preserves_alloc
    | apply preserves_fresh_handle
    | apply preserves_modify
    | apply never_throws_ret | apply never_throws_gets | apply never_throws_modify
    | apply never_throws_bind | apply never_throws_try_catch | apply never_throws_when
    | apply never_throws_forEach
    | reflexivity ].

Lemma sendToAnalytics_start_never_throws name v :
  never_throws (PerformanceMonitor.sendToAnalytics_start name v).
Proof. unfold PerformanceMonitor.sendToAnalytics_start, console_warn. eff_structure. Qed.

Lemma reportMetric_never_throws name v :
  never_throws (PerformanceMonitor.reportMetric name v).
Proof. unfold PerformanceMonitor.reportMetric, console_warn. eff_structure. Qed.

Lemma reportMetric_preserves_clsValue name v :
  preserves clsValue (PerformanceMonitor.reportMetric name v).
Proof.
  unfold PerformanceMonitor.reportMetric, PerformanceMonitor.sendToAnalytics_start,
    PerformanceMonitor.get_metric, PerformanceMonitor.set_metric, call_gtag,
    get_prop, set_prop, length_ge, Date_now, is_development, console_log, console_warn,
    host_call.
  eff_structure.
Qed.

(** ** The heap *)

Lemma as_array_ref h r elems :
  h !! r = Some (CArray elems) -> as_array h (JRef r) = Some (r, elems).
Proof. intros H. cbn. now rewrite H. Qed.

Arguments as_array : simpl never.
Arguments read_prop : simpl never.
Arguments write_prop : simpl never.
Arguments inherited : simpl never.
Arguments assigns : simpl never.

Lemma read_prop_own h o props name v :
  h !! o = Some (CObject props) -> props !! name = Some v -> read_prop h o name = v.
Proof. intros Ho Hn. unfold read_prop, obj_props. now rewrite Ho, Hn. Qed.

Lemma read_prop_absent h o props name :
  h !! o = Some (CObject props) -> props !! name = None ->
  read_prop h o name = if inherited name then JNative name else JUndefined.
Proof. intros Ho Hn. unfold read_prop, obj_props. now rewrite Ho, Hn. Qed.

Lemma read_prop_ref h o props k r :
  h !! o = Some (CObject props) -> read_prop h o k = JRef r -> props !! k = Some (JRef r).
Proof.
  intros Ho Hread. destruct (props !! k) as [v|] eqn:Hk.
  - rewrite (read_prop_own _ _ _ _ _ Ho Hk) in Hread. now subst.
  - rewrite (read_prop_absent _ _ _ _ Ho Hk) in Hread.
    revert Hread. destruct (inherited k); discriminate.
Qed.

(** A name that reads falsy is an own property or a name nothing is known
    under; an assignment to it reaches the property table. *)
Lemma falsy_assigns h o props name :
  h !! o = Some (CObject props) -> truthy (read_prop h o name) = false ->
  assigns props name = true.
Proof.
  intros Ho Hf. unfold assigns. destruct (props !! name) as [v|] eqn:Hn; [reflexivity|].
  rewrite (read_prop_absent _ _ _ _ Ho Hn) in Hf.
  destruct (String.eqb_spec name "__proto__") as [->|]; [discriminate | reflexivity].
Qed.

Lemma assigns_other props name : name <> "__proto__" -> assigns props name = true.
Proof.
  intros Hne. unfold assigns. destruct (props !! name); [reflexivity|].
  now destruct (String.eqb_spec name "__proto__").
Qed.

Lemma write_prop_assigns h o props name v :
  h !! o = Some (CObject props) -> assigns props name = true ->
  write_prop h o name v = <[o := CObject (<[name := v]> props)]> h.
Proof. intros Ho Ha. unfold write_prop. now rewrite Ho, Ha. Qed.

Lemma write_prop_ignored h o props name v :
  h !! o = Some (CObject props) -> assigns props name = false -> write_prop h o name v = h.
Proof. intros Ho Ha. unfold write_prop. now rewrite Ho, Ha. Qed.

(** The assignment of a new series to a slot that read falsy. *)
Lemma write_prop_falsy h o props name v c :
  h !! o = Some (CObject props) -> truthy (read_prop h o name) = false ->
  write_prop (h ++ [c]) o name v = <[o := CObject (<[name := v]> props)]> (h ++ [c]).
Proof.
  intros Ho Hf. apply write_prop_assigns; [|eapply falsy_assigns; eauto].
  rewrite lookup_app_l; [exact Ho | eapply lookup_lt_Some; eauto].
Qed.

Lemma series_at_inv h o name elems :
  series_at h o name = Some elems ->
  exists props r, h !! o = Some (CObject props) /\ props !! name = Some (JRef r) /\
                  h !! r = Some (CArray elems) /\ read_prop h o name = JRef r.
Proof.
  unfold series_at. intros H.
  destruct (read_prop h o name) as [| | | | |r|] eqn:Hread; try discriminate.
  unfold as_array in H.
  destruct (h !! r) as [[?|elems']|] eqn:Hr; cbn in H; try discriminate.
  pose proof Hread as Hread'. unfold read_prop, obj_props in Hread'.
  destruct (h !! o) as [[props|?]|] eqn:Ho;
    try (rewrite lookup_empty in Hread'; destruct (inherited name); discriminate).
  destruct (props !! name) as [v|] eqn:Hn; [|destruct (inherited name); discriminate].
  exists props, r. repeat split; congruence.
Qed.

Lemma series_at_intro h o name props r elems :
  h !! o = Some (CObject props) -> props !! name = Some (JRef r) ->
  h !! r = Some (CArray elems) -> series_at h o name = Some elems.
Proof.
  intros Ho Hn Hr. unfold series_at, read_prop, obj_props.
  rewrite Ho, Hn. cbn. now rewrite (as_array_ref _ _ _ Hr).
Qed.

Lemma push_bounded_existing o name limit x w elems :
  series_at (heap w) o name = Some elems ->
  exists h', push_bounded o name limit x w = (Normal tt, set_heap h' w) /\
             series_at h' o name = Some (evict limit elems ++ [x]).
Proof.
  intros H. destruct (series_at_inv _ _ _ _ H) as (props & r & Ho & Hn & Hr & Hread).
  assert (Hne : r <> o) by congruence.
  assert (Hlt : r < length (heap w)) by (eapply lookup_lt_Some; eauto).
  unfold push_bounded, bind, get_prop, gets, when, length_ge, array_shift, array_push.
  cbn. repeat (first [rewrite Hread | rewrite (as_array_ref _ _ _ Hr)]; cbn).
  unfold evict. destruct (limit <=? length elems)%nat; cbn.
  - assert (Hread' : read_prop (<[r:=CArray (tail elems)]> (heap w)) o name = JRef r).
    { unfold read_prop, obj_props. rewrite list_lookup_insert_ne by done.
      now rewrite Ho, Hn. }
    rewrite (as_array_ref _ _ _ Hr). cbn. rewrite Hread'.
    rewrite (as_array_ref _ r (tail elems)) by now rewrite list_lookup_insert_eq.
    eexists. split; [reflexivity|].
    eapply series_at_intro with (r := r).
    + rewrite !list_lookup_insert_ne by done. exact Ho.
    + exact Hn.
    + rewrite list_lookup_insert_eq; [done|]. now rewrite length_insert.
  - rewrite Hread, (as_array_ref _ _ _ Hr).
    eexists. split; [reflexivity|].
    eapply series_at_intro with (r := r).
    + rewrite list_lookup_insert_ne by done. exact Ho.
    + exact Hn.
    + now rewrite list_lookup_insert_eq.
Qed.

Lemma push_bounded_fresh o name limit x w props :
  (0 < limit)%nat -> heap w !! o = Some (CObject props) ->
  truthy (read_prop (heap w) o name) = false ->
  exists h', push_bounded o name limit x w = (Normal tt, set_heap h' w) /\
             series_at h' o name = Some [x].
Proof.
  intros Hlim Ho Hfalsy.
  assert (Hlt : o < length (heap w)) by (eapply lookup_lt_Some; eauto).
  set (a := length (heap w)).
  set (h1 := heap w ++ [CArray []]).
  set (h2 := <[o := CObject (<[name := JRef a]> props)]> h1).
  assert (Ho1 : h1 !! o = Some (CObject props)).
  { unfold h1. now rewrite lookup_app_l. }
  assert (Hw : write_prop h1 o name (JRef a) = h2).
  { apply write_prop_assigns; [exact Ho1 | exact (falsy_assigns _ _ _ _ Ho Hfalsy)]. }
  assert (Hlen1 : length h1 = S a).
  { unfold h1. rewrite length_app. cbn. unfold a. lia. }
  assert (Ho2 : h2 !! o = Some (CObject (<[name := JRef a]> props))).
  { unfold h2. rewrite list_lookup_insert_eq; [done | lia]. }
  assert (Hread2 : read_prop h2 o name = JRef a).
  { unfold read_prop, obj_props. rewrite Ho2. now rewrite lookup_insert_eq. }
  assert (Ha2 : h2 !! a = Some (CArray [])).
  { unfold h2. rewrite list_lookup_insert_ne by lia.
    unfold h1, a. now rewrite list_lookup_middle. }
  unfold push_bounded, bind, get_prop, set_prop, gets, modify, when, alloc, length_ge,
    array_shift, array_push.
  cbn. rewrite Hfalsy. cbn. fold a h1. rewrite Hw.
  repeat (first [rewrite Hread2 | rewrite (as_array_ref _ _ _ Ha2)]; cbn).
  destruct limit as [|limit]; [lia|]. cbn.
  repeat (first [rewrite Hread2 | rewrite (as_array_ref _ _ _ Ha2)]; cbn).
  eexists. split; [reflexivity|].
  eapply series_at_intro with (r := a).
  - rewrite list_lookup_insert_ne by lia. exact Ho2.
  - now rewrite lookup_insert_eq.
  - rewrite list_lookup_insert_eq; [done|]. unfold h2. rewrite length_insert. lia.
Qed.

Lemma evict_nil limit : (0 < limit)%nat -> evict limit [] = [].
Proof. intros H. unfold evict. destruct limit; [lia | reflexivity]. Qed.

Lemma series_at_object h o name elems :
  series_at h o name = Some elems -> exists props, h !! o = Some (CObject props).
Proof. intros H. destruct (series_at_inv _ _ _ _ H) as (props & ? & ? & _). eauto. Qed.

(** One push, whichever of the two ready states the slot is in. *)
Lemma push_bounded_ready o name limit x w :
  (0 < limit)%nat -> slot_ready (heap w) o name ->
  exists h', push_bounded o name limit x w = (Normal tt, set_heap h' w) /\
             series_at h' o name
             = Some (evict limit (default [] (series_at (heap w) o name)) ++ [x]) /\
             slot_ready h' o name.
Proof.
  intros Hlim [[props Ho] Hslot].
  destruct (series_at (heap w) o name) as [elems|] eqn:Hs.
  - destruct (push_bounded_existing o name limit x w elems Hs) as (h' & Hrun & Hser).
    exists h'. repeat split; try assumption.
    + eapply series_at_object; eauto.
    + right. rewrite Hser. eauto.
  - destruct Hslot as [Hfalsy|[? ?]]; [|discriminate].
    destruct (push_bounded_fresh o name limit x w props Hlim Ho Hfalsy) as (h' & Hrun & Hser).
    exists h'. cbn. rewrite evict_nil by assumption. repeat split; try assumption.
    + eapply series_at_object; eauto.
    + right. rewrite Hser. eauto.
Qed.
Lemma try_catch_bind_normal {A B} (c : Eff A) (k : A -> Eff B) handler w a w1 :
  c w = (Normal a, w1) -> try_catch (bind c k) handler w = try_catch (k a) handler w1.
Proof. intros H. unfold try_catch, bind. now rewrite H. Qed.

Lemma reportMetric_unfold name v w :
  PerformanceMonitor.reportMetric name v w
  = try_catch
      (push_bounded (PM.metrics (desktop w)) name 100 (sample v (dateNow w)) ;;
       call_gtag name v ;;
       _ <- PerformanceMonitor.sendToAnalytics_start name v ;;
       dev <- is_development ;;
       when dev (console_log ("Performance Metric - " ++ name ++ ":")%string))
      (fun _ => console_warn "Failed to report metric:") w.
Proof.
  unfold PerformanceMonitor.reportMetric, push_bounded, try_catch, bind,
    PerformanceMonitor.get_metric, PerformanceMonitor.set_metric, get_prop, set_prop,
    gets, modify, when, alloc, length_ge, Date_now, array_shift, array_push, sample.
  cbn.
  destruct (negb (truthy (read_prop (heap w) (PM.metrics (desktop w)) name))); cbn.
  all: repeat match goal with
       | |- context [match as_array ?h ?v with _ => _ end] =>
           destruct (as_array h v) as [[? ?]|] eqn:?; cbn
       | |- context [if ?b then _ else _] => destruct b eqn:?; cbn
       end; try reflexivity.
Qed.
Lemma reportMetric_after_push_preserves {X} (f : World -> X) name v :
  (forall c w, f (set_console c w) = f w) ->
  (forall t w, f (set_trace t w) = f w) ->
  (forall n w, f (set_nextHandle n w) = f w) ->
  preserves f (reportMetric_after_push name v).
Proof.
  intros Hc Ht Hn.
  unfold reportMetric_after_push, PerformanceMonitor.sendToAnalytics_start, call_gtag,
    is_development, console_log, console_warn, host_call.
  eff_structure; auto.
Qed.

(** [reportMetric] on a ready slot: the sample is pushed onto the series,
    after the oldest element is dropped from a series of 100. *)
Lemma reportMetric_ready name v w :
  slot_ready (heap w) (PM.metrics (desktop w)) name ->
  exists w',
    PerformanceMonitor.reportMetric name v w = (Normal tt, w') /\
    desktop w' = desktop w /\ mobile w' = mobile w /\ host w' = host w /\
    clsValue w' = clsValue w /\
    PerformanceMonitorView.series name w'
    = Some (evict 100 (default [] (PerformanceMonitorView.series name w))
            ++ [sample v (dateNow w)]) /\
    slot_ready (heap w') (PM.metrics (desktop w')) name.
Proof.
  intros Hready.
  destruct (push_bounded_ready _ name 100 (sample v (dateNow w)) w ltac:(lia) Hready)
    as (h' & Hrun & Hser & Hready').
  destruct (reportMetric_never_throws name v w) as [[] Hnormal].
  exists (exec (PerformanceMonitor.reportMetric name v) w).
  assert (Hexec : exec (PerformanceMonitor.reportMetric name v) w
                  = exec (reportMetric_after_push name v) (set_heap h' w)).
  { unfold exec. rewrite reportMetric_unfold.
    now rewrite (try_catch_bind_normal _ _ _ _ _ _ Hrun). }
  split.
  { unfold completion, exec in *.
    destruct (PerformanceMonitor.reportMetric name v w) as [c w']. cbn in *. now subst. }
  unfold PerformanceMonitorView.series.
  rewrite Hexec.
  rewrite (reportMetric_after_push_preserves desktop), (reportMetric_after_push_preserves mobile),
    (reportMetric_after_push_preserves host), (reportMetric_after_push_preserves clsValue),
    (reportMetric_after_push_preserves heap) by reflexivity.
  cbn. repeat (split; [reflexivity|]). split; assumption.
Qed.

(** ** Bounded series *)

Lemma length_evict limit l :
  (0 < limit)%nat -> (length l <= limit)%nat -> (length (evict limit l) < limit)%nat.
Proof.
  intros Hpos Hle. unfold evict.
  destruct (Nat.leb_spec limit (length l)); [|lia].
  destruct l; cbn in *; lia.
Qed.

Lemma lastn_push limit (l : list JsValue) x xs :
  (length l <= limit)%nat ->
  lastn limit ((evict limit l ++ [x]) ++ xs) = lastn limit (l ++ x :: xs).
Proof.
  intros Hle. unfold evict, lastn.
  destruct (Nat.leb_spec limit (length l)) as [Hge|Hlt].
  - destruct l as [|a t]; cbn [tail].
    + now rewrite <- app_assoc.
    + rewrite <- app_assoc. cbn [app].
      rewrite !length_app. cbn [length] in *. rewrite length_app. cbn [length].
      replace (S (length t + S (length xs)) - limit) with (S (length t + S (length xs) - limit))
        by lia.
      reflexivity.
  - now rewrite <- app_assoc.
Qed.

(** Pushing with eviction, over and over, keeps the last [limit] elements. *)
Lemma fold_evict_push limit (xs l : list JsValue) :
  (0 < limit)%nat -> (length l <= limit)%nat ->
  fold_left (fun acc x => evict limit acc ++ [x]) xs l = lastn limit (l ++ xs).
Proof.
  intros Hpos. revert l. induction xs as [|x xs IH]; intros l Hle; cbn [fold_left].
  - unfold lastn. rewrite app_nil_r.
    replace (length l - limit) with 0 by lia. reflexivity.
  - rewrite IH.
    + now apply lastn_push.
    + rewrite length_app. cbn. pose proof (length_evict limit l Hpos Hle). lia.
Qed.

Lemma length_lastn {A} n (l : list A) : (n <= length l)%nat -> length (lastn n l) = n.
Proof. intros H. unfold lastn. rewrite length_drop. lia. Qed.

Lemma reportMetric_all_snoc name calls c w :
  reportMetric_all name (calls ++ [c]) w
  = exec (PerformanceMonitor.reportMetric name (fst c))
         (set_dateNow (snd c) (reportMetric_all name calls w)).
Proof. unfold reportMetric_all. now rewrite fold_left_app. Qed.

Lemma reportMetric_all_series name calls w :
  slot_ready (heap w) (PM.metrics (desktop w)) name ->
  let w' := reportMetric_all name calls w in
  desktop w' = desktop w /\
  slot_ready (heap w') (PM.metrics (desktop w')) name /\
  default [] (PerformanceMonitorView.series name w')
  = fold_left (fun acc x => evict 100 acc ++ [x]) (samples_of calls)
              (default [] (PerformanceMonitorView.series name w)) /\
  (calls <> [] -> is_Some (PerformanceMonitorView.series name w')).
Proof.
  intros Hready. induction calls as [|c calls IH] using rev_ind; cbn zeta.
  - cbn. split; [reflexivity|]. split; [assumption|]. split; [reflexivity|]. now intros H.
  - destruct IH as (Hd & Hr & Hs & _).
    rewrite reportMetric_all_snoc.
    set (w1 := reportMetric_all name calls w) in *.
    destruct (reportMetric_ready name (fst c) (set_dateNow (snd c) w1) Hr)
      as (w2 & Hrun & Hd2 & _ & _ & _ & Hs2 & Hr2).
    unfold exec. rewrite Hrun. cbn [snd].
    split; [|split; [|split]].
    + now rewrite Hd2.
    + exact Hr2.
    + rewrite Hs2. cbn [default]. unfold samples_of. rewrite map_app, fold_left_app.
      cbn [map fold_left]. fold (samples_of calls).
      now rewrite <- Hs.
    + intros _. rewrite Hs2. eauto.
Qed.

Lemma logMetric_unfold name v w :
  MobilePerformanceMonitor.logMetric name v w
  = (push_bounded (MPM.metrics (mobile w)) name 50
                  (metric_record name v (dateNow w) (mobile w) (host w)) ;;
     logMetric_after_push name v) w.
Proof.
  change (MobilePerformanceMonitor.logMetric name v w)
    with ((timestamp <- Date_now ;;
           metric <- gets (fun w => metric_record name v timestamp (mobile w) (host w)) ;;
           slot <- MobilePerformanceMonitor.get_metric name ;;
           when (negb (truthy slot))
                (a <- alloc (CArray []) ;; MobilePerformanceMonitor.set_metric name (JRef a)) ;;
           slot <- MobilePerformanceMonitor.get_metric name ;;
           full <- length_ge slot 50 ;;
           when full (array_shift slot) ;;
           slot <- MobilePerformanceMonitor.get_metric name ;;
           array_push slot metric ;;
           logMetric_after_push name v) w).
  generalize (logMetric_after_push name v). intros k.
  unfold push_bounded, bind,
    MobilePerformanceMonitor.get_metric, MobilePerformanceMonitor.set_metric,
    get_prop, set_prop, gets, modify, when, alloc, length_ge, Date_now, array_shift,
    array_push.
  cbn.
  destruct (negb (truthy (read_prop (heap w) (MPM.metrics (mobile w)) name))); cbn.
  all: repeat match goal with
       | |- context [match as_array ?h ?v with _ => _ end] =>
           destruct (as_array h v) as [[? ?]|] eqn:?; cbn
       | |- context [if ?b then _ else _] => destruct b eqn:?; cbn
       end; try reflexivity.
Qed.

Lemma logMetric_after_push_never_throws name v :
  never_throws (logMetric_after_push name v).
Proof.
  unfold logMetric_after_push, MobilePerformanceMonitor.sendToAnalytics,
    MobilePerformanceMonitor.checkPerformanceWarnings, is_development, is_production,
    console_log, console_warn.
  eff_structure.
Qed.

Lemma logMetric_after_push_preserves {X} (f : World -> X) name v :
  (forall c w, f (set_console c w) = f w) ->
  (forall t w, f (set_trace t w) = f w) ->
  preserves f (logMetric_after_push name v).
Proof.
  intros Hc Ht.
  unfold logMetric_after_push, MobilePerformanceMonitor.sendToAnalytics,
    MobilePerformanceMonitor.checkPerformanceWarnings, call_gtag,
    is_development, is_production, console_log, console_warn, host_call.
  eff_structure; auto.
Qed.

(** [logMetric] on a ready slot: the metric is pushed onto the series,
    after the oldest element is dropped from a series of 50. *)
Lemma logMetric_ready name v w :
  slot_ready (heap w) (MPM.metrics (mobile w)) name ->
  exists w',
    MobilePerformanceMonitor.logMetric name v w = (Normal tt, w') /\
    desktop w' = desktop w /\ mobile w' = mobile w /\ host w' = host w /\
    clsValue w' = clsValue w /\
    MobilePerformanceMonitorView.series name w'
    = Some (evict 50 (default [] (MobilePerformanceMonitorView.series name w))
            ++ [metric_record name v (dateNow w) (mobile w) (host w)]) /\
    slot_ready (heap w') (MPM.metrics (mobile w')) name.
Proof.
  intros Hready.
  destruct (push_bounded_ready _ name 50
              (metric_record name v (dateNow w) (mobile w) (host w)) w ltac:(lia) Hready)
    as (h' & Hrun & Hser & Hready').
  destruct (logMetric_after_push_never_throws name v (set_heap h' w)) as [[] Hnormal].
  exists (exec (logMetric_after_push name v) (set_heap h' w)).
  split.
  { rewrite logMetric_unfold, (bind_normal _ _ _ _ _ Hrun).
    unfold completion, exec in *.
    destruct (logMetric_after_push name v (set_heap h' w)) as [c w']. cbn in *. now subst. }
  unfold MobilePerformanceMonitorView.series.
  rewrite (logMetric_after_push_preserves desktop), (logMetric_after_push_preserves mobile),
    (logMetric_after_push_preserves host), (logMetric_after_push_preserves clsValue),
    (logMetric_after_push_preserves heap) by reflexivity.
  cbn. repeat (split; [reflexivity|]). split; assumption.
Qed.

Lemma as_array_not_ref h v : (forall r, v <> JRef r) -> as_array h v = None.
Proof. intros H. destruct v; try reflexivity. now destruct (H r). Qed.

Lemma series_at_none h o name :
  series_at h o name = None -> as_array h (read_prop h o name) = None.
Proof. unfold series_at. now destruct (as_array h (read_prop h o name)). Qed.

(** A name the object inherits and does not have as an own property is
    taken: it reads a function, or the prototype itself. *)
Lemma inherited_taken h o props name :
  h !! o = Some (CObject props) -> props !! name = None -> inherited name = true ->
  slot_taken h o name.
Proof.
  intros Ho Hn Hi. unfold slot_taken, series_at.
  rewrite (read_prop_absent _ _ _ _ Ho Hn), Hi. split; reflexivity.
Qed.

(** The two states of a slot exclude each other. *)
Lemma slot_taken_not_ready h o name : slot_taken h o name -> ~ slot_ready h o name.
Proof.
  intros [Ht Hs] [_ [Hf | [l Hl]]]; [rewrite Hf in Ht; discriminate | congruence].
Qed.

(** [reportMetric] on a taken slot: the push raises [TypeError], which is
    caught and logged; nothing is stored and nothing is sent. *)
Lemma reportMetric_taken name v w :
  slot_taken (heap w) (PM.metrics (desktop w)) name ->
  PerformanceMonitor.reportMetric name v w
  = (Normal tt, set_console (console w ++ [ConsoleWarn "Failed to report metric:"]) w).
Proof.
  intros [Htruthy Hnone]. apply series_at_none in Hnone.
  unfold PerformanceMonitor.reportMetric, try_catch, bind,
    PerformanceMonitor.get_metric, get_prop, gets, when, length_ge, Date_now, array_push.
  cbn. rewrite Htruthy. cbn. repeat (rewrite ?Htruthy, ?Hnone; cbn). reflexivity.
Qed.

(** [logMetric] on a taken slot: there is no [try], the [TypeError] of the
    push reaches the caller, and the world is as it was. *)
Lemma logMetric_taken name v w :
  slot_taken (heap w) (MPM.metrics (mobile w)) name ->
  MobilePerformanceMonitor.logMetric name v w = (Throw TypeError, w).
Proof.
  intros [Htruthy Hnone]. apply series_at_none in Hnone.
  unfold MobilePerformanceMonitor.logMetric, bind, MobilePerformanceMonitor.get_metric,
    get_prop, gets, when, length_ge, Date_now, array_push.
  cbn. rewrite Htruthy. cbn. repeat (rewrite ?Htruthy, ?Hnone; cbn). reflexivity.
Qed.

Lemma logMetric_all_snoc name calls c w :
  logMetric_all name (calls ++ [c]) w
  = exec (MobilePerformanceMonitor.logMetric name (fst c))
         (set_dateNow (snd c) (logMetric_all name calls w)).
Proof. unfold logMetric_all. now rewrite fold_left_app. Qed.

Lemma logMetric_all_series name calls w :
  slot_ready (heap w) (MPM.metrics (mobile w)) name ->
  let w' := logMetric_all name calls w in
  mobile w' = mobile w /\ host w' = host w /\
  slot_ready (heap w') (MPM.metrics (mobile w')) name /\
  default [] (MobilePerformanceMonitorView.series name w')
  = fold_left (fun acc x => evict 50 acc ++ [x]) (metrics_of name (mobile w) (host w) calls)
              (default [] (MobilePerformanceMonitorView.series name w)) /\
  (calls <> [] -> is_Some (MobilePerformanceMonitorView.series name w')).
Proof.
  intros Hready. induction calls as [|c calls IH] using rev_ind; cbn zeta.
  - cbn. repeat (split; [reflexivity|]). split; [assumption|].
    split; [reflexivity|]. now intros H.
  - destruct IH as (Hm & Hh & Hr & Hs & _).
    rewrite logMetric_all_snoc.
    set (w1 := logMetric_all name calls w) in *.
    destruct (logMetric_ready name (fst c) (set_dateNow (snd c) w1) Hr)
      as (w2 & Hrun & _ & Hm2 & Hh2 & _ & Hs2 & Hr2).
    unfold exec. rewrite Hrun. cbn [snd].
    split; [|split; [|split; [|split]]].
    + now rewrite Hm2.
    + now rewrite Hh2.
    + exact Hr2.
    + rewrite Hs2. cbn [default]. unfold metrics_of. rewrite map_app, fold_left_app.
      cbn [map fold_left]. fold (metrics_of name (mobile w) (host w) calls).
      rewrite <- Hs. cbn. now rewrite Hm, Hh.
    + intros _. rewrite Hs2. eauto.
Qed.

Lemma resource_entry_unfold entry w :
  (when (String.eqb (initiatorType entry) "img" || String.eqb (initiatorType entry) "video")
     (slot <- PerformanceMonitor.get_metric "resources" ;;
      when (negb (truthy slot))
           (a <- alloc (CArray []) ;; PerformanceMonitor.set_metric "resources" (JRef a)) ;;
      slot <- PerformanceMonitor.get_metric "resources" ;;
      full <- length_ge slot 50 ;;
      when full (array_shift slot) ;;
      slot <- PerformanceMonitor.get_metric "resources" ;;
      array_push slot
        (JRecord [("name", JStr (re_name entry));
                  ("type", JStr (initiatorType entry));
                  ("duration", JNum (duration entry));
                  ("size", js_or (transferSize entry) (JNum 0))]))) w
  = when (is_media entry)
         (push_bounded (PM.metrics (desktop w)) "resources" 50 (resource_record entry)) w.
Proof.
  unfold is_media.
  destruct (String.eqb (initiatorType entry) "img" || String.eqb (initiatorType entry) "video");
    [|reflexivity].
  unfold push_bounded, bind, when,
    PerformanceMonitor.get_metric, PerformanceMonitor.set_metric, get_prop, set_prop,
    gets, modify, alloc, length_ge, array_shift, array_push, resource_record.
  cbn.
  destruct (negb (truthy (read_prop (heap w) (PM.metrics (desktop w)) "resources"))); cbn.
  all: repeat match goal with
       | |- context [match as_array ?h ?v with _ => _ end] =>
           destruct (as_array h v) as [[? ?]|] eqn:?; cbn
       | |- context [if ?b then _ else _] => destruct b eqn:?; cbn
       end; try reflexivity.
Qed.

(** One resource notification on a ready slot. *)
Lemma resourceObserver_callback_ready entries w :
  slot_ready (heap w) (PM.metrics (desktop w)) "resources" ->
  exists w',
    PerformanceMonitor.resourceObserver_callback entries w = (Normal tt, w') /\
    desktop w' = desktop w /\
    slot_ready (heap w') (PM.metrics (desktop w')) "resources" /\
    default [] (PerformanceMonitorView.series "resources" w')
    = fold_left (fun acc x => evict 50 acc ++ [x])
                (map resource_record (List.filter is_media entries))
                (default [] (PerformanceMonitorView.series "resources" w)) /\
    (List.filter is_media entries <> [] ->
     is_Some (PerformanceMonitorView.series "resources" w')).
Proof.
  revert w. induction entries as [|entry entries IH]; intros w Hready.
  - exists w. cbn. repeat (split; [reflexivity|]). split; [assumption|].
    split; [reflexivity|]. now intros H.
  - unfold PerformanceMonitor.resourceObserver_callback. cbn [forEach].
    unfold bind at 1. rewrite resource_entry_unfold.
    fold (PerformanceMonitor.resourceObserver_callback entries).
    replace (List.filter is_media (entry :: entries))
      with (if is_media entry then entry :: List.filter is_media entries
            else List.filter is_media entries) by reflexivity.
    destruct (is_media entry) eqn:Hm.
    + cbn [when].
      destruct (push_bounded_ready _ "resources" 50 (resource_record entry) w ltac:(lia) Hready)
        as (h' & Hrun & Hser & Hready').
      rewrite Hrun.
      destruct (IH (set_heap h' w) Hready') as (w' & Hrun' & Hd & Hr & Hs & Hsome).
      exists w'. split; [exact Hrun'|]. split; [exact Hd|]. split; [exact Hr|]. split.
      * rewrite Hs. cbn [map fold_left]. unfold PerformanceMonitorView.series. cbn.
        now rewrite Hser.
      * intros _. destruct (List.filter is_media entries) eqn:Hf.
        -- cbn in Hs. unfold PerformanceMonitorView.series in *. cbn in Hs.
           rewrite Hser in Hs. cbn in Hs.
           destruct (series_at (heap w') (PM.metrics (desktop w')) "resources"); [eauto|].
           cbn in Hs. destruct (evict 50 _); discriminate.
        -- now apply Hsome.
    + cbn [when ret].
      destruct (IH w Hready) as (w' & Hrun' & Hd & Hr & Hs & Hsome).
      exists w'. repeat (split; [assumption|]). assumption.
Qed.

Lemma resource_notifications_series batches w :
  slot_ready (heap w) (PM.metrics (desktop w)) "resources" ->
  let w' := resource_notifications batches w in
  desktop w' = desktop w /\
  slot_ready (heap w') (PM.metrics (desktop w')) "resources" /\
  default [] (PerformanceMonitorView.series "resources" w')
  = fold_left (fun acc x => evict 50 acc ++ [x])
              (map resource_record (List.filter is_media (concat batches)))
              (default [] (PerformanceMonitorView.series "resources" w)) /\
  (List.filter is_media (concat batches) <> [] ->
   is_Some (PerformanceMonitorView.series "resources" w')).
Proof.
  revert w. induction batches as [|entries batches IH]; intros w Hready; cbn zeta.
  - cbn. split; [reflexivity|]. split; [assumption|]. split; [reflexivity|]. now intros H.
  - destruct (resourceObserver_callback_ready entries w Hready)
      as (w1 & Hrun & Hd & Hr & Hs & Hsome).
    assert (Hw1 : exec (PerformanceMonitor.resourceObserver_callback entries) w = w1)
      by (unfold exec; now rewrite Hrun).
    change (resource_notifications (entries :: batches) w)
      with (resource_notifications batches
              (exec (PerformanceMonitor.resourceObserver_callback entries) w)).
    rewrite Hw1. cbn [concat].
    destruct (IH w1 Hr) as (Hd' & Hr' & Hs' & Hsome').
    split; [congruence|]. split; [exact Hr'|]. split.
    + rewrite Hs', Hs, List.filter_app, map_app, fold_left_app. reflexivity.
    + rewrite List.filter_app. intros Hne.
      destruct (List.filter is_media (concat batches)) eqn:Hf.
      * rewrite app_nil_r in Hne. specialize (Hsome Hne).
        cbn in Hs'. destruct Hsome as [l Hl]. rewrite Hl in Hs'. cbn in Hs'.
        destruct (PerformanceMonitorView.series "resources" (resource_notifications batches w1))
          eqn:E; [eauto|].
        cbn in Hs'. subst l.
        destruct (resourceObserver_callback_ready entries w Hready)
          as (w1' & Hrun' & _ & _ & Hs1 & _).
        rewrite Hrun in Hrun'. injection Hrun' as <-.
        rewrite Hl in Hs1. cbn in Hs1.
        destruct (List.filter is_media entries) as [|e es]; [contradiction|].
        cbn [map] in Hs1.
        assert (Hlen : forall xs l0, fold_left (fun acc x => evict 50 acc ++ [x]) xs l0 = []
                                     -> xs = []).
        { clear. induction xs as [|x xs IHxs] using rev_ind; [reflexivity|].
          intros l0 H. rewrite fold_left_app in H. cbn in H.
          destruct (evict 50 _); discriminate. }
        symmetry in Hs1. apply Hlen in Hs1. discriminate.
      * apply Hsome'. discriminate.
Qed.

Lemma map_drop_comm {A B} (f : A -> B) n (l : list A) : map f (drop n l) = drop n (map f l).
Proof.
  revert n. induction l as [|a l IH]; intros [|n]; cbn; try reflexivity. apply IH.
Qed.

Lemma map_lastn {A B} (f : A -> B) n (l : list A) : map f (lastn n l) = lastn n (map f l).
Proof. unfold lastn. now rewrite map_drop_comm, length_map. Qed.

(** Once [n] or more elements have been pushed, what was there before is
    gone. *)
Lemma lastn_app_ge {A} n (old new : list A) :
  (n <= length new)%nat -> lastn n (old ++ new) = lastn n new.
Proof.
  intros H. unfold lastn. rewrite length_app, drop_app_ge by lia. f_equal. lia.
Qed.

(** ** The scenario of 150 samples *)

Lemma series_after_calls limit (samples old : list JsValue) :
  (0 < limit)%nat -> (length old <= limit)%nat -> (limit <= length samples)%nat ->
  fold_left (fun acc x => evict limit acc ++ [x]) samples old = lastn limit samples /\
  length (lastn limit samples) = limit.
Proof.
  intros Hpos Hold Hlen. rewrite fold_evict_push by assumption.
  split; [now apply lastn_app_ge | now apply length_lastn].
Qed.

(** Calls on a taken slot leave the heap and the collector as they were. *)
Lemma reportMetric_all_taken name calls w :
  slot_taken (heap w) (PM.metrics (desktop w)) name ->
  heap (reportMetric_all name calls w) = heap w /\
  desktop (reportMetric_all name calls w) = desktop w.
Proof.
  intros Ht. induction calls as [|c calls IH] using rev_ind; [now split|].
  destruct IH as [Hh Hd]. rewrite reportMetric_all_snoc. unfold exec.
  rewrite reportMetric_taken; [cbn; now split|].
  cbn. now rewrite Hh, Hd.
Qed.

Lemma logMetric_all_taken name calls w :
  slot_taken (heap w) (MPM.metrics (mobile w)) name ->
  heap (logMetric_all name calls w) = heap w /\
  mobile (logMetric_all name calls w) = mobile w.
Proof.
  intros Ht. induction calls as [|c calls IH] using rev_ind; [now split|].
  destruct IH as [Hh Hm]. rewrite logMetric_all_snoc. unfold exec.
  rewrite logMetric_taken; [cbn; now split|].
  cbn. now rewrite Hh, Hm.
Qed.

(** C2 (amended).  A series never grows past its bound and keeps the most
    recent samples in call order, oldest evicted first.  The bound is 100 for
    every series written by [reportMetric] and 50 for the resource entries of
    the desktop collector, and 50 for every series written by [logMetric] in
    the mobile collector, the vitals included.  Each of the three holds on
    its own, for a slot that starts out ready: empty, or a series within its
    bound.  A slot that is taken, by a scalar or by a member inherited from
    [Object.prototype] such as [constructor], never gets a series: the calls
    leave both stores as they were. *)
Theorem series_keep_most_recent
    (w : World) (name : string) (calls : list (JsValue * float))
    (batches : list (list ResourceEntry)) :
  let media := List.filter is_media (concat batches) in
  (slot_ready (heap w) (PM.metrics (desktop w)) name ->
   (length (default [] (PerformanceMonitorView.series name w)) <= 100)%nat ->
   (100 <= length calls)%nat ->
   PerformanceMonitorView.series name (reportMetric_all name calls w)
   = Some (samples_of (lastn 100 calls)) /\
   length (samples_of (lastn 100 calls)) = 100) /\
  (slot_ready (heap w) (PM.metrics (desktop w)) "resources" ->
   (length (default [] (PerformanceMonitorView.series "resources" w)) <= 50)%nat ->
   (50 <= length media)%nat ->
   PerformanceMonitorView.series "resources" (resource_notifications batches w)
   = Some (map resource_record (lastn 50 media)) /\
   length (map resource_record (lastn 50 media)) = 50) /\
  (slot_ready (heap w) (MPM.metrics (mobile w)) name ->
   (length (default [] (MobilePerformanceMonitorView.series name w)) <= 50)%nat ->
   (50 <= length calls)%nat ->
   MobilePerformanceMonitorView.series name (logMetric_all name calls w)
   = Some (metrics_of name (mobile w) (host w) (lastn 50 calls)) /\
   length (metrics_of name (mobile w) (host w) (lastn 50 calls)) = 50) /\
  (slot_taken (heap w) (PM.metrics (desktop w)) name ->
   PerformanceMonitorView.store (reportMetric_all name calls w)
   = PerformanceMonitorView.store w /\
   PerformanceMonitorView.series name (reportMetric_all name calls w) = None) /\
  (slot_taken (heap w) (MPM.metrics (mobile w)) name ->
   MobilePerformanceMonitorView.store (logMetric_all name calls w)
   = MobilePerformanceMonitorView.store w /\
   MobilePerformanceMonitorView.series name (logMetric_all name calls w) = None).
Proof.
  intros media. split; [|split; [|split; [|split]]].
  - intros Hd Hld Hlen.
    destruct (reportMetric_all_series name calls w Hd) as (_ & _ & Hs & Hsome).
    destruct (series_after_calls 100 (samples_of calls)
                (default [] (PerformanceMonitorView.series name w)))
      as [Hfold Hlast]; [lia | assumption | unfold samples_of; now rewrite length_map |].
    unfold samples_of at 1 2. rewrite map_lastn. fold (samples_of calls).
    split; [|exact Hlast].
    destruct Hsome as [l Hl]; [destruct calls; [cbn in Hlen; lia | discriminate]|].
    rewrite Hl in Hs |- *. cbn in Hs. congruence.
  - intros Hres Hlres Hlen.
    destruct (resource_notifications_series batches w Hres) as (_ & _ & Hs & Hsome).
    fold media in Hs, Hsome.
    destruct (series_after_calls 50 (map resource_record media)
                (default [] (PerformanceMonitorView.series "resources" w)))
      as [Hfold Hlast]; [lia | assumption | now rewrite length_map |].
    rewrite map_lastn. split; [|exact Hlast].
    destruct Hsome as [l Hl]; [destruct media; [cbn in Hlen; lia | discriminate]|].
    rewrite Hl in Hs |- *. cbn in Hs. congruence.
  - intros Hm Hlm Hlen.
    destruct (logMetric_all_series name calls w Hm) as (_ & _ & _ & Hs & Hsome).
    destruct (series_after_calls 50 (metrics_of name (mobile w) (host w) calls)
                (default [] (MobilePerformanceMonitorView.series name w)))
      as [Hfold Hlast]; [lia | assumption | unfold metrics_of; now rewrite length_map |].
    unfold metrics_of at 1 2. rewrite map_lastn. fold (metrics_of name (mobile w) (host w) calls).
    split; [|exact Hlast].
    destruct Hsome as [l Hl]; [destruct calls; [cbn in Hlen; lia | discriminate]|].
    rewrite Hl in Hs |- *. cbn in Hs. congruence.
  - intros Ht. destruct (reportMetric_all_taken name calls w Ht) as [Hh Hd].
    unfold PerformanceMonitorView.store, PerformanceMonitorView.series.
    rewrite Hh, Hd. split; [reflexivity | exact (proj2 Ht)].
  - intros Ht. destruct (logMetric_all_taken name calls w Ht) as [Hh Hm].
    unfold MobilePerformanceMonitorView.store, MobilePerformanceMonitorView.series.
    rewrite Hh, Hm. split; [reflexivity | exact (proj2 Ht)].
Qed.

(** C2, witness: 150 calls under "lcp" and 60 image loads on a newly loaded
    page. *)
Lemma series_keep_most_recent_witness :
  (PerformanceMonitorView.series "lcp" (reportMetric_all "lcp" scenario_calls scenario_world)
   = Some (samples_of (lastn 100 scenario_calls)) /\
   length (samples_of (lastn 100 scenario_calls)) = 100) /\
  (PerformanceMonitorView.series "resources"
     (resource_notifications scenario_batches scenario_world)
   = Some (map resource_record (lastn 50 (List.filter is_media (concat scenario_batches)))) /\
   length (map resource_record (lastn 50 (List.filter is_media (concat scenario_batches)))) = 50) /\
  (MobilePerformanceMonitorView.series "lcp" (logMetric_all "lcp" scenario_calls scenario_world)
   = Some (metrics_of "lcp" (mobile scenario_world) (host scenario_world)
                      (lastn 50 scenario_calls)) /\
   length (metrics_of "lcp" (mobile scenario_world) (host scenario_world)
                      (lastn 50 scenario_calls)) = 50).
Proof.
  destruct (series_keep_most_recent scenario_world "lcp" scenario_calls scenario_batches)
    as (H1 & H2 & H3 & _).
  split; [apply H1 | split; [apply H2 | apply H3]].
  all: try (split; [eexists; vm_compute; reflexivity | left; vm_compute; reflexivity]).
  all: vm_compute; lia.
Defined.

(** The scenario as the specification words it, on the desktop collector:
    150 samples under "lcp" leave the values 51..150, in order. *)
Example reportMetric_150_keeps_51_to_150 :
  map value_of <$> PerformanceMonitorView.series "lcp"
                     (reportMetric_all "lcp" scenario_calls scenario_world)
  = Some (map (fun i => JNum (num_of_nat i)) (seq 51 100)).
Proof. vm_compute. reflexivity. Qed.

(** C2, counterexample.  The same 150 calls through [logMetric] leave 50
    samples, the values 101..150, not 100. *)
Lemma logMetric_150_keeps_50 :
  let s := MobilePerformanceMonitorView.series "lcp"
             (logMetric_all "lcp" scenario_calls scenario_world) in
  length <$> s = Some 50 /\
  map value_of <$> s = Some (map (fun i => JNum (num_of_nat i)) (seq 101 50)) /\
  length <$> s <> Some 100.
Proof. vm_compute. repeat split. discriminate. Qed.

(** ** Lifecycle *)

Lemma never_throws_run {A} (c : Eff A) :
  never_throws c -> forall w, exists a w', c w = (Normal a, w').
Proof.
  intros H w. destruct (H w) as [a Ha]. unfold completion in Ha.
  destruct (c w) as [r w']. cbn in Ha. subst. eauto.
Qed.

(** A loop of guarded platform calls makes the calls in order. *)
Lemma forEach_host_calls {A} (l : list A) (call : A -> HostCall) (msg : string) w :
  forEach l (fun x => try_catch (host_call (call x)) (fun _ => console_warn msg)) w
  = (Normal tt, set_trace (trace w ++ map call l) w).
Proof.
  revert w. induction l as [|x l IH]; intros w.
  - cbn. rewrite app_nil_r. now destruct w.
  - cbn [forEach map]. unfold bind at 1. cbn. rewrite IH. cbn.
    now rewrite <- app_assoc.
Qed.

Lemma destroy_run w :
  PerformanceMonitor.destroy w
  = (Normal tt,
     {| heap := heap w ++ [CObject ∅];
        desktop := PM.mk (length (heap w)) [] false [] None None;
        mobile := mobile w;
        clsValue := clsValue w;
        host := host w;
        dateNow := dateNow w;
        perfNow := perfNow w;
        console := console w
                   ++ destroy_log (host w) "Performance monitoring destroyed and cleaned up";
        trace := trace w ++ destroy_calls (desktop w);
        nextHandle := nextHandle w |}).
Proof.
  unfold PerformanceMonitor.destroy, destroy_calls, destroy_log.
  unfold bind at 1. cbn [gets]. unfold bind at 1. rewrite forEach_host_calls.
  destruct w as [h [m obs ini cl mi fr] mo cv ho dn pn co tr nh]. cbn.
  destruct mi as [mi|], fr as [fr|]; cbn;
    unfold bind at 1; rewrite forEach_host_calls; cbn;
    destruct (String.eqb (nodeEnv ho) "development"); cbn;
    rewrite ?app_nil_r, <- ?app_assoc; reflexivity.
Qed.

Lemma mobile_destroy_run w :
  MobilePerformanceMonitor.destroy w
  = (Normal tt,
     {| heap := heap w ++ [CObject ∅];
        desktop := desktop w;
        mobile := MPM.mk (length (heap w)) [] [] (MPM.isLowEndDevice (mobile w))
                         (MPM.isReducedMotion (mobile w)) None None
                         (MPM.intersectionObserver (mobile w));
        clsValue := clsValue w;
        host := host w;
        dateNow := dateNow w;
        perfNow := perfNow w;
        console := console w
                   ++ destroy_log (host w)
                        "Mobile performance monitoring destroyed and cleaned up";
        trace := trace w ++ mobile_destroy_calls (mobile w);
        nextHandle := nextHandle w |}).
Proof.
  unfold MobilePerformanceMonitor.destroy, mobile_destroy_calls, destroy_log.
  unfold bind at 1. cbn [gets]. unfold bind at 1. rewrite forEach_host_calls.
  destruct w as [h d [m obs cl le rm mi bi io] cv ho dn pn co tr nh]. cbn.
  destruct io as [io|], mi as [mi|], bi as [bi|]; cbn;
    unfold bind at 1; rewrite forEach_host_calls; cbn;
    destruct (String.eqb (nodeEnv ho) "development"); cbn;
    rewrite ?app_nil_r, <- ?app_assoc; reflexivity.
Qed.

Lemma obj_props_fresh h props : obj_props (h ++ [CObject props]) (length h) = props.
Proof. unfold obj_props. now rewrite list_lookup_middle. Qed.

(** C8.  [destroy] twice leaves the collector as [destroy] once does:
    neither call throws, the store is empty after each, the observer and
    cleanup lists and the interval handles stay cleared, and nothing a
    caller can observe of the collector differs.  This holds for the desktop
    and for the mobile collector; the second desktop [destroy] makes no
    platform call at all. *)
Theorem destroy_twice_same_as_once (w : World) :
  let d1 := exec PerformanceMonitor.destroy w in
  let d2 := exec PerformanceMonitor.destroy d1 in
  let m1 := exec MobilePerformanceMonitor.destroy w in
  let m2 := exec MobilePerformanceMonitor.destroy m1 in
  (completion PerformanceMonitor.destroy w = Normal tt /\
   completion PerformanceMonitor.destroy d1 = Normal tt /\
   PerformanceMonitorView.observable d2 = PerformanceMonitorView.observable d1 /\
   PerformanceMonitorView.store d1 = ∅ /\ PerformanceMonitorView.store d2 = ∅ /\
   PM.set_metrics 0 (desktop d2) = PM.mk 0 [] false [] None None /\
   trace d2 = trace d1) /\
  (completion MobilePerformanceMonitor.destroy w = Normal tt /\
   completion MobilePerformanceMonitor.destroy m1 = Normal tt /\
   MobilePerformanceMonitorView.observable m2 = MobilePerformanceMonitorView.observable m1 /\
   MobilePerformanceMonitorView.store m1 = ∅ /\ MobilePerformanceMonitorView.store m2 = ∅ /\
   MPM.observers (mobile m2) = [] /\ MPM.cleanupFunctions (mobile m2) = [] /\
   MPM.memoryCheckInterval (mobile m2) = None /\
   MPM.batteryCheckInterval (mobile m2) = None).
Proof.
  intros d1 d2 m1 m2. subst d1 d2 m1 m2. unfold exec, completion.
  repeat (rewrite ?destroy_run, ?mobile_destroy_run; cbn [fst snd]).
  unfold PerformanceMonitorView.observable, PerformanceMonitorView.store,
    MobilePerformanceMonitorView.observable, MobilePerformanceMonitorView.store.
  cbn [heap desktop mobile trace PM.metrics MPM.metrics PM.set_metrics MPM.set_metrics
       PM.observers PM.isInitialized PM.cleanupFunctions PM.memoryCheckInterval
       PM.frameRateMonitor MPM.observers MPM.cleanupFunctions MPM.isLowEndDevice
       MPM.isReducedMotion MPM.memoryCheckInterval MPM.batteryCheckInterval
       MPM.intersectionObserver].
  rewrite !obj_props_fresh.
  split.
  - repeat (split; [reflexivity|]). unfold destroy_calls. cbn. now rewrite app_nil_r.
  - repeat (split; [reflexivity|]). reflexivity.
Qed.

(** A second [destroy] on a page where the collectors were started and had
    recorded metrics. *)
Example destroy_twice_on_running_page :
  let w := exec (PerformanceMonitor.init ;;
                 PerformanceMonitor.reportMetric "LCP" (JNum 1800) ;;
                 MobilePerformanceMonitor.logMetric "LCP" (JNum 1800)) scenario_world in
  let d1 := exec PerformanceMonitor.destroy w in
  let m1 := exec MobilePerformanceMonitor.destroy w in
  length (PM.observers (desktop w)) = 6 /\
  size (PerformanceMonitorView.store w) = 1 /\
  length (PM.observers (desktop d1)) = 0 /\
  size (PerformanceMonitorView.store d1) = 0 /\
  length (trace d1) = length (trace w) + 7 /\
  length (trace (exec PerformanceMonitor.destroy d1)) = length (trace d1) /\
  size (MobilePerformanceMonitorView.store w) = 2 /\
  size (MobilePerformanceMonitorView.store m1) = 0 /\
  length (trace (exec MobilePerformanceMonitor.destroy m1)) = length (trace m1) + 1.
Proof. vm_compute. repeat split. Qed.

Lemma setupWebVitals_never_throws : never_throws PerformanceMonitor.setupWebVitals.
Proof.
  unfold PerformanceMonitor.setupWebVitals, new_PerformanceObserver, observe,
    PerformanceMonitor.push_observer, PerformanceMonitor.this, console_warn.
  eff_structure.
Qed.

Lemma setupPerformanceObserver_never_throws :
  never_throws PerformanceMonitor.setupPerformanceObserver.
Proof.
  unfold PerformanceMonitor.setupPerformanceObserver, console_warn. eff_structure.
Qed.

Lemma setupResourceTiming_never_throws : never_throws PerformanceMonitor.setupResourceTiming.
Proof. unfold PerformanceMonitor.setupResourceTiming, console_warn. eff_structure. Qed.

Lemma setupUserTiming_never_throws : never_throws PerformanceMonitor.setupUserTiming.
Proof. unfold PerformanceMonitor.setupUserTiming, console_warn. eff_structure. Qed.

Lemma setupMemoryMonitoring_never_throws : never_throws PerformanceMonitor.setupMemoryMonitoring.
Proof.
  unfold PerformanceMonitor.setupMemoryMonitoring, PerformanceMonitor.this, host_call.
  eff_structure.
Qed.

(** [init] on a collector that is not running: every setup step completes,
    whatever the page offers, and the collector is marked as running. *)
Lemma init_starts w :
  PM.isInitialized (desktop w) = false ->
  exists w', PerformanceMonitor.init w = (Normal tt, w') /\
             PM.isInitialized (desktop w') = true.
Proof.
  intros Hoff. unfold PerformanceMonitor.init. unfold bind at 1. cbn [gets].
  rewrite Hoff. unfold try_catch.
  destruct (never_throws_run _ setupWebVitals_never_throws w) as ([] & w1 & H1).
  destruct (never_throws_run _ setupPerformanceObserver_never_throws w1) as ([] & w2 & H2).
  destruct (never_throws_run _ setupResourceTiming_never_throws w2) as ([] & w3 & H3).
  destruct (never_throws_run _ setupUserTiming_never_throws w3) as ([] & w4 & H4).
  destruct (never_throws_run _ setupMemoryMonitoring_never_throws w4) as ([] & w5 & H5).
  rewrite (bind_normal _ _ _ _ _ H1), (bind_normal _ _ _ _ _ H2), (bind_normal _ _ _ _ _ H3),
    (bind_normal _ _ _ _ _ H4), (bind_normal _ _ _ _ _ H5).
  unfold bind, PerformanceMonitor.this, modify, is_development, gets, when. cbn.
  destruct (String.eqb (nodeEnv (host w5)) "development"); cbn; eauto.
Qed.

(** [init] on a running collector returns at once. *)
Lemma init_running_noop w :
  PM.isInitialized (desktop w) = true -> PerformanceMonitor.init w = (Normal tt, w).
Proof.
  intros Hon. unfold PerformanceMonitor.init. unfold bind at 1. cbn [gets]. now rewrite Hon.
Qed.

(** C7 (amended).  On the desktop collector [init] is idempotent: on a page
    (where [window] and [performance] exist, as the model has it) a first
    [init] leaves the collector running, and [init] on a running collector
    returns at once and leaves the whole page, the collector's metrics,
    observers, timers and cleanup functions included, exactly as it was.
    (The mobile collector has no running flag and no such guard.) *)
Theorem init_idempotent (w : World) :
  let w1 := exec PerformanceMonitor.init w in
  PM.isInitialized (desktop w1) = true /\
  PerformanceMonitor.init w1 = (Normal tt, w1) /\
  exec PerformanceMonitor.init w1 = w1.
Proof.
  intros w1. subst w1.
  assert (Hon : PM.isInitialized (desktop (exec PerformanceMonitor.init w)) = true).
  { destruct (PM.isInitialized (desktop w)) eqn:E.
    - unfold exec. now rewrite (init_running_noop w E).
    - destruct (init_starts w E) as (w' & Hrun & Hon). unfold exec. now rewrite Hrun. }
  split; [exact Hon|]. split.
  - now apply init_running_noop.
  - unfold exec at 1. now rewrite init_running_noop.
Qed.

(** C7, counterexample.  The mobile constructor has already called [init];
    calling it again on that collector subscribes three more observers and
    starts another timer. *)
Lemma mobile_init_subscribes_again :
  let w1 := scenario_world in
  let w2 := exec MobilePerformanceMonitor.init w1 in
  length (MPM.observers (mobile w1)) = 3 /\
  length (MPM.observers (mobile w2)) = 6 /\
  length (trace w2) = length (trace w1) + 7 /\
  mobile w2 <> mobile w1.
Proof.
  vm_compute. repeat split. discriminate.
Qed.

Lemma init_preserves_heap : preserves heap PerformanceMonitor.init.
Proof.
  unfold PerformanceMonitor.init, PerformanceMonitor.setupWebVitals,
    PerformanceMonitor.setupPerformanceObserver, PerformanceMonitor.setupResourceTiming,
    PerformanceMonitor.setupUserTiming, PerformanceMonitor.setupMemoryMonitoring,
    new_PerformanceObserver, observe, PerformanceMonitor.push_observer,
    PerformanceMonitor.this, is_development, console_log, console_warn, host_call.
  eff_structure.
Qed.

Lemma init_preserves_metrics : preserves (fun w => PM.metrics (desktop w)) PerformanceMonitor.init.
Proof.
  unfold PerformanceMonitor.init, PerformanceMonitor.setupWebVitals,
    PerformanceMonitor.setupPerformanceObserver, PerformanceMonitor.setupResourceTiming,
    PerformanceMonitor.setupUserTiming, PerformanceMonitor.setupMemoryMonitoring,
    new_PerformanceObserver, observe, PerformanceMonitor.push_observer,
    PerformanceMonitor.this, is_development, console_log, console_warn, host_call.
  eff_structure.
Qed.

(** A store that was just created: a name it does not inherit is ready for
    a first sample, a name it inherits is taken. *)
Lemma fresh_store_slot h name :
  let h' := h ++ [CObject ∅] in
  series_at h' (length h) name = None /\
  (inherited name = false -> slot_ready h' (length h) name) /\
  (inherited name = true -> slot_taken h' (length h) name).
Proof.
  intros h'.
  assert (Ho : h' !! length h = Some (CObject ∅)) by (unfold h'; now rewrite list_lookup_middle).
  assert (Hread : read_prop h' (length h) name
                  = if inherited name then JNative name else JUndefined).
  { apply (read_prop_absent _ _ ∅); [exact Ho | apply lookup_empty]. }
  assert (Hnone : series_at h' (length h) name = None).
  { unfold series_at. rewrite Hread. now destruct (inherited name). }
  split; [exact Hnone|]. split; intros Hi; rewrite Hi in Hread.
  - split; [eauto|]. left. now rewrite Hread.
  - split; [now rewrite Hread | exact Hnone].
Qed.

(** C3 (amended).  After [destroy] the store is empty and [reportMetric]
    raises no exception, but it is not a no-op: under a name the empty store
    does not inherit from [Object.prototype] it records the sample in the new
    store as on a running collector (under an inherited name, such as
    [constructor], it stores nothing and logs a warning, again as on a
    running collector).  The instance can be used again: [destroy] resets the
    running flag, so a later [init] starts the same collector again, with the
    data recorded in between.  The mobile collector behaves alike: after its
    [destroy], [logMetric] records the sample in the new store, and under an
    inherited name it throws [TypeError]. *)
Theorem reportMetric_after_destroy (w : World) (name : string) (v : JsValue) :
  let w1 := exec PerformanceMonitor.destroy w in
  let m1 := exec MobilePerformanceMonitor.destroy w in
  (PerformanceMonitorView.store w1 = ∅ /\
   PM.isInitialized (desktop w1) = false /\
   exists w2 w3,
     PerformanceMonitor.reportMetric name v w1 = (Normal tt, w2) /\
     PerformanceMonitor.init w2 = (Normal tt, w3) /\
     PM.isInitialized (desktop w3) = true /\
     PerformanceMonitorView.store w3 = PerformanceMonitorView.store w2 /\
     PerformanceMonitorView.series name w3 = PerformanceMonitorView.series name w2 /\
     (inherited name = false ->
      PerformanceMonitorView.series name w2 = Some [sample v (dateNow w)]) /\
     (inherited name = true ->
      PerformanceMonitorView.store w2 = ∅ /\
      console w2 = console w1 ++ [ConsoleWarn "Failed to report metric:"])) /\
  (MobilePerformanceMonitorView.store m1 = ∅ /\
   (inherited name = false ->
    completion (MobilePerformanceMonitor.logMetric name v) m1 = Normal tt /\
    MobilePerformanceMonitorView.series name (exec (MobilePerformanceMonitor.logMetric name v) m1)
    = Some [metric_record name v (dateNow w) (mobile m1) (host w)]) /\
   (inherited name = true ->
    MobilePerformanceMonitor.logMetric name v m1 = (Throw TypeError, m1))).
Proof.
  intros w1 m1. subst w1 m1. unfold exec, completion.
  rewrite destroy_run, mobile_destroy_run. cbn [snd].
  set (w1 := mkWorld _ (PM.mk _ _ _ _ _ _) _ _ _ _ _ _ _ _).
  set (m1 := mkWorld _ _ (MPM.mk _ _ _ _ _ _ _ _) _ _ _ _ _ _ _).
  destruct (fresh_store_slot (heap w) name) as (Hnone & Hready & Htaken).
  split.
  - assert (Hstore : PerformanceMonitorView.store w1 = ∅).
    { unfold PerformanceMonitorView.store. cbn. apply obj_props_fresh. }
    split; [exact Hstore|]. split; [reflexivity|].
    destruct (never_throws_run _ (reportMetric_never_throws name v) w1) as ([] & w2 & Hrun).
    assert (Hd : PM.isInitialized (desktop w2) = false).
    { destruct (inherited name) eqn:Hi.
      - rewrite (reportMetric_taken name v w1 (Htaken eq_refl)) in Hrun.
        injection Hrun as <-. reflexivity.
      - destruct (reportMetric_ready name v w1 (Hready eq_refl))
          as (w2' & Hrun' & Hd' & _).
        rewrite Hrun in Hrun'. injection Hrun' as <-. now rewrite Hd'. }
    destruct (init_starts w2 Hd) as (w3 & Hinit & Hon).
    pose proof (init_preserves_heap w2) as Hh. pose proof (init_preserves_metrics w2) as Hm.
    unfold exec in Hh, Hm. rewrite Hinit in Hh, Hm. cbn in Hh, Hm.
    exists w2, w3. split; [exact Hrun|]. split; [exact Hinit|]. split; [exact Hon|].
    unfold PerformanceMonitorView.store, PerformanceMonitorView.series in *.
    rewrite Hh, Hm. split; [reflexivity|]. split; [reflexivity|]. split; intros Hi.
    + destruct (reportMetric_ready name v w1 (Hready Hi))
        as (w2' & Hrun' & _ & _ & _ & _ & Hs & _).
      rewrite Hrun in Hrun'. injection Hrun' as <-.
      unfold PerformanceMonitorView.series in Hs. rewrite Hs.
      change (series_at (heap w1) (PM.metrics (desktop w1)) name)
        with (series_at (heap w ++ [CObject ∅]) (length (heap w)) name).
      rewrite Hnone. reflexivity.
    + rewrite (reportMetric_taken name v w1 (Htaken Hi)) in Hrun.
      injection Hrun as <-. split; [exact Hstore | reflexivity].
  - split; [unfold MobilePerformanceMonitorView.store; cbn; apply obj_props_fresh|].
    split; intros Hi.
    + destruct (logMetric_ready name v m1 (Hready Hi))
        as (m2 & Hrun & _ & _ & _ & _ & Hs & _).
      rewrite Hrun. split; [reflexivity|].
      cbn [snd]. rewrite Hs. unfold MobilePerformanceMonitorView.series.
      change (series_at (heap m1) (MPM.metrics (mobile m1)) name)
        with (series_at (heap w ++ [CObject ∅]) (length (heap w)) name).
      rewrite Hnone. reflexivity.
    + exact (logMetric_taken name v m1 (Htaken Hi)).
Qed.

(** C3, counterexample.  A sample reported after [destroy] is stored, and a
    later [init] runs the collector again. *)
Lemma destroyed_collector_still_records :
  let w1 := exec PerformanceMonitor.destroy (exec PerformanceMonitor.init scenario_world) in
  let w2 := exec (PerformanceMonitor.reportMetric "LCP" (JNum 1800)) w1 in
  let w3 := exec PerformanceMonitor.init w2 in
  PerformanceMonitorView.store w1 = ∅ /\
  PerformanceMonitorView.store w2 <> ∅ /\
  map value_of <$> PerformanceMonitorView.series "LCP" w2 = Some [JNum 1800] /\
  PM.isInitialized (desktop w3) = true /\
  map value_of <$> PerformanceMonitorView.series "LCP" w3 = Some [JNum 1800].
Proof.
  cbn zeta. split; [vm_compute; reflexivity|]. split.
  - intros H. apply (f_equal (fun m => m !! "LCP")) in H. vm_compute in H. discriminate.
  - vm_compute. repeat split.
Qed.

(** ** Numbers *)

Example Math_round_75 : Math_round 75 = 75%float.
Proof. reflexivity. Qed.
Example Math_round_half_up : Math_round 2.5 = 3%float.
Proof. reflexivity. Qed.
Example Math_round_neg_half : Math_round (-2.5) = (-2)%float.
Proof. reflexivity. Qed.
Example Math_round_third : Math_round (250 / 3) = 83%float.
Proof. reflexivity. Qed.
Example Math_round_two_thirds : Math_round (275 / 3) = 92%float.
Proof. reflexivity. Qed.

(** A double above zero is truthy: it is neither a zero nor NaN. *)
Lemma positive_truthy (d : float) : (0 <? d)%float = true -> truthy (JNum d) = true.
Proof.
  intros H. cbn [truthy]. unfold PrimFloat.is_nan.
  rewrite FloatAxioms.ltb_spec in H. rewrite !FloatAxioms.eqb_spec.
  change (Prim2SF 0) with (S754_zero false) in *.
  destruct (Prim2SF d) as [s|s| |s m e]; cbn in *; try discriminate.
  - destruct s; [discriminate | reflexivity].
  - destruct s; [discriminate|]. unfold SFeqb, SFcompare. cbn.
    rewrite Z.compare_refl, Pos.compare_refl. reflexivity.
Qed.

(** ** Custom timings *)

(** [reportMetric] on a slot that holds a truthy value other than an array:
    the push raises [TypeError], which is caught and logged; nothing is
    stored and nothing is sent. *)
Lemma reportMetric_on_scalar name v w x :
  read_prop (heap w) (PM.metrics (desktop w)) name = x ->
  truthy x = true -> (forall r, x <> JRef r) ->
  PerformanceMonitor.reportMetric name v w
  = (Normal tt, set_console (console w ++ [ConsoleWarn "Failed to report metric:"]) w).
Proof.
  intros Hread Htruthy Hscalar.
  unfold PerformanceMonitor.reportMetric, try_catch, bind,
    PerformanceMonitor.get_metric, get_prop, gets, when, length_ge, Date_now, array_push.
  cbn. rewrite !Hread, Htruthy. cbn.
  repeat (rewrite ?Hread, ?(as_array_not_ref _ _ Hscalar); cbn). reflexivity.
Qed.

(** C10 (amended).  When [fn] returns normally and the measured duration is
    above zero, [measure] (and [measureAsync]) returns [fn]'s result and
    leaves the plain duration under [name] in the store, in place of whatever
    was there, a series included, for every name but [__proto__].  The
    [reportMetric] call that follows finds a number in the slot, fails on
    [push] and only logs a warning: the heap differs from the one [fn] left
    in the store object alone, so no sample is appended to any series. *)
Theorem measure_stores_scalar_duration
    {R : Type} (name : string) (fn : Eff R) (w w1 : World) (r : R)
    (props : gmap string JsValue) :
  fn w = (Normal r, w1) ->
  heap w1 !! PM.metrics (desktop w1) = Some (CObject props) ->
  (0 <? perfNow w1 - perfNow w)%float = true ->
  name <> "__proto__" ->
  let d := (perfNow w1 - perfNow w)%float in
  exists w2,
    PerformanceMonitor.measure name fn w = (Normal r, w2) /\
    PerformanceMonitor.measureAsync name fn w = (Normal r, w2) /\
    PerformanceMonitorView.store w2 = <[name := JNum d]> props /\
    PerformanceMonitorView.series name w2 = None /\
    heap w2 = <[PM.metrics (desktop w1) := CObject (<[name := JNum d]> props)]> (heap w1) /\
    desktop w2 = desktop w1 /\
    trace w2 = trace w1 /\
    console w2 = console w1 ++ [ConsoleWarn "Failed to report metric:"].
Proof.
  intros Hfn Hstore Hpos Hname d.
  assert (Hlt : PM.metrics (desktop w1) < length (heap w1)) by (eapply lookup_lt_Some; eauto).
  set (h' := <[PM.metrics (desktop w1) := CObject (<[name := JNum d]> props)]> (heap w1)).
  assert (Hw : write_prop (heap w1) (PM.metrics (desktop w1)) name (JNum d) = h').
  { apply write_prop_assigns; [exact Hstore | now apply assigns_other]. }
  assert (Hprops : obj_props h' (PM.metrics (desktop w1)) = <[name := JNum d]> props).
  { unfold obj_props, h'. now rewrite list_lookup_insert_eq. }
  assert (Hread : read_prop h' (PM.metrics (desktop w1)) name = JNum d).
  { unfold read_prop. rewrite Hprops. now rewrite lookup_insert_eq. }
  assert (Hrun : forall k : Eff R, (k = PerformanceMonitor.measure name fn \/
                                    k = PerformanceMonitor.measureAsync name fn) ->
            k w = (Normal r, set_console (console w1 ++ [ConsoleWarn "Failed to report metric:"])
                                         (set_heap h' w1))).
  { intros k [-> | ->];
      unfold PerformanceMonitor.measure, PerformanceMonitor.measureAsync, performance_now;
      unfold bind at 1; cbn [gets];
      rewrite (bind_normal _ _ _ _ _ Hfn);
      unfold bind at 1; cbn [gets]; fold d;
      unfold PerformanceMonitor.set_metric, set_prop; unfold bind at 1;
      unfold bind at 1; cbn [gets modify]; rewrite Hw;
      unfold bind at 1;
      rewrite (reportMetric_on_scalar name (JNum d) (set_heap h' w1) (JNum d));
      first [reflexivity | exact Hread | now apply positive_truthy | discriminate]. }
  eexists. split; [apply Hrun; now left|]. split; [apply Hrun; now right|].
  unfold PerformanceMonitorView.store, PerformanceMonitorView.series, series_at. cbn.
  rewrite Hprops, Hread. repeat split.
Qed.

(** C10, witness: timing 12 ms of work under a name that already holds a
    series. *)
Lemma measure_stores_scalar_duration_witness :
  exists w2,
    map value_of <$> PerformanceMonitorView.series "render" page_with_render_series
    = Some [JNum 5] /\
    PerformanceMonitor.measure "render" twelve_ms_of_work page_with_render_series
    = (Normal "done", w2) /\
    PerformanceMonitorView.store w2 !! "render" = Some (JNum 12) /\
    PerformanceMonitorView.series "render" w2 = None.
Proof.
  destruct (measure_stores_scalar_duration "render" twelve_ms_of_work
              page_with_render_series (set_perfNow 12 page_with_render_series) "done"
              (PerformanceMonitorView.store page_with_render_series))
    as (w2 & Hrun & _ & Hstore & Hseries & _).
  - vm_compute. reflexivity.
  - vm_compute. reflexivity.
  - vm_compute. reflexivity.
  - discriminate.
  - exists w2. split; [vm_compute; reflexivity|]. split; [exact Hrun|].
    split; [|exact Hseries].
    rewrite Hstore. apply lookup_insert_eq.
Defined.

(** C10, counterexample.  Under the name [__proto__] the assignment goes to
    the setter of [Object.prototype], which ignores a number: the store has
    no entry under the name afterwards, and the name reads the prototype, not
    the 12 ms that were measured. *)
Lemma measure_under_proto_stores_nothing :
  let w2 := exec (PerformanceMonitor.measure "__proto__" twelve_ms_of_work) scenario_world in
  completion (PerformanceMonitor.measure "__proto__" twelve_ms_of_work) scenario_world
  = Normal "done" /\
  PerformanceMonitorView.store w2 = PerformanceMonitorView.store scenario_world /\
  PerformanceMonitorView.store w2 !! "__proto__" = None /\
  read_prop (heap w2) (PM.metrics (desktop w2)) "__proto__" = JNative "__proto__" /\
  read_prop (heap w2) (PM.metrics (desktop w2)) "__proto__" <> JNum 12.
Proof. vm_compute. repeat split. discriminate. Qed.

(** ** Samples that are not finite numbers *)

(** C5 (amended).  [reportMetric] never throws, whatever it is given.  No
    sample is dropped for its value: a value that is NaN, an infinity or
    [undefined] is recorded like any other, by [reportMetric] and by
    [logMetric], on a slot that is empty or holds a series.  What decides is
    the slot, not the value: on a slot that is taken (by a scalar, or by a
    member inherited from [Object.prototype]) [reportMetric] stores nothing
    and logs a warning, and [logMetric], which has no [try], throws
    [TypeError] to its caller. *)
Theorem record_keeps_every_value (w : World) (name : string) (v : JsValue) :
  (exists w', PerformanceMonitor.reportMetric name v w = (Normal tt, w')) /\
  (slot_ready (heap w) (PM.metrics (desktop w)) name ->
   PerformanceMonitorView.series name (exec (PerformanceMonitor.reportMetric name v) w)
   = Some (evict 100 (default [] (PerformanceMonitorView.series name w))
           ++ [sample v (dateNow w)])) /\
  (slot_ready (heap w) (MPM.metrics (mobile w)) name ->
   completion (MobilePerformanceMonitor.logMetric name v) w = Normal tt /\
   MobilePerformanceMonitorView.series name (exec (MobilePerformanceMonitor.logMetric name v) w)
   = Some (evict 50 (default [] (MobilePerformanceMonitorView.series name w))
           ++ [metric_record name v (dateNow w) (mobile w) (host w)])) /\
  (slot_taken (heap w) (PM.metrics (desktop w)) name ->
   exec (PerformanceMonitor.reportMetric name v) w
   = set_console (console w ++ [ConsoleWarn "Failed to report metric:"]) w) /\
  (slot_taken (heap w) (MPM.metrics (mobile w)) name ->
   MobilePerformanceMonitor.logMetric name v w = (Throw TypeError, w)).
Proof.
  split; [|split; [|split; [|split]]].
  - destruct (never_throws_run _ (reportMetric_never_throws name v) w) as ([] & w' & H). eauto.
  - intros Hready.
    destruct (reportMetric_ready name v w Hready) as (w' & Hrun & _ & _ & _ & _ & Hs & _).
    unfold exec. now rewrite Hrun.
  - intros Hready.
    destruct (logMetric_ready name v w Hready) as (w' & Hrun & _ & _ & _ & _ & Hs & _).
    unfold exec, completion. now rewrite Hrun.
  - intros Htaken. unfold exec. now rewrite reportMetric_taken.
  - apply logMetric_taken.
Qed.

(** C5, witness: a NaN sample on a newly loaded page. *)
Lemma record_keeps_every_value_witness :
  (exists w', PerformanceMonitor.reportMetric "LCP" (JNum PrimFloat.nan) scenario_world
              = (Normal tt, w')) /\
  PerformanceMonitorView.series "LCP"
    (exec (PerformanceMonitor.reportMetric "LCP" (JNum PrimFloat.nan)) scenario_world)
  = Some [sample (JNum PrimFloat.nan) 0] /\
  MobilePerformanceMonitorView.series "LCP"
    (exec (MobilePerformanceMonitor.logMetric "LCP" (JNum PrimFloat.nan)) scenario_world)
  = Some [metric_record "LCP" (JNum PrimFloat.nan) 0 (mobile scenario_world) modern_browser].
Proof.
  destruct (record_keeps_every_value scenario_world "LCP" (JNum PrimFloat.nan))
    as (H1 & H2 & H3 & _).
  split; [exact H1|]. split.
  - rewrite H2; [vm_compute; reflexivity|].
    split; [eexists; vm_compute; reflexivity | left; vm_compute; reflexivity].
  - destruct H3 as [_ H3]; [|rewrite H3; vm_compute; reflexivity].
    split; [eexists; vm_compute; reflexivity | left; vm_compute; reflexivity].
Defined.

(** C5, counterexample.  Samples whose value is NaN, +∞ or [undefined]
    change the store: each is appended to the series. *)
Lemma non_finite_samples_are_stored :
  let w := exec (PerformanceMonitor.reportMetric "LCP" (JNum PrimFloat.nan) ;;
                 PerformanceMonitor.reportMetric "LCP" (JNum PrimFloat.infinity) ;;
                 PerformanceMonitor.reportMetric "LCP" JUndefined) scenario_world in
  PerformanceMonitorView.store scenario_world = ∅ /\
  PerformanceMonitorView.store w <> PerformanceMonitorView.store scenario_world /\
  map value_of <$> PerformanceMonitorView.series "LCP" w
  = Some [JNum PrimFloat.nan; JNum PrimFloat.infinity; JUndefined].
Proof.
  cbn zeta. split; [vm_compute; reflexivity|]. split.
  - intros H. apply (f_equal (fun m => m !! "LCP")) in H. vm_compute in H. discriminate.
  - vm_compute. reflexivity.
Qed.

(** ** Deliveries *)

(** C9.  A delivery puts a 5000 ms timer in front of its [fetch], which
    carries the abort signal of that timer; the timer is cleared when the
    fetch resolves and it aborts the fetch when it fires first.  However the
    remote call ends (any status, network error, timeout), and also when the
    page cannot abort fetches at all, [sendToAnalytics] completes normally,
    writes at most one warning, and leaves the heap and the collector, and so
    the store, untouched. *)
Theorem sendToAnalytics_swallows_failures
    (w : World) (name : string) (v : JsValue) (outcome : FetchOutcome) :
  let w' := exec (PerformanceMonitor.sendToAnalytics name v outcome) w in
  completion (PerformanceMonitor.sendToAnalytics name v outcome) w = Normal tt /\
  heap w' = heap w /\ desktop w' = desktop w /\ mobile w' = mobile w /\
  PerformanceMonitorView.store w' = PerformanceMonitorView.store w /\
  console w' = console w ++ delivery_log (host w) outcome /\
  (length (delivery_log (host w) outcome) <= 1)%nat /\
  trace w' = trace w ++ (if hasAbortController (host w)
                         then delivery_calls (nextHandle w) name v outcome else []).
Proof.
  intros w'. subst w'.
  unfold PerformanceMonitor.sendToAnalytics, PerformanceMonitor.sendToAnalytics_start,
    PerformanceMonitor.sendToAnalytics_settle, PerformanceMonitorView.store,
    delivery_log, delivery_calls, exec, completion, try_catch, bind, gets, modify, when,
    host_call, console_warn, fresh_handle, throw, ret.
  destruct w as [h d m cv ho dn pn co tr nh]. cbn.
  destruct (hasAbortController ho); cbn;
    [destruct outcome as [status|e|]; cbn;
     [| destruct (String.eqb (error_name e) "AbortError"); cbn |] |];
    rewrite ?app_nil_r; repeat rewrite <- app_assoc;
    repeat split; cbn; first [reflexivity | lia].
Qed.

(** The three ways a delivery can fail, on a page with metrics recorded. *)
Example deliveries_that_fail :
  let w := exec (PerformanceMonitor.reportMetric "LCP" (JNum 1800)) scenario_world in
  let run outcome := exec (PerformanceMonitor.sendToAnalytics "LCP" (JNum 1800) outcome) w in
  console (run (FetchResolved 500)) = console w /\
  console (run (FetchRejected TypeError))
  = console w ++ [ConsoleWarn "Failed to send performance data:"] /\
  console (run FetchTimedOut) = console w /\
  trace (run FetchTimedOut)
  = trace w ++ [HSetTimeout 7 5000%N;
                HFetch "/api/analytics/performance" 7 "LCP" (JNum 1800); HAbort 7] /\
  PerformanceMonitorView.series "LCP" (run FetchTimedOut) = PerformanceMonitorView.series "LCP" w.
Proof. vm_compute. repeat split. Qed.

(** ** Cumulative layout shift *)

Lemma sum_from_app start xs ys : sum_from start (xs ++ ys) = sum_from (sum_from start xs) ys.
Proof. unfold sum_from, counted. now rewrite List.filter_app, map_app, fold_left_app. Qed.

Lemma logMetric_preserves_clsValue name v :
  preserves clsValue (MobilePerformanceMonitor.logMetric name v).
Proof.
  unfold MobilePerformanceMonitor.logMetric, MobilePerformanceMonitor.sendToAnalytics,
    MobilePerformanceMonitor.checkPerformanceWarnings,
    MobilePerformanceMonitor.get_metric, MobilePerformanceMonitor.set_metric, call_gtag,
    get_prop, set_prop, length_ge, Date_now, is_development, is_production, console_log,
    console_warn, host_call.
  eff_structure.
Qed.

Lemma cls_total_after_add id v w :
  cls_total id (exec (cls_add id v) w) = (cls_total id w + v)%float.
Proof. unfold cls_total, cls_add, exec, modify. cbn. now rewrite lookup_insert_eq. Qed.

(** One entry through the desktop observer. *)
Lemma desktop_cls_entry id entry w :
  let step :=
    when (negb (hadRecentInput entry))
         (cls_add id (value entry) ;;
          total <- gets (cls_total id) ;;
          PerformanceMonitor.set_metric "cls" (JNum total) ;;
          PerformanceMonitor.reportMetric "CLS" (JNum total)) in
  exists w', step w = (Normal tt, w') /\
             cls_total id w' = sum_from (cls_total id w) [entry] /\
             (hadRecentInput entry = true -> w' = w).
Proof.
  intros step. subst step. unfold sum_from, counted. cbn [List.filter].
  destruct (hadRecentInput entry); cbn [negb when map fold_left].
  - exists w. repeat split.
  - assert (Hnt : never_throws
             (total <- gets (cls_total id) ;;
              PerformanceMonitor.set_metric "cls" (JNum total) ;;
              PerformanceMonitor.reportMetric "CLS" (JNum total))).
    { unfold PerformanceMonitor.set_metric, set_prop.
      eff_structure; try apply reportMetric_never_throws. }
    assert (Hpres : preserves clsValue
             (total <- gets (cls_total id) ;;
              PerformanceMonitor.set_metric "cls" (JNum total) ;;
              PerformanceMonitor.reportMetric "CLS" (JNum total))).
    { unfold PerformanceMonitor.set_metric, set_prop.
      eff_structure; try apply reportMetric_preserves_clsValue. }
    destruct (never_throws_run _ Hnt (exec (cls_add id (value entry)) w)) as ([] & w' & Hrun).
    exists w'. split; [|split; [|discriminate]].
    + unfold bind at 1. exact Hrun.
    + specialize (Hpres (exec (cls_add id (value entry)) w)).
      unfold exec at 1 in Hpres. rewrite Hrun in Hpres. cbn [snd] in Hpres.
      unfold cls_total at 1. rewrite Hpres. fold (cls_total id (exec (cls_add id (value entry)) w)).
      apply cls_total_after_add.
Qed.

Lemma desktop_cls_callback id entries w :
  exists w', PerformanceMonitor.clsObserver_callback id entries w = (Normal tt, w') /\
             cls_total id w' = sum_from (cls_total id w) entries.
Proof.
  revert w. induction entries as [|entry entries IH]; intros w.
  - exists w. split; reflexivity.
  - destruct (desktop_cls_entry id entry w) as (w1 & Hrun & Hsum & _).
    destruct (IH w1) as (w' & Hrun' & Hsum').
    exists w'. split.
    + unfold PerformanceMonitor.clsObserver_callback. cbn [forEach].
      unfold bind at 1. rewrite Hrun. exact Hrun'.
    + rewrite Hsum', Hsum. now rewrite (sum_from_app _ [entry] entries).
Qed.

(** The summing loop of the mobile observer. *)
Lemma mobile_cls_loop id entries w :
  exists w', forEach entries (fun entry =>
               when (negb (hadRecentInput entry)) (cls_add id (value entry))) w
             = (Normal tt, w') /\
             cls_total id w' = sum_from (cls_total id w) entries.
Proof.
  revert w. induction entries as [|entry entries IH]; intros w.
  - exists w. split; reflexivity.
  - cbn [forEach]. unfold bind at 1.
    replace (sum_from (cls_total id w) (entry :: entries))
      with (sum_from (sum_from (cls_total id w) [entry]) entries)
      by (now rewrite <- (sum_from_app _ [entry] entries)).
    unfold sum_from at 2, counted. cbn [List.filter].
    destruct (hadRecentInput entry); cbn [negb when map fold_left ret].
    + apply IH.
    + unfold cls_add at 1, modify at 1.
      destruct (IH (exec (cls_add id (value entry)) w)) as (w' & Hrun & Hsum).
      exists w'. split; [exact Hrun|]. now rewrite Hsum, cls_total_after_add.
Qed.

Lemma mobile_cls_callback id entries w :
  cls_total id (exec (MobilePerformanceMonitor.clsObserver_callback id entries) w)
  = sum_from (cls_total id w) entries.
Proof.
  destruct (mobile_cls_loop id entries w) as (w1 & Hrun & Hsum).
  unfold MobilePerformanceMonitor.clsObserver_callback, exec.
  rewrite (bind_normal _ _ _ _ _ Hrun).
  assert (Hpres : preserves clsValue
            (total <- gets (cls_total id) ;;
             MobilePerformanceMonitor.set_metric "cls" (JNum total) ;;
             MobilePerformanceMonitor.logMetric "CLS" (JNum total))).
  { unfold MobilePerformanceMonitor.set_metric, set_prop.
    eff_structure; try apply logMetric_preserves_clsValue. }
  specialize (Hpres w1). unfold exec in Hpres.
  unfold cls_total at 1. rewrite Hpres. exact Hsum.
Qed.

(** C6.  Through any sequence of layout-shift notifications the running
    total of an observer is its total before them plus the values of exactly
    the entries not flagged [hadRecentInput], added in the order they arrive
    (the total of a new observer is 0).  An entry with the flag leaves the
    total as it was: the desktop observer then changes nothing at all, the
    mobile observer stores and logs the unchanged total.  Both collectors. *)
Theorem cls_excludes_recent_input
    (w : World) (id : positive) (batches : list (list LayoutShift)) (v : float) :
  let flagged := {| value := v; hadRecentInput := true |} in
  cls_total id (desktop_layout_shifts id batches w)
  = sum_from (cls_total id w) (concat batches) /\
  cls_total id (mobile_layout_shifts id batches w)
  = sum_from (cls_total id w) (concat batches) /\
  sum_from (cls_total id w) [flagged] = cls_total id w /\
  exec (PerformanceMonitor.clsObserver_callback id [flagged]) w = w /\
  cls_total id (exec (MobilePerformanceMonitor.clsObserver_callback id [flagged]) w)
  = cls_total id w.
Proof.
  intros flagged. split; [|split; [|split; [|split]]].
  - revert w. induction batches as [|entries batches IH]; intros w; [reflexivity|].
    cbn [concat]. rewrite sum_from_app.
    destruct (desktop_cls_callback id entries w) as (w1 & Hrun & Hsum).
    change (desktop_layout_shifts id (entries :: batches) w)
      with (desktop_layout_shifts id batches
              (exec (PerformanceMonitor.clsObserver_callback id entries) w)).
    unfold exec at 1. rewrite Hrun. cbn [snd]. now rewrite IH, Hsum.
  - revert w. induction batches as [|entries batches IH]; intros w; [reflexivity|].
    cbn [concat]. rewrite sum_from_app.
    change (mobile_layout_shifts id (entries :: batches) w)
      with (mobile_layout_shifts id batches
              (exec (MobilePerformanceMonitor.clsObserver_callback id entries) w)).
    now rewrite IH, mobile_cls_callback.
  - reflexivity.
  - reflexivity.
  - now rewrite mobile_cls_callback.
Qed.

(** Three shifts, the middle one after recent input, on the page of the
    scenarios once the desktop collector runs: observer 8 is the desktop
    layout-shift observer, observer 3 the mobile one. *)
Example cls_of_three_shifts :
  let batches := [[ {| value := 0.05; hadRecentInput := false |};
                    {| value := 0.2; hadRecentInput := true |} ];
                  [ {| value := 0.1; hadRecentInput := false |} ]] in
  let w := exec PerformanceMonitor.init scenario_world in
  let d := desktop_layout_shifts 8 batches w in
  let m := mobile_layout_shifts 3 batches w in
  cls_total 8 w = 0%float /\
  cls_total 8 d = (0 + 0.05 + 0.1)%float /\
  PerformanceMonitorView.store d !! "cls" = Some (JNum (0 + 0.05 + 0.1)%float) /\
  map value_of <$> PerformanceMonitorView.series "CLS" d
  = Some [JNum (0 + 0.05)%float; JNum (0 + 0.05 + 0.1)%float] /\
  cls_total 3 m = (0 + 0.05 + 0.1)%float /\
  MobilePerformanceMonitorView.store m !! "cls" = Some (JNum (0 + 0.05 + 0.1)%float).
Proof. vm_compute. repeat split. Qed.

(** ** The scorer *)

Lemma read_prop_store w k :
  inherited k = false ->
  read_prop (heap w) (MPM.metrics (mobile w)) k
  = default JUndefined (MobilePerformanceMonitorView.store w !! k).
Proof.
  intros Hk. unfold read_prop, MobilePerformanceMonitorView.store.
  destruct (obj_props (heap w) (MPM.metrics (mobile w)) !! k); [reflexivity|].
  now rewrite Hk.
Qed.

(** C1 (amended).  The overall score is the rounded mean of the three vital
    scores, always divided by three: a vital with no recorded value is read
    as 0 and scores 100, and that 100 is part of the mean.  The scorer
    changes nothing.  For a store with [lcp = 7000] and neither [fid] nor
    [cls]: lcp scores 25, fid and cls 100, the overall score is 75, and the
    recommendations start with the LCP hint. *)
Theorem score_counts_absent_vitals_as_100 (w : World) :
  let store := MobilePerformanceMonitorView.store w in
  exists s,
    MobilePerformanceMonitor.getPerformanceScore w = (Normal s, w) /\
    overall s = Math_round ((0 + score_lcp s + score_fid s + score_cls s) / 3)%float /\
    (store !! "lcp" = None -> score_lcp s = 100%float) /\
    (store !! "fid" = None -> score_fid s = 100%float) /\
    (store !! "cls" = None -> score_cls s = 100%float) /\
    (store !! "lcp" = Some (JNum 7000) -> store !! "fid" = None -> store !! "cls" = None ->
     score_lcp s = 25%float /\ score_fid s = 100%float /\ score_cls s = 100%float /\
     overall s = 75%float /\
     recommendations s
     = lcp_hint :: (if MPM.isLowEndDevice (mobile w) then [low_end_hint] else [])).
Proof.
  intros store. subst store.
  unfold MobilePerformanceMonitor.getPerformanceScore, MobilePerformanceMonitor.getLCPScore,
    MobilePerformanceMonitor.getFIDScore, MobilePerformanceMonitor.getCLSScore,
    MobilePerformanceMonitor.getRecommendations, MobilePerformanceMonitor.get_metric,
    get_prop, bind, gets, ret.
  cbn [fst snd]. eexists. split; [reflexivity|].
  cbn [overall score_lcp score_fid score_cls recommendations s_lcp s_fid s_cls fold_left].
  rewrite !read_prop_store by reflexivity.
  split; [reflexivity|].
  split; [intros ->; reflexivity|].
  split; [intros ->; reflexivity|].
  split; [intros ->; reflexivity|].
  intros -> -> ->. cbn [default].
  destruct (MPM.isLowEndDevice (mobile w)); repeat split.
Qed.

(** C1, witness: the page whose mobile store is exactly [{lcp: 7000}]. *)
Lemma score_counts_absent_vitals_as_100_witness :
  MobilePerformanceMonitorView.store page_lcp_7000 = {[ "lcp" := JNum 7000 ]} /\
  exists s,
    MobilePerformanceMonitor.getPerformanceScore page_lcp_7000 = (Normal s, page_lcp_7000) /\
    score_lcp s = 25%float /\ score_fid s = 100%float /\ score_cls s = 100%float /\
    overall s = 75%float /\ recommendations s = [lcp_hint].
Proof.
  split; [vm_compute; reflexivity|].
  destruct (score_counts_absent_vitals_as_100 page_lcp_7000)
    as (s & Hrun & _ & _ & _ & _ & Hscenario).
  exists s. split; [exact Hrun|].
  destruct Hscenario as (Hl & Hf & Hc & Ho & Hr); try (vm_compute; reflexivity).
  repeat (split; [assumption|]). exact Hr.
Defined.

(** C1, counterexample.  For the store [{lcp: 7000}] the overall score is
    75, the mean of 25, 100 and 100; it is not 25. *)
Lemma overall_of_lcp_7000_is_75 :
  MobilePerformanceMonitorView.store page_lcp_7000 = {[ "lcp" := JNum 7000 ]} /\
  overall <$> completion_value (MobilePerformanceMonitor.getPerformanceScore) page_lcp_7000
  = Some 75%float /\
  overall <$> completion_value (MobilePerformanceMonitor.getPerformanceScore) page_lcp_7000
  <> Some 25%float.
Proof.
  split; [vm_compute; reflexivity|]. split; [vm_compute; reflexivity|].
  intros H.
  apply (f_equal (fun o => match o with Some x => Prim2SF x | None => S754_nan end)) in H.
  vm_compute in H. discriminate.
Qed.

(** ** Snapshots *)

Lemma obj_props_write_other h o o' k v :
  o <> o' -> obj_props (write_prop h o k v) o' = obj_props h o'.
Proof.
  intros Hne. unfold obj_props, write_prop.
  destruct (h !! o) as [[props|?]|]; try reflexivity.
  destruct (assigns props k); [|reflexivity].
  now rewrite list_lookup_insert_ne.
Qed.

(** C4 (amended).  [getMetrics] of the desktop collector returns a new
    object with the properties the store has at the time of the call: a
    shallow copy.  Assigning a property of the returned object never changes
    the property table of the store, and assigning a property of the store
    afterwards never changes the property table of the returned object.  The
    property values are copied as they are, so a series in the snapshot is
    the very array the store holds.  [getMetrics] of the mobile collector
    returns the store object itself. *)
Theorem getMetrics_is_shallow_copy (w : World) (props : gmap string JsValue) :
  heap w !! PM.metrics (desktop w) = Some (CObject props) ->
  let store := PM.metrics (desktop w) in
  let snapshot := length (heap w) in
  exists w1,
    PerformanceMonitor.getMetrics w = (Normal (JRef snapshot), w1) /\
    snapshot <> store /\
    desktop w1 = desktop w /\
    obj_props (heap w1) snapshot = props /\
    obj_props (heap w1) store = props /\
    (forall k v, obj_props (write_prop (heap w1) snapshot k v) store = props) /\
    (forall k v, obj_props (write_prop (heap w1) store k v) snapshot = props) /\
    (forall k, read_prop (heap w1) snapshot k = read_prop (heap w1) store k) /\
    MobilePerformanceMonitor.getMetrics w = (Normal (JRef (MPM.metrics (mobile w))), w).
Proof.
  intros Hstore store snapshot. subst store snapshot.
  assert (Hlt : PM.metrics (desktop w) < length (heap w)) by (eapply lookup_lt_Some; eauto).
  assert (Hprops : obj_props (heap w) (PM.metrics (desktop w)) = props).
  { unfold obj_props. now rewrite Hstore. }
  eexists. split.
  { unfold PerformanceMonitor.getMetrics, bind, gets, alloc, ret. cbn. reflexivity. }
  cbn [heap desktop set_heap]. rewrite Hprops.
  assert (Hsnap : obj_props (heap w ++ [CObject props]) (length (heap w)) = props)
    by apply obj_props_fresh.
  assert (Hst : obj_props (heap w ++ [CObject props]) (PM.metrics (desktop w)) = props).
  { unfold obj_props. now rewrite lookup_app_l, Hstore by assumption. }
  split; [lia|]. split; [reflexivity|]. split; [exact Hsnap|]. split; [exact Hst|].
  split; [|split; [|split]].
  - intros k v. rewrite obj_props_write_other by lia. exact Hst.
  - intros k v. rewrite obj_props_write_other by lia. exact Hsnap.
  - intros k. unfold read_prop. now rewrite Hsnap, Hst.
  - reflexivity.
Qed.

(** C4, witness: a snapshot of a store with one LCP series; the snapshot is
    heap cell 3. *)
Lemma getMetrics_is_shallow_copy_witness :
  exists w1,
    PerformanceMonitor.getMetrics page_one_sample = (Normal (JRef 3), w1) /\
    size (obj_props (heap w1) 3) = 1 /\
    obj_props (write_prop (heap w1) 3 "LCP" JUndefined) (PM.metrics (desktop w1))
    = PerformanceMonitorView.store page_one_sample /\
    obj_props (write_prop (heap w1) (PM.metrics (desktop w1)) "lcp" (JNum 9)) 3
    = PerformanceMonitorView.store page_one_sample.
Proof.
  destruct (getMetrics_is_shallow_copy page_one_sample
              (PerformanceMonitorView.store page_one_sample))
    as (w1 & Hrun & _ & Hd & Hsnap & _ & Hw1 & Hw2 & _).
  - vm_compute. reflexivity.
  - exists w1. split; [exact Hrun|]. split.
    + change (length (heap page_one_sample)) with 3 in Hsnap. rewrite Hsnap.
      vm_compute. reflexivity.
    + rewrite Hd. split; [apply Hw1 | apply Hw2].
Defined.

(** C4, counterexample.  A snapshot taken when the LCP series holds one
    sample shows two after the next [reportMetric]; a push onto the series
    read from the snapshot shows in the store; and the mobile [getMetrics]
    answers the store object itself. *)
Lemma snapshot_shares_series :
  let w1 := exec PerformanceMonitor.getMetrics page_one_sample in
  let snapshot := 3 in
  let w2 := exec (PerformanceMonitor.reportMetric "LCP" (JNum 2)) w1 in
  let w3 := exec (array_push (read_prop (heap w1) snapshot "LCP") (JStr "edited")) w1 in
  completion PerformanceMonitor.getMetrics page_one_sample = Normal (JRef snapshot) /\
  map value_of <$> series_at (heap w1) snapshot "LCP" = Some [JNum 1] /\
  map value_of <$> series_at (heap w2) snapshot "LCP" = Some [JNum 1; JNum 2] /\
  series_at (heap w2) snapshot "LCP" <> series_at (heap w1) snapshot "LCP" /\
  length <$> PerformanceMonitorView.series "LCP" w1 = Some 1 /\
  length <$> PerformanceMonitorView.series "LCP" w3 = Some 2 /\
  PerformanceMonitorView.series "LCP" w3 <> PerformanceMonitorView.series "LCP" w1 /\
  completion MobilePerformanceMonitor.getMetrics page_one_sample
  = Normal (JRef (MPM.metrics (mobile page_one_sample))).
Proof.
  cbn zeta.
  repeat (split; [vm_compute; reflexivity|]).
  split.
  { intros H. apply (f_equal (fun o => length <$> o)) in H. vm_compute in H. discriminate. }
  repeat (split; [vm_compute; reflexivity|]).
  split.
  { intros H. apply (f_equal (fun o => length <$> o)) in H. vm_compute in H. discriminate. }
  vm_compute. reflexivity.
Qed.

(** * The collectors under arbitrary use *)

(** ** One bounded push, as a function of the heap *)

Lemma set_heap_same w : set_heap (heap w) w = w.
Proof. now destruct w. Qed.

Lemma push_bounded_run o name limit x w props :
  (0 < limit)%nat -> heap w !! o = Some (CObject props) ->
  push_bounded o name limit x w
  = (match as_array (heap w) (read_prop (heap w) o name) with
     | None => if truthy (read_prop (heap w) o name) then Throw TypeError else Normal tt
     | Some _ => Normal tt
     end,
     set_heap (pushed (heap w) o name limit x) w).
Proof.
  intros Hlim Ho. unfold pushed.
  destruct (as_array (heap w) (read_prop (heap w) o name)) as [[r elems]|] eqn:Harr.
  - assert (Hs : series_at (heap w) o name = Some elems).
    { unfold series_at. now rewrite Harr. }
    destruct (series_at_inv _ _ _ _ Hs) as (props' & r' & Ho' & Hn & Hr & Hread).
    rewrite Hread in Harr. rewrite (as_array_ref _ _ _ Hr) in Harr.
    injection Harr as ->.
    assert (Hne : r <> o) by congruence.
    assert (Hlt : r < length (heap w)) by (eapply lookup_lt_Some; eauto).
    unfold push_bounded, bind, get_prop, gets, when, length_ge, array_shift, array_push.
    cbn. repeat (first [rewrite Hread | rewrite (as_array_ref _ _ _ Hr)]; cbn).
    unfold evict. destruct (limit <=? length elems)%nat; cbn.
    + assert (Hread' : read_prop (<[r:=CArray (tail elems)]> (heap w)) o name = JRef r).
      { unfold read_prop, obj_props. rewrite list_lookup_insert_ne by done.
        now rewrite Ho', Hn. }
      rewrite (as_array_ref _ _ _ Hr). cbn. rewrite Hread'.
      rewrite (as_array_ref _ r (tail elems)) by now rewrite list_lookup_insert_eq.
      now rewrite list_insert_insert_eq.
    + now rewrite Hread, (as_array_ref _ _ _ Hr).
  - destruct (truthy (read_prop (heap w) o name)) eqn:Htruthy.
    + unfold push_bounded, bind, get_prop, gets, when, length_ge, array_shift, array_push.
      cbn. rewrite Htruthy. cbn. rewrite !Harr. cbn. rewrite !Harr.
      now rewrite set_heap_same.
    + assert (Hlt : o < length (heap w)) by (eapply lookup_lt_Some; eauto).
      set (a := length (heap w)).
      set (h1 := heap w ++ [CArray []]).
      set (h2 := <[o := CObject (<[name := JRef a]> props)]> h1).
      assert (Ho1 : h1 !! o = Some (CObject props)).
      { unfold h1. now rewrite lookup_app_l. }
      assert (Hw : write_prop h1 o name (JRef a) = h2).
      { exact (write_prop_falsy _ _ _ _ _ _ Ho Htruthy). }
      assert (Hlen1 : length h1 = S a).
      { unfold h1. rewrite length_app. cbn. unfold a. lia. }
      assert (Ho2 : h2 !! o = Some (CObject (<[name := JRef a]> props))).
      { unfold h2. rewrite list_lookup_insert_eq; [done | lia]. }
      assert (Hread2 : read_prop h2 o name = JRef a).
      { unfold read_prop, obj_props. rewrite Ho2. now rewrite lookup_insert_eq. }
      assert (Ha2 : h2 !! a = Some (CArray [])).
      { unfold h2. rewrite list_lookup_insert_ne by lia.
        unfold h1, a. now rewrite list_lookup_middle. }
      unfold push_bounded, bind, get_prop, set_prop, gets, modify, when, alloc, length_ge,
        array_shift, array_push.
      cbn. rewrite Htruthy. cbn. fold a h1. rewrite Hw.
      repeat (first [rewrite Hread2 | rewrite (as_array_ref _ _ _ Ha2)]; cbn).
      destruct limit as [|limit]; [lia|]. cbn.
      repeat (first [rewrite Hread2 | rewrite (as_array_ref _ _ _ Ha2)]; cbn).
      reflexivity.
Qed.


(** ** What a push leaves alone *)

Lemma pushed_length h o name limit x : (length h <= length (pushed h o name limit x))%nat.
Proof.
  unfold pushed.
  destruct (as_array h (read_prop h o name)) as [[r elems]|].
  - now rewrite length_insert.
  - destruct (truthy (read_prop h o name)); [lia|].
    rewrite length_insert. unfold write_prop.
    destruct ((h ++ [CArray []]) !! o) as [[props|?]|]; [destruct (assigns props name)| |];
      rewrite ?length_insert, length_app; cbn; lia.
Qed.

Lemma as_array_inv h v r elems :
  as_array h v = Some (r, elems) -> v = JRef r /\ h !! r = Some (CArray elems).
Proof.
  unfold as_array. destruct v; try discriminate.
  destruct (h !! r0) as [[?|?]|] eqn:E; try discriminate.
  intros [= <- <-]. now split.
Qed.

(** The store object after a push: its properties are those of before,
    with the new series under [name] when one was created. *)
Lemma pushed_props h o name limit x props :
  h !! o = Some (CObject props) ->
  obj_props (pushed h o name limit x) o = props \/
  (truthy (read_prop h o name) = false /\
   obj_props (pushed h o name limit x) o = <[name := JRef (length h)]> props).
Proof.
  intros Ho. assert (Hlt : o < length h) by (eapply lookup_lt_Some; eauto).
  unfold pushed.
  destruct (as_array h (read_prop h o name)) as [[r elems]|] eqn:Harr.
  - left. destruct (as_array_inv _ _ _ _ Harr) as [_ Hr].
    unfold obj_props. rewrite list_lookup_insert_ne by congruence. now rewrite Ho.
  - destruct (truthy (read_prop h o name)) eqn:Ht.
    + left. unfold obj_props. now rewrite Ho.
    + right. split; [reflexivity|].
      rewrite (write_prop_falsy _ _ props) by assumption. unfold obj_props.
      rewrite list_lookup_insert_ne by lia.
      rewrite list_lookup_insert_eq; [done|]. rewrite length_app. cbn. lia.
Qed.

Lemma pushed_read_other h o name limit x props k :
  h !! o = Some (CObject props) -> k <> name ->
  read_prop (pushed h o name limit x) o k = read_prop h o k.
Proof.
  intros Ho Hk. unfold read_prop at 1.
  destruct (pushed_props h o name limit x props Ho) as [-> | [_ ->]].
  - unfold read_prop, obj_props. now rewrite Ho.
  - rewrite lookup_insert_ne by congruence.
    unfold read_prop, obj_props. now rewrite Ho.
Qed.

(** A cell other than the store and the array of [name] is not touched. *)
Lemma pushed_cell_other h o name limit x props r c :
  h !! o = Some (CObject props) -> h !! r = Some c -> r <> o ->
  read_prop h o name <> JRef r ->
  pushed h o name limit x !! r = Some c.
Proof.
  intros Ho Hr Hro Hslot.
  assert (Hlt : r < length h) by (eapply lookup_lt_Some; eauto).
  unfold pushed.
  destruct (as_array h (read_prop h o name)) as [[r' elems]|] eqn:Harr.
  - destruct (as_array_inv _ _ _ _ Harr) as [Hv _].
    rewrite list_lookup_insert_ne by congruence. exact Hr.
  - destruct (truthy (read_prop h o name)) eqn:Ht; [exact Hr|].
    rewrite list_lookup_insert_ne by lia.
    rewrite (write_prop_falsy _ _ props) by assumption.
    rewrite list_lookup_insert_ne by congruence.
    now rewrite lookup_app_l.
Qed.

(** The series under [name] after a push that went through. *)
Lemma pushed_series h o name limit x props :
  (0 < limit)%nat -> h !! o = Some (CObject props) ->
  (truthy (read_prop h o name) = false \/ is_Some (series_at h o name)) ->
  series_at (pushed h o name limit x) o name
  = Some (evict limit (default [] (series_at h o name)) ++ [x]).
Proof.
  intros Hlim Ho Hready.
  assert (Hlt : o < length h) by (eapply lookup_lt_Some; eauto).
  unfold pushed.
  destruct (as_array h (read_prop h o name)) as [[r elems]|] eqn:Harr.
  - destruct (as_array_inv _ _ _ _ Harr) as [Hv Hr].
    assert (Hs : series_at h o name = Some elems).
    { unfold series_at. now rewrite Harr. }
    rewrite Hs. cbn.
    destruct (series_at_inv _ _ _ _ Hs) as (props' & r' & Ho' & Hn & Hr' & Hread).
    assert (r' = r) by congruence. subst r'.
    eapply series_at_intro with (r := r).
    + rewrite list_lookup_insert_ne by congruence. exact Ho'.
    + exact Hn.
    + rewrite list_lookup_insert_eq; [done|]. eapply lookup_lt_Some; eauto.
  - assert (Hs : series_at h o name = None).
    { unfold series_at. now rewrite Harr. }
    rewrite Hs in *. destruct Hready as [Hf | [? ?]]; [|discriminate].
    rewrite Hf. cbn. rewrite evict_nil by assumption. cbn.
    eapply series_at_intro with (r := length h).
    + rewrite list_lookup_insert_ne by lia.
      rewrite (write_prop_falsy _ _ props) by assumption.
      rewrite list_lookup_insert_eq; [done|]. rewrite length_app. cbn. lia.
    + now rewrite lookup_insert_eq.
    + rewrite list_lookup_insert_eq; [done|].
      rewrite (write_prop_falsy _ _ props) by assumption.
      rewrite length_insert, length_app. cbn. lia.
Qed.

Lemma length_evict_push limit bound (l : list JsValue) x :
  (0 < limit)%nat -> (limit <= bound)%nat -> (length l <= bound)%nat ->
  (length (evict limit l ++ [x]) <= bound)%nat.
Proof.
  intros Hpos Hle Hl. rewrite length_app. cbn. unfold evict.
  destruct (Nat.leb_spec limit (length l)).
  - destruct l; cbn in *; lia.
  - lia.
Qed.

(** A push keeps the store in good order. *)
Lemma pushed_ok bound h o name limit x :
  (0 < limit)%nat -> (limit <= bound)%nat ->
  store_ok bound h o -> store_ok bound (pushed h o name limit x) o.
Proof.
  intros Hpos Hle (props & Ho & Hrefs & Hinj).
  assert (Hlt : o < length h) by (eapply lookup_lt_Some; eauto).
  unfold pushed.
  destruct (as_array h (read_prop h o name)) as [[r elems]|] eqn:Harr.
  - destruct (as_array_inv _ _ _ _ Harr) as [Hv Hr].
    assert (Hro : r <> o) by congruence.
    assert (Hname : props !! name = Some (JRef r)) by (eapply read_prop_ref; eauto).
    destruct (Hrefs _ _ Hname) as (elems' & Hr' & Hlen).
    assert (elems' = elems) by congruence. subst elems'.
    exists props. split; [|split].
    + rewrite list_lookup_insert_ne by congruence. exact Ho.
    + intros k r0 Hk. destruct (decide (r0 = r)) as [->|Hne].
      * eexists. split.
        -- rewrite list_lookup_insert_eq; [done|]. eapply lookup_lt_Some; eauto.
        -- now apply length_evict_push.
      * destruct (Hrefs _ _ Hk) as (e0 & He0 & Hl0).
        exists e0. split; [|exact Hl0].
        rewrite list_lookup_insert_ne by congruence. exact He0.
    + exact Hinj.
  - destruct (truthy (read_prop h o name)) eqn:Ht.
    + exists props. auto.
    + exists (<[name := JRef (length h)]> props).
      assert (Hw : write_prop (h ++ [CArray []]) o name (JRef (length h))
                   = <[o := CObject (<[name := JRef (length h)]> props)]> (h ++ [CArray []])).
      { exact (write_prop_falsy _ _ _ _ _ _ Ho Ht). }
      rewrite Hw.
      assert (Hfresh : forall k r, props !! k = Some (JRef r) -> r < length h /\ r <> o).
      { intros k r Hk. destruct (Hrefs _ _ Hk) as (e & He & _).
        split; [eapply lookup_lt_Some; eauto | congruence]. }
      split; [|split].
      * rewrite list_lookup_insert_ne by lia.
        rewrite list_lookup_insert_eq; [done|]. rewrite length_app. cbn. lia.
      * intros k r Hk. destruct (decide (k = name)) as [->|Hne].
        -- rewrite lookup_insert_eq in Hk. injection Hk as <-.
           exists [x]. split; [|cbn; lia].
           rewrite list_lookup_insert_eq; [done|].
           rewrite length_insert, length_app. cbn. lia.
        -- rewrite lookup_insert_ne in Hk by congruence.
           destruct (Hfresh _ _ Hk) as [Hr1 Hr2].
           destruct (Hrefs _ _ Hk) as (e & He & Hl).
           exists e. split; [|exact Hl].
           rewrite list_lookup_insert_ne by lia.
           rewrite list_lookup_insert_ne by congruence.
           now rewrite lookup_app_l.
      * intros k1 k2 r H1 H2.
        destruct (decide (k1 = name)) as [->|N1], (decide (k2 = name)) as [->|N2];
          try reflexivity.
        -- rewrite lookup_insert_eq in H1. injection H1 as <-.
           rewrite lookup_insert_ne in H2 by congruence.
           destruct (Hfresh _ _ H2) as [? _]. lia.
        -- rewrite lookup_insert_eq in H2. injection H2 as <-.
           rewrite lookup_insert_ne in H1 by congruence.
           destruct (Hfresh _ _ H1) as [? _]. lia.
        -- rewrite lookup_insert_ne in H1, H2 by congruence. eauto.
Qed.

(** Writing a value that is not a reference keeps the store in good
    order, and so does any allocation. *)
Lemma write_scalar_ok bound h o k v :
  (forall r, v <> JRef r) -> store_ok bound h o -> store_ok bound (write_prop h o k v) o.
Proof.
  intros Hv (props & Ho & Hrefs & Hinj).
  assert (Hlt : o < length h) by (eapply lookup_lt_Some; eauto).
  unfold write_prop. rewrite Ho.
  destruct (assigns props k); [|exists props; auto].
  exists (<[k := v]> props). split; [|split].
  - rewrite list_lookup_insert_eq; [done | assumption].
  - intros k0 r Hk. destruct (decide (k0 = k)) as [->|Hne].
    + rewrite lookup_insert_eq in Hk. injection Hk as ->. now destruct (Hv r).
    + rewrite lookup_insert_ne in Hk by congruence.
      destruct (Hrefs _ _ Hk) as (e & He & Hl). exists e. split; [|exact Hl].
      rewrite list_lookup_insert_ne by congruence. exact He.
  - intros k1 k2 r H1 H2.
    destruct (decide (k1 = k)) as [->|N1].
    { rewrite lookup_insert_eq in H1. injection H1 as ->. now destruct (Hv r). }
    destruct (decide (k2 = k)) as [->|N2].
    { rewrite lookup_insert_eq in H2. injection H2 as ->. now destruct (Hv r). }
    rewrite lookup_insert_ne in H1, H2 by congruence. eauto.
Qed.

Lemma alloc_ok bound h o c : store_ok bound h o -> store_ok bound (h ++ [c]) o.
Proof.
  intros (props & Ho & Hrefs & Hinj). exists props. split; [|split].
  - rewrite lookup_app_l; [exact Ho | eapply lookup_lt_Some; eauto].
  - intros k r Hk. destruct (Hrefs _ _ Hk) as (e & He & Hl). exists e. split; [|exact Hl].
    rewrite lookup_app_l; [exact He | eapply lookup_lt_Some; eauto].
  - exact Hinj.
Qed.

Lemma fresh_store_ok bound h : store_ok bound (h ++ [CObject ∅]) (length h).
Proof.
  exists ∅. split; [|split].
  - now rewrite list_lookup_middle.
  - intros k r Hk. now rewrite lookup_empty in Hk.
  - intros k1 k2 r Hk. now rewrite lookup_empty in Hk.
Qed.


(** ** Two stores side by side *)

Lemma stores_apart_sym h o1 o2 : stores_apart h o1 o2 -> stores_apart h o2 o1.
Proof. intros [Hne H]. split; [congruence | eauto]. Qed.

(** A push into one store leaves the other in good order and apart. *)
Lemma pushed_ok_other b b' h o o' name limit x :
  store_ok b h o -> store_ok b' h o' -> stores_apart h o o' ->
  store_ok b' (pushed h o name limit x) o' /\ stores_apart (pushed h o name limit x) o o'.
Proof.
  intros (props & Ho & Hrefs & Hinj) (props' & Ho' & Hrefs' & Hinj') [Hne Hapart].
  assert (Hp1 : obj_props h o = props) by (unfold obj_props; now rewrite Ho).
  assert (Hp2 : obj_props h o' = props') by (unfold obj_props; now rewrite Ho').
  rewrite Hp1, Hp2 in Hapart.
  assert (Hcell : pushed h o name limit x !! o' = Some (CObject props')).
  { eapply pushed_cell_other; eauto.
    intros Hread. apply (read_prop_ref _ _ _ _ _ Ho) in Hread.
    destruct (Hrefs _ _ Hread) as (e & He & _). congruence. }
  assert (Hp2' : obj_props (pushed h o name limit x) o' = props').
  { unfold obj_props. now rewrite Hcell. }
  split.
  - exists props'. split; [exact Hcell|]. split; [|exact Hinj'].
    intros k r Hk. destruct (Hrefs' _ _ Hk) as (e & He & Hl).
    exists e. split; [|exact Hl].
    eapply pushed_cell_other; eauto; [congruence|].
    intros Hread. apply (read_prop_ref _ _ _ _ _ Ho) in Hread. eauto.
  - split; [exact Hne|]. rewrite Hp2'.
    intros k1 k2 r H1 H2.
    destruct (pushed_props h o name limit x props Ho) as [E | [_ E]]; rewrite E in H1.
    + eauto.
    + destruct (decide (k1 = name)) as [->|N].
      * rewrite lookup_insert_eq in H1. injection H1 as <-.
        destruct (Hrefs' _ _ H2) as (e & He & _).
        apply lookup_lt_Some in He. lia.
      * rewrite lookup_insert_ne in H1 by congruence. eauto.
Qed.

Lemma write_prop_cell_other h o k v r :
  r <> o -> write_prop h o k v !! r = h !! r.
Proof.
  intros Hne. unfold write_prop.
  destruct (h !! o) as [[props|?]|]; try reflexivity.
  destruct (assigns props k); [|reflexivity].
  now rewrite list_lookup_insert_ne by congruence.
Qed.

Lemma write_scalar_ok_other b b' h o o' k v :
  (forall r, v <> JRef r) ->
  store_ok b h o -> store_ok b' h o' -> stores_apart h o o' ->
  store_ok b' (write_prop h o k v) o' /\ stores_apart (write_prop h o k v) o o'.
Proof.
  intros Hv (props & Ho & Hrefs & Hinj) (props' & Ho' & Hrefs' & Hinj') [Hne Hapart].
  assert (Hp1 : obj_props h o = props) by (unfold obj_props; now rewrite Ho).
  assert (Hp2 : obj_props h o' = props') by (unfold obj_props; now rewrite Ho').
  rewrite Hp1, Hp2 in Hapart.
  assert (Hcell : write_prop h o k v !! o' = Some (CObject props')).
  { rewrite write_prop_cell_other by congruence. exact Ho'. }
  split.
  - exists props'. split; [exact Hcell|]. split; [|exact Hinj'].
    intros k0 r Hk. destruct (Hrefs' _ _ Hk) as (e & He & Hl).
    exists e. split; [|exact Hl].
    rewrite write_prop_cell_other by congruence. exact He.
  - split; [exact Hne|].
    unfold obj_props at 2. rewrite Hcell.
    destruct (assigns props k) eqn:Ha;
      [|rewrite (write_prop_ignored _ _ _ _ _ Ho Ha), Hp1; exact Hapart].
    assert (Hnew : obj_props (write_prop h o k v) o = <[k := v]> props).
    { rewrite (write_prop_assigns _ _ _ _ _ Ho Ha). unfold obj_props.
      rewrite list_lookup_insert_eq; [done | eapply lookup_lt_Some; eauto]. }
    rewrite Hnew. intros k1 k2 r H1 H2.
    destruct (decide (k1 = k)) as [->|N].
    + rewrite lookup_insert_eq in H1. injection H1 as ->. now destruct (Hv r).
    + rewrite lookup_insert_ne in H1 by congruence. eauto.
Qed.

Lemma alloc_apart h o o' c :
  o < length h -> o' < length h -> stores_apart h o o' -> stores_apart (h ++ [c]) o o'.
Proof.
  intros H1 H2 [Hne Hapart]. split; [exact Hne|].
  unfold obj_props in *. now rewrite !lookup_app_l by assumption.
Qed.

Lemma store_ok_lt b h o : store_ok b h o -> o < length h.
Proof. intros (props & Ho & _). eapply lookup_lt_Some; eauto. Qed.

(** A store replaced by a new empty object. *)
Lemma fresh_apart_l h o' : o' < length h -> stores_apart (h ++ [CObject ∅]) (length h) o'.
Proof.
  intros Hlt. split; [lia|]. intros k1 k2 r H1. rewrite obj_props_fresh in H1.
  now rewrite lookup_empty in H1.
Qed.


(** ** Computations that keep a property *)

Section Keeps.
Context {A B : Type} (P : World -> Prop).

Lemma keeps_ret (a : A) : keeps P (ret a).
Proof. intros w H. exact H. Qed.

Lemma keeps_throw (e : JsError) : keeps P (@throw A e).
Proof. intros w H. exact H. Qed.

Lemma keeps_gets (f : World -> A) : keeps P (gets f).
Proof. intros w H. exact H. Qed.

Lemma keeps_bind (c : Eff A) (k : A -> Eff B) :
  keeps P c -> (forall a, keeps P (k a)) -> keeps P (bind c k).
Proof.
  intros Hc Hk w H. specialize (Hc w H). unfold exec, bind in *.
  destruct (c w) as [[a|e] w']; cbn in *; [now apply Hk | exact Hc].
Qed.

Lemma keeps_try_catch (body : Eff A) (handler : JsError -> Eff A) :
  keeps P body -> (forall e, keeps P (handler e)) -> keeps P (try_catch body handler).
Proof.
  intros Hb Hh w H. specialize (Hb w H). unfold exec, try_catch in *.
  destruct (body w) as [[a|e] w']; cbn in *; [exact Hb | now apply Hh].
Qed.
End Keeps.

Lemma keeps_when (P : World -> Prop) (b : bool) (c : Eff unit) :
  keeps P c -> keeps P (when b c).
Proof. intros H. destruct b; [exact H | apply keeps_ret]. Qed.

Lemma keeps_forEach {A} (P : World -> Prop) (l : list A) (f : A -> Eff unit) :
  (forall x, keeps P (f x)) -> keeps P (forEach l f).
Proof.
  intros H. induction l as [|x l IH]; cbn.
  - apply keeps_ret.
  - apply keeps_bind; [apply H | intros _; exact IH].
Qed.

(** ** The steps that keep both stores in good order *)

Lemma page_ok_ext w w' :
  heap w' = heap w -> PM.metrics (desktop w') = PM.metrics (desktop w) ->
  MPM.metrics (mobile w') = MPM.metrics (mobile w) -> page_ok w -> page_ok w'.
Proof. unfold page_ok. intros -> -> ->. auto. Qed.

Lemma keeps_modify_quiet (g : World -> World) :
  (forall w, heap (g w) = heap w) ->
  (forall w, PM.metrics (desktop (g w)) = PM.metrics (desktop w)) ->
  (forall w, MPM.metrics (mobile (g w)) = MPM.metrics (mobile w)) ->
  keeps page_ok (modify g).
Proof. intros H1 H2 H3 w H. eapply page_ok_ext; eauto. Qed.

Lemma keeps_fresh_handle : keeps page_ok fresh_handle.
Proof. intros w H. eapply page_ok_ext; eauto. Qed.

Lemma keeps_quiet {A} (c : Eff A) :
  preserves heap c -> preserves (fun w => PM.metrics (desktop w)) c ->
  preserves (fun w => MPM.metrics (mobile w)) c -> keeps page_ok c.
Proof. intros H1 H2 H3 w H. eapply page_ok_ext; eauto. Qed.

Lemma page_ok_alloc w c : page_ok w -> page_ok (set_heap (heap w ++ [c]) w).
Proof.
  intros (Hd & Hm & Ha). unfold page_ok. cbn.
  split; [now apply alloc_ok|]. split; [now apply alloc_ok|].
  apply alloc_apart; eauto using store_ok_lt.
Qed.

Lemma keeps_alloc c : keeps page_ok (alloc c).
Proof. intros w H. now apply page_ok_alloc. Qed.

Lemma keeps_set_metric k v :
  (forall r, v <> JRef r) -> keeps page_ok (PerformanceMonitor.set_metric k v).
Proof.
  intros Hv w (Hd & Hm & Ha). unfold page_ok. cbn.
  destruct (write_scalar_ok_other 100 50 _ _ _ k v Hv Hd Hm Ha) as [Hm' Ha'].
  split; [now apply write_scalar_ok|]. split; assumption.
Qed.

Lemma keeps_mobile_set_metric k v :
  (forall r, v <> JRef r) -> keeps page_ok (MobilePerformanceMonitor.set_metric k v).
Proof.
  intros Hv w (Hd & Hm & Ha). unfold page_ok. cbn.
  destruct (write_scalar_ok_other 50 100 _ _ _ k v Hv Hm Hd (stores_apart_sym _ _ _ Ha))
    as [Hd' Ha'].
  split; [assumption|]. split; [now apply write_scalar_ok | now apply stores_apart_sym].
Qed.

Lemma page_ok_pushed_desktop w name limit x :
  (0 < limit)%nat -> (limit <= 100)%nat -> page_ok w ->
  page_ok (set_heap (pushed (heap w) (PM.metrics (desktop w)) name limit x) w).
Proof.
  intros Hpos Hle (Hd & Hm & Ha). unfold page_ok. cbn.
  destruct (pushed_ok_other 100 50 _ _ _ name limit x Hd Hm Ha) as [Hm' Ha'].
  split; [now apply pushed_ok|]. split; assumption.
Qed.

Lemma page_ok_pushed_mobile w name limit x :
  (0 < limit)%nat -> (limit <= 50)%nat -> page_ok w ->
  page_ok (set_heap (pushed (heap w) (MPM.metrics (mobile w)) name limit x) w).
Proof.
  intros Hpos Hle (Hd & Hm & Ha). unfold page_ok. cbn.
  destruct (pushed_ok_other 50 100 _ _ _ name limit x Hm Hd (stores_apart_sym _ _ _ Ha))
    as [Hd' Ha'].
  split; [assumption|]. split; [now apply pushed_ok | now apply stores_apart_sym].
Qed.

(** The world [reportMetric] leaves: the heap of the push, the rest of the
    two collectors as it was. *)
Lemma reportMetric_heap name v w props :
  heap w !! PM.metrics (desktop w) = Some (CObject props) ->
  heap (exec (PerformanceMonitor.reportMetric name v) w)
  = pushed (heap w) (PM.metrics (desktop w)) name 100 (sample v (dateNow w)) /\
  desktop (exec (PerformanceMonitor.reportMetric name v) w) = desktop w /\
  mobile (exec (PerformanceMonitor.reportMetric name v) w) = mobile w.
Proof.
  intros Ho.
  pose proof (push_bounded_run (PM.metrics (desktop w)) name 100 (sample v (dateNow w)) w props
                ltac:(lia) Ho) as Hrun.
  set (w1 := set_heap _ w) in Hrun.
  assert (E : exec (PerformanceMonitor.reportMetric name v) w
              = exec (reportMetric_after_push name v) w1 \/
              exec (PerformanceMonitor.reportMetric name v) w
              = set_console (console w1 ++ [ConsoleWarn "Failed to report metric:"]) w1).
  { unfold exec. rewrite reportMetric_unfold.
    destruct (match as_array _ _ with Some _ => _ | None => _ end) as [[]|e] in Hrun.
    - left. now rewrite (try_catch_bind_normal _ _ _ _ _ _ Hrun).
    - right. unfold try_catch, bind. now rewrite Hrun. }
  destruct E as [-> | ->].
  - rewrite (reportMetric_after_push_preserves heap),
      (reportMetric_after_push_preserves desktop),
      (reportMetric_after_push_preserves mobile) by reflexivity.
    now subst w1.
  - now subst w1.
Qed.

Lemma keeps_reportMetric name v : keeps page_ok (PerformanceMonitor.reportMetric name v).
Proof.
  intros w Hok. pose proof Hok as ((props & Ho & _) & _).
  destruct (reportMetric_heap name v w props Ho) as (Hh & Hd & Hm).
  eapply page_ok_ext with
    (w := set_heap (pushed (heap w) (PM.metrics (desktop w)) name 100 (sample v (dateNow w))) w).
  - exact Hh.
  - now rewrite Hd.
  - now rewrite Hm.
  - apply page_ok_pushed_desktop; [lia | lia | exact Hok].
Qed.

Lemma logMetric_heap name v w props :
  heap w !! MPM.metrics (mobile w) = Some (CObject props) ->
  heap (exec (MobilePerformanceMonitor.logMetric name v) w)
  = pushed (heap w) (MPM.metrics (mobile w)) name 50
           (metric_record name v (dateNow w) (mobile w) (host w)) /\
  desktop (exec (MobilePerformanceMonitor.logMetric name v) w) = desktop w /\
  mobile (exec (MobilePerformanceMonitor.logMetric name v) w) = mobile w.
Proof.
  intros Ho.
  pose proof (push_bounded_run (MPM.metrics (mobile w)) name 50
                (metric_record name v (dateNow w) (mobile w) (host w)) w props
                ltac:(lia) Ho) as Hrun.
  set (w1 := set_heap _ w) in Hrun.
  assert (E : exec (MobilePerformanceMonitor.logMetric name v) w
              = exec (logMetric_after_push name v) w1 \/
              exec (MobilePerformanceMonitor.logMetric name v) w = w1).
  { unfold exec. rewrite logMetric_unfold.
    destruct (match as_array _ _ with Some _ => _ | None => _ end) as [[]|e] in Hrun.
    - left. now rewrite (bind_normal _ _ _ _ _ Hrun).
    - right. now rewrite (bind_throw _ _ _ _ _ Hrun). }
  destruct E as [-> | ->].
  - rewrite (logMetric_after_push_preserves heap),
      (logMetric_after_push_preserves desktop),
      (logMetric_after_push_preserves mobile) by reflexivity.
    now subst w1.
  - now subst w1.
Qed.

Lemma keeps_logMetric name v : keeps page_ok (MobilePerformanceMonitor.logMetric name v).
Proof.
  intros w Hok. pose proof Hok as (_ & (props & Ho & _) & _).
  destruct (logMetric_heap name v w props Ho) as (Hh & Hd & Hm).
  eapply page_ok_ext with
    (w := set_heap (pushed (heap w) (MPM.metrics (mobile w)) name 50
                           (metric_record name v (dateNow w) (mobile w) (host w))) w).
  - exact Hh.
  - now rewrite Hd.
  - now rewrite Hm.
  - apply page_ok_pushed_mobile; [lia | lia | exact Hok].
Qed.


Lemma keeps_resource_step entry :
  keeps page_ok
    (when (String.eqb (initiatorType entry) "img" || String.eqb (initiatorType entry) "video")
       (slot <- PerformanceMonitor.get_metric "resources" ;;
        when (negb (truthy slot))
             (a <- alloc (CArray []) ;; PerformanceMonitor.set_metric "resources" (JRef a)) ;;
        slot <- PerformanceMonitor.get_metric "resources" ;;
        full <- length_ge slot 50 ;;
        when full (array_shift slot) ;;
        slot <- PerformanceMonitor.get_metric "resources" ;;
        array_push slot
          (JRecord [("name", JStr (re_name entry));
                    ("type", JStr (initiatorType entry));
                    ("duration", JNum (duration entry));
                    ("size", js_or (transferSize entry) (JNum 0))]))).
Proof.
  intros w Hok. unfold exec. rewrite resource_entry_unfold.
  destruct (is_media entry); [|exact Hok]. cbn [when].
  pose proof Hok as ((props & Ho & _) & _).
  rewrite (push_bounded_run _ _ _ _ _ props) by (lia || assumption). cbn [snd].
  apply page_ok_pushed_desktop; [lia | lia | exact Hok].
Qed.

Lemma keeps_destroy : keeps page_ok PerformanceMonitor.destroy.
Proof.
  intros w (Hd & Hm & Ha). unfold exec. rewrite destroy_run. unfold page_ok. cbn.
  split; [apply fresh_store_ok|]. split; [now apply alloc_ok|].
  apply fresh_apart_l. eauto using store_ok_lt.
Qed.

Lemma keeps_mobile_destroy : keeps page_ok MobilePerformanceMonitor.destroy.
Proof.
  intros w (Hd & Hm & Ha). unfold exec. rewrite mobile_destroy_run. unfold page_ok. cbn.
  split; [now apply alloc_ok|]. split; [apply fresh_store_ok|].
  apply stores_apart_sym, fresh_apart_l. eauto using store_ok_lt.
Qed.

Lemma keeps_get_metric k : keeps page_ok (PerformanceMonitor.get_metric k).
Proof. intros w H. exact H. Qed.

Lemma keeps_mobile_get_metric k : keeps page_ok (MobilePerformanceMonitor.get_metric k).
Proof. intros w H. exact H. Qed.

Lemma keeps_bind_gets {A B} (P : World -> Prop) (f : World -> A) (k : A -> Eff B) :
  (forall w0, keeps P (k (f w0))) -> keeps P (bind (gets f) k).
Proof. intros H w Hw. apply (H w w Hw). Qed.

(** Goals of the form [keeps page_ok c], by the structure of [c]. *)
Ltac keeps_page :=
  repeat lazymatch goal with
  | |- forall _, _ => intro
  | |- keeps _ (match ?x with _ => _ end) => destruct x
  | |- keeps _ (PerformanceMonitor.reportMetric _ _) => apply keeps_reportMetric
  | |- keeps _ (MobilePerformanceMonitor.logMetric _ _) => apply keeps_logMetric
  | |- keeps _ PerformanceMonitor.destroy => apply keeps_destroy
  | |- keeps _ MobilePerformanceMonitor.destroy => apply keeps_mobile_destroy
  | |- keeps _ (PerformanceMonitor.set_metric _ _) =>
      apply keeps_set_metric; intros ?; discriminate
  | |- keeps _ (MobilePerformanceMonitor.set_metric _ _) =>
      apply keeps_mobile_set_metric; intros ?; discriminate
  | |- keeps _ (PerformanceMonitor.get_metric _) => apply keeps_get_metric
  | |- keeps _ (MobilePerformanceMonitor.get_metric _) => apply keeps_mobile_get_metric
  | |- keeps _ (ret _) => apply keeps_ret
  | |- keeps _ (throw _) => apply keeps_throw
  | |- keeps _ (gets _) => apply keeps_gets
  | |- keeps _ fresh_handle => apply keeps_fresh_handle
  | |- keeps _ (alloc _) => apply keeps_alloc
  | |- keeps _ (modify _) => apply keeps_modify_quiet; intros; reflexivity
  | |- keeps _ (bind (gets _) _) => apply keeps_bind_gets; intro; cbv beta
  | |- keeps _ (bind _ _) => apply keeps_bind
  | |- keeps _ (try_catch _ _) => apply keeps_try_catch
  | |- keeps _ (when _ _) => apply keeps_when
  | |- keeps _ (forEach _ _) => apply keeps_forEach
  end.

Lemma keeps_fid_step (x : float) :
  keeps page_ok (PerformanceMonitor.set_metric "fid" (JNum x) ;;
                 fid <- PerformanceMonitor.get_metric "fid" ;;
                 PerformanceMonitor.reportMetric "FID" fid).
Proof. keeps_page. Qed.

(** Every event keeps both stores in good order. *)
Lemma page_step_keeps e : keeps page_ok (page_step e).
Proof.
  destruct e; cbn [page_step].
  - keeps_page.
  - unfold PerformanceMonitor.measure, work_of, performance_now. keeps_page.

  - unfold PerformanceMonitor.lcpObserver_callback. keeps_page.
  - unfold PerformanceMonitor.fidObserver_callback. keeps_page.
  - unfold PerformanceMonitor.clsObserver_callback, cls_add. keeps_page.
  - unfold PerformanceMonitor.navigationObserver_callback. keeps_page.
  - unfold PerformanceMonitor.paintObserver_callback. keeps_page.
  - unfold PerformanceMonitor.resourceObserver_callback.
    apply keeps_forEach. intros entry. apply keeps_resource_step.
  - unfold PerformanceMonitor.memoryCheck. keeps_page.
  - unfold PerformanceMonitor.sendToAnalytics_settle, host_call, console_warn. keeps_page.
  - unfold PerformanceMonitor.init, PerformanceMonitor.setupWebVitals,
      PerformanceMonitor.setupPerformanceObserver, PerformanceMonitor.setupResourceTiming,
      PerformanceMonitor.setupUserTiming, PerformanceMonitor.setupMemoryMonitoring,
      PerformanceMonitor.push_observer, PerformanceMonitor.this,
      new_PerformanceObserver, observe, host_call, console_warn, console_log, is_development.
    keeps_page.
  - keeps_page.
  - unfold PerformanceMonitor.getMetrics. keeps_page.
  - unfold PerformanceMonitor.checkThresholds. keeps_page.
  - keeps_page.
  - unfold MobilePerformanceMonitor.lcpObserver_callback. keeps_page.
  - unfold MobilePerformanceMonitor.fidObserver_callback. keeps_page.
  - unfold MobilePerformanceMonitor.clsObserver_callback, cls_add. keeps_page.
  - unfold MobilePerformanceMonitor.handleNetworkChange, MobilePerformanceMonitor.network_record. keeps_page.
  - unfold MobilePerformanceMonitor.battery_ready, MobilePerformanceMonitor.push_cleanup,
      MobilePerformanceMonitor.this, host_call. keeps_page.
  - unfold MobilePerformanceMonitor.memoryCheck. keeps_page.
  - unfold MobilePerformanceMonitor.intersectionObserver_callback. keeps_page.
  - unfold MobilePerformanceMonitor.init, MobilePerformanceMonitor.setupPerformanceObserver,
      MobilePerformanceMonitor.setupNetworkObserver, MobilePerformanceMonitor.setupBatteryObserver,
      MobilePerformanceMonitor.setupMemoryObserver,
      MobilePerformanceMonitor.setupIntersectionObserver,
      MobilePerformanceMonitor.push_observer, MobilePerformanceMonitor.push_cleanup,
      MobilePerformanceMonitor.this, MobilePerformanceMonitor.network_record,
      new_PerformanceObserver, observe, host_call, console_warn.
    keeps_page.
  - keeps_page.
  - unfold MobilePerformanceMonitor.getPerformanceScore, MobilePerformanceMonitor.getLCPScore,
      MobilePerformanceMonitor.getFIDScore, MobilePerformanceMonitor.getCLSScore,
      MobilePerformanceMonitor.getRecommendations.
    keeps_page.
  - keeps_page.
Qed.


Lemma page_run_snoc events e w :
  page_run (events ++ [e]) w = exec (page_step e) (page_run events w).
Proof. unfold page_run. now rewrite fold_left_app. Qed.

Lemma page_run_keeps events w : page_ok w -> page_ok (page_run events w).
Proof.
  induction events as [|e events IH] using rev_ind; intros H; [exact H|].
  rewrite page_run_snoc. apply page_step_keeps. now apply IH.
Qed.

(** The page right after the two constructors ran their allocations, when
    the mobile constructor is about to call [init]. *)
Lemma load_page_init h :
  load_page h
  = exec MobilePerformanceMonitor.init
      {| heap := [CObject ∅; CObject ∅];
         desktop := PM.mk 0 [] false [] None None;
         mobile := MPM.mk 1 [] [] (MobilePerformanceMonitor.detectLowEndDevice h)
                          (MobilePerformanceMonitor.detectReducedMotion h) None None None;
         clsValue := ∅;
         host := h;
         dateNow := 0;
         perfNow := 0;
         console := [];
         trace := [];
         nextHandle := 1 |}.
Proof. reflexivity. Qed.

Lemma page_ok_load h : page_ok (load_page h).
Proof.
  rewrite load_page_init. apply (page_step_keeps EvMobileInit).
  unfold page_ok. cbn. split; [|split].
  - exists ∅. split; [reflexivity|]. split; intros *; rewrite lookup_empty; discriminate.
  - exists ∅. split; [reflexivity|]. split; intros *; rewrite lookup_empty; discriminate.
  - split; [lia|]. intros k1 k2 r H. unfold obj_props in H. cbn in H.
    now rewrite lookup_empty in H.
Qed.

Lemma page_ok_reachable h events : page_ok (page_run events (load_page h)).
Proof. apply page_run_keeps, page_ok_load. Qed.

Lemma store_ok_series bound h o name elems :
  store_ok bound h o -> series_at h o name = Some elems -> (length elems <= bound)%nat.
Proof.
  intros (props & Ho & Hrefs & _) Hs.
  destruct (series_at_inv _ _ _ _ Hs) as (props' & r & Ho' & Hn & Hr & _).
  assert (props' = props) by congruence. subst props'.
  destruct (Hrefs _ _ Hn) as (e & He & Hl). congruence.
Qed.

(** X1.  From the moment the page has loaded, and whatever calls and
    notifications have happened since, every series of the desktop store
    holds at most 100 samples and every series of the mobile store at most
    50, no array is stored under two names, and the two stores share
    nothing.  The events range over every method and callback of the two
    collectors, with handlers that throw included. *)
Theorem series_stay_within_bounds (h : Host) (events : list PageEvent) :
  let w := page_run events (load_page h) in
  (forall name elems,
      PerformanceMonitorView.series name w = Some elems -> (length elems <= 100)%nat) /\
  (forall name elems,
      MobilePerformanceMonitorView.series name w = Some elems -> (length elems <= 50)%nat) /\
  (forall n1 n2 r,
      PerformanceMonitorView.store w !! n1 = Some (JRef r) ->
      PerformanceMonitorView.store w !! n2 = Some (JRef r) -> n1 = n2) /\
  (forall n1 n2 r,
      MobilePerformanceMonitorView.store w !! n1 = Some (JRef r) ->
      MobilePerformanceMonitorView.store w !! n2 = Some (JRef r) -> n1 = n2) /\
  (forall n1 n2 r,
      PerformanceMonitorView.store w !! n1 = Some (JRef r) ->
      MobilePerformanceMonitorView.store w !! n2 <> Some (JRef r)).
Proof.
  intros w. destruct (page_ok_reachable h events) as (Hd & Hm & Ha). fold w in Hd, Hm, Ha.
  split; [|split; [|split; [|split]]].
  - intros name elems. apply store_ok_series. exact Hd.
  - intros name elems. apply store_ok_series. exact Hm.
  - destruct Hd as (props & Ho & _ & Hinj).
    unfold PerformanceMonitorView.store, obj_props. rewrite Ho. exact Hinj.
  - destruct Hm as (props & Ho & _ & Hinj).
    unfold MobilePerformanceMonitorView.store, obj_props. rewrite Ho. exact Hinj.
  - intros n1 n2 r H1 H2. destruct Ha as [_ Ha]. exact (Ha _ _ _ H1 H2).
Qed.


(** ** Recording under one name *)

Lemma as_array_same h h' v :
  (forall r elems, v = JRef r -> h !! r = Some (CArray elems) -> h' !! r = Some (CArray elems)) ->
  (forall r, v = JRef r -> is_Some (h !! r)) ->
  (forall r props, v = JRef r -> h !! r = Some (CObject props) ->
                   exists props', h' !! r = Some (CObject props')) ->
  as_array h' v = as_array h v.
Proof.
  intros Harr Hsome Hobj. destruct v; try reflexivity. unfold as_array.
  destruct (Hsome r eq_refl) as [[props|elems] Hr]; rewrite Hr.
  - destruct (Hobj r props eq_refl Hr) as [props' ->]. reflexivity.
  - now rewrite (Harr r elems eq_refl Hr).
Qed.

(** A push under [name] leaves the series under any other name of the
    same store as it was. *)
Lemma pushed_series_other bound h o name limit x other :
  store_ok bound h o -> other <> name ->
  series_at (pushed h o name limit x) o other = series_at h o other.
Proof.
  intros (props & Ho & Hrefs & Hinj) Hne. unfold series_at.
  rewrite (pushed_read_other _ _ _ _ _ props) by assumption.
  f_equal. apply as_array_same.
  - intros r elems Hv Hr. eapply pushed_cell_other; eauto; [congruence|].
    intros Hread. apply (read_prop_ref _ _ _ _ _ Ho) in Hv, Hread.
    apply Hne. eauto.
  - intros r Hv. apply (read_prop_ref _ _ _ _ _ Ho) in Hv.
    destruct (Hrefs _ _ Hv) as (e & -> & _). eauto.
  - intros r props' Hv Hr. apply (read_prop_ref _ _ _ _ _ Ho) in Hv.
    destruct (Hrefs _ _ Hv) as (e & He & _). congruence.
Qed.

(** A push into one store leaves a store apart from it as it was. *)
Lemma pushed_store_apart b b' h o o' name limit x :
  store_ok b h o -> store_ok b' h o' -> stores_apart h o o' ->
  obj_props (pushed h o name limit x) o' = obj_props h o' /\
  forall k, series_at (pushed h o name limit x) o' k = series_at h o' k.
Proof.
  intros (props & Ho & Hrefs & Hinj) (props' & Ho' & Hrefs' & Hinj') [Hne Hapart].
  assert (Hp1 : obj_props h o = props) by (unfold obj_props; now rewrite Ho).
  assert (Hp2 : obj_props h o' = props') by (unfold obj_props; now rewrite Ho').
  rewrite Hp1, Hp2 in Hapart.
  assert (Hcell : pushed h o name limit x !! o' = Some (CObject props')).
  { eapply pushed_cell_other; eauto.
    intros Hread. apply (read_prop_ref _ _ _ _ _ Ho) in Hread.
    destruct (Hrefs _ _ Hread) as (e & He & _). congruence. }
  assert (Hp2' : obj_props (pushed h o name limit x) o' = props').
  { unfold obj_props. now rewrite Hcell. }
  split; [congruence|].
  intros k. unfold series_at, read_prop. rewrite Hp2, Hp2'.
  f_equal. apply as_array_same.
  - intros r elems Hv Hr.
    assert (Hk : props' !! k = Some (JRef r)).
    { destruct (props' !! k); cbn in Hv; [now subst|].
      destruct (inherited k); discriminate. }
    eapply pushed_cell_other; eauto; [congruence|].
    intros Hread. apply (read_prop_ref _ _ _ _ _ Ho) in Hread. eauto.
  - intros r Hv.
    assert (Hk : props' !! k = Some (JRef r)).
    { destruct (props' !! k); cbn in Hv; [now subst|].
      destruct (inherited k); discriminate. }
    destruct (Hrefs' _ _ Hk) as (e & -> & _). eauto.
  - intros r p Hv Hr.
    assert (Hk : props' !! k = Some (JRef r)).
    { destruct (props' !! k); cbn in Hv; [now subst|].
      destruct (inherited k); discriminate. }
    destruct (Hrefs' _ _ Hk) as (e & He & _). congruence.
Qed.

Lemma pushed_lookup_other h o name limit x props other :
  h !! o = Some (CObject props) -> other <> name ->
  obj_props (pushed h o name limit x) o !! other = obj_props h o !! other.
Proof.
  intros Ho Hne.
  destruct (pushed_props h o name limit x props Ho) as [-> | [_ ->]].
  - unfold obj_props. now rewrite Ho.
  - rewrite lookup_insert_ne by congruence. unfold obj_props. now rewrite Ho.
Qed.

(** X2.  On a page that has loaded, after any events: recording a sample
    under one name, with [reportMetric] on the desktop collector or
    [logMetric] on the mobile one, leaves what is stored under every other
    name of that collector as it was, value and series alike, and leaves the
    whole store of the other collector as it was. *)
Theorem recording_leaves_other_names
    (h : Host) (events : list PageEvent) (name other : string) (v : JsValue) :
  other <> name ->
  let w := page_run events (load_page h) in
  let w1 := exec (PerformanceMonitor.reportMetric name v) w in
  let w2 := exec (MobilePerformanceMonitor.logMetric name v) w in
  (PerformanceMonitorView.store w1 !! other = PerformanceMonitorView.store w !! other /\
   PerformanceMonitorView.series other w1 = PerformanceMonitorView.series other w /\
   MobilePerformanceMonitorView.store w1 = MobilePerformanceMonitorView.store w /\
   forall k, MobilePerformanceMonitorView.series k w1 = MobilePerformanceMonitorView.series k w)
  /\
  (MobilePerformanceMonitorView.store w2 !! other = MobilePerformanceMonitorView.store w !! other /\
   MobilePerformanceMonitorView.series other w2 = MobilePerformanceMonitorView.series other w /\
   PerformanceMonitorView.store w2 = PerformanceMonitorView.store w /\
   forall k, PerformanceMonitorView.series k w2 = PerformanceMonitorView.series k w).
Proof.
  intros Hne w w1 w2.
  destruct (page_ok_reachable h events) as (Hd & Hm & Ha). fold w in Hd, Hm, Ha.
  pose proof Hd as (pd & Hod & _). pose proof Hm as (pm & Hom & _).
  destruct (reportMetric_heap name v w pd Hod) as (Hh1 & Hd1 & Hm1).
  destruct (logMetric_heap name v w pm Hom) as (Hh2 & Hd2 & Hm2).
  fold w1 in Hh1, Hd1, Hm1. fold w2 in Hh2, Hd2, Hm2.
  unfold PerformanceMonitorView.store, PerformanceMonitorView.series,
    MobilePerformanceMonitorView.store, MobilePerformanceMonitorView.series.
  rewrite Hh1, Hd1, Hm1, Hh2, Hd2, Hm2.
  split.
  - destruct (pushed_store_apart 100 50 _ _ _ name 100 (sample v (dateNow w)) Hd Hm Ha)
      as [Hp Hs].
    split; [now apply (pushed_lookup_other _ _ _ _ _ pd)|].
    split; [now apply (pushed_series_other 100)|].
    split; assumption.
  - destruct (pushed_store_apart 50 100 _ _ _ name 50
                (metric_record name v (dateNow w) (mobile w) (host w)) Hm Hd
                (stores_apart_sym _ _ _ Ha)) as [Hp Hs].
    split; [now apply (pushed_lookup_other _ _ _ _ _ pm)|].
    split; [now apply (pushed_series_other 50)|].
    split; assumption.
Qed.


(** X2, witness: a first-input sample recorded after three LCP samples. *)
Lemma recording_leaves_other_names_witness :
  "LCP" <> "FID" /\
  let w := page_run [EvReportMetric "LCP" (JNum 1); EvReportMetric "LCP" (JNum 2);
                     EvReportMetric "LCP" (JNum 3)] (load_page modern_browser) in
  PerformanceMonitorView.series "LCP" (exec (PerformanceMonitor.reportMetric "FID" (JNum 16)) w)
  = PerformanceMonitorView.series "LCP" w.
Proof.
  split; [discriminate|].
  exact (proj1 (proj2 (proj1
    (recording_leaves_other_names modern_browser
       [EvReportMetric "LCP" (JNum 1); EvReportMetric "LCP" (JNum 2);
        EvReportMetric "LCP" (JNum 3)] "FID" "LCP" (JNum 16) ltac:(discriminate))))).
Defined.


(** ** Web-vital notifications *)

Lemma write_prop_object h o props k v :
  h !! o = Some (CObject props) -> k <> "__proto__" ->
  write_prop h o k v = <[o := CObject (<[k := v]> props)]> h.
Proof. intros Ho Hk. apply write_prop_assigns; [exact Ho | now apply assigns_other]. Qed.

Lemma obj_props_write h o props k v :
  h !! o = Some (CObject props) -> k <> "__proto__" ->
  obj_props (write_prop h o k v) o = <[k := v]> props.
Proof.
  intros Ho Hk. rewrite (write_prop_object _ _ props) by assumption.
  unfold obj_props. rewrite list_lookup_insert_eq; [done | eapply lookup_lt_Some; eauto].
Qed.

Lemma read_prop_write_eq h o props k v :
  h !! o = Some (CObject props) -> k <> "__proto__" ->
  read_prop (write_prop h o k v) o k = v.
Proof.
  intros Ho Hk. unfold read_prop. rewrite (obj_props_write _ _ props) by assumption.
  now rewrite lookup_insert_eq.
Qed.

(** An assignment, whether it reaches the property table or is ignored,
    leaves every other name as it reads. *)
Lemma read_prop_write_ne h o props k v name :
  h !! o = Some (CObject props) -> k <> name ->
  read_prop (write_prop h o k v) o name = read_prop h o name.
Proof.
  intros Ho Hne. destruct (assigns props k) eqn:Ha.
  - rewrite (write_prop_assigns _ _ _ _ _ Ho Ha). unfold read_prop, obj_props.
    rewrite list_lookup_insert_eq by (eapply lookup_lt_Some; eauto).
    rewrite lookup_insert_ne by congruence. now rewrite Ho.
  - now rewrite (write_prop_ignored _ _ _ _ _ Ho Ha).
Qed.





(** [reportMetric] on a ready slot, with what it leaves under the other
    names. *)
Lemma reportMetric_ready_frame name v w :
  slot_ready (heap w) (PM.metrics (desktop w)) name ->
  let w' := exec (PerformanceMonitor.reportMetric name v) w in
  completion (PerformanceMonitor.reportMetric name v) w = Normal tt /\
  desktop w' = desktop w /\
  PerformanceMonitorView.series name w'
  = Some (evict 100 (default [] (PerformanceMonitorView.series name w))
          ++ [sample v (dateNow w)]) /\
  slot_ready (heap w') (PM.metrics (desktop w')) name /\
  forall other, other <> name ->
    PerformanceMonitorView.store w' !! other = PerformanceMonitorView.store w !! other.
Proof.
  intros Hready w'.
  destruct (reportMetric_ready name v w Hready) as (w2 & Hrun & Hd & _ & _ & _ & Hs & Hr).
  assert (Hw : w' = w2) by (unfold w', exec; now rewrite Hrun). rewrite Hw.
  split; [unfold completion; now rewrite Hrun|].
  split; [exact Hd|]. split; [exact Hs|]. split; [exact Hr|].
  intros other Hne. destruct Hready as [[props Ho] _].
  destruct (reportMetric_heap name v w props Ho) as (Hh & Hd' & _).
  fold w' in Hh, Hd'. rewrite Hw in Hh, Hd'.
  unfold PerformanceMonitorView.store. rewrite Hh, Hd'.
  now apply (pushed_lookup_other _ _ _ _ _ props).
Qed.

Lemma logMetric_ready_frame name v w :
  slot_ready (heap w) (MPM.metrics (mobile w)) name ->
  let w' := exec (MobilePerformanceMonitor.logMetric name v) w in
  completion (MobilePerformanceMonitor.logMetric name v) w = Normal tt /\
  mobile w' = mobile w /\ host w' = host w /\
  MobilePerformanceMonitorView.series name w'
  = Some (evict 50 (default [] (MobilePerformanceMonitorView.series name w))
          ++ [metric_record name v (dateNow w) (mobile w) (host w)]) /\
  slot_ready (heap w') (MPM.metrics (mobile w')) name /\
  forall other, other <> name ->
    MobilePerformanceMonitorView.store w' !! other
    = MobilePerformanceMonitorView.store w !! other.
Proof.
  intros Hready w'.
  destruct (logMetric_ready name v w Hready) as (w2 & Hrun & _ & Hm & Hh & _ & Hs & Hr).
  assert (Hw : w' = w2) by (unfold w', exec; now rewrite Hrun). rewrite Hw.
  split; [unfold completion; now rewrite Hrun|].
  split; [exact Hm|]. split; [exact Hh|]. split; [exact Hs|]. split; [exact Hr|].
  intros other Hne. destruct Hready as [[props Ho] _].
  destruct (logMetric_heap name v w props Ho) as (Hh' & _ & Hm').
  fold w' in Hh', Hm'. rewrite Hw in Hh', Hm'.
  unfold MobilePerformanceMonitorView.store. rewrite Hh', Hm'.
  now apply (pushed_lookup_other _ _ _ _ _ props).
Qed.


Lemma set_metric_run k v w :
  PerformanceMonitor.set_metric k v w
  = (Normal tt, set_heap (write_prop (heap w) (PM.metrics (desktop w)) k v) w).
Proof. reflexivity. Qed.















(** ** An analytics tag that throws *)

(** Outside development [checkPerformanceWarnings] only answers its list. *)
Lemma checkPerformanceWarnings_quiet name v w :
  String.eqb (nodeEnv (host w)) "development" = false ->
  exists l, MobilePerformanceMonitor.checkPerformanceWarnings name v w = (Normal l, w).
Proof.
  intros Hdev. unfold MobilePerformanceMonitor.checkPerformanceWarnings, is_development.
  cbv zeta. set (warnings := (_ ++ _ ++ _ ++ _)%list).
  exists warnings. unfold bind at 1. cbn [gets]. rewrite Hdev.
  generalize warnings. intros l. unfold bind.
  assert (H' : forall w0, forEach l (fun message : string =>
                 when false (console_warn ("Performance Warning - " ++ message)%string)) w0
               = (Normal tt, w0)).
  { induction l as [|m l IH]; intros w0; [reflexivity|]. cbn. apply IH. }
  now rewrite H'.
Qed.

(** X5.  When [window.gtag] throws, the sample is in the store all the
    same.  On the desktop collector [reportMetric] catches the exception,
    writes one warning and stops there: the delivery to the analytics
    endpoint is not started (no timer, no fetch) and nothing is logged.  On
    the mobile collector in production [logMetric] completes normally too,
    with the one warning of its [sendToAnalytics].  Each collector needs only
    its own slot to be ready. *)
Theorem failing_gtag_keeps_the_sample
    (w : World) (name : string) (v : JsValue) (e : JsError) :
  gtag (host w) = Some (Some e) ->
  let w1 := exec (PerformanceMonitor.reportMetric name v) w in
  let w2 := exec (MobilePerformanceMonitor.logMetric name v) w in
  (slot_ready (heap w) (PM.metrics (desktop w)) name ->
   completion (PerformanceMonitor.reportMetric name v) w = Normal tt /\
   PerformanceMonitorView.series name w1
   = Some (evict 100 (default [] (PerformanceMonitorView.series name w))
           ++ [sample v (dateNow w)]) /\
   trace w1 = trace w ++ [HGtag name v] /\
   console w1 = console w ++ [ConsoleWarn "Failed to report metric:"] /\
   nextHandle w1 = nextHandle w) /\
  (slot_ready (heap w) (MPM.metrics (mobile w)) name ->
   nodeEnv (host w) = "production" ->
   completion (MobilePerformanceMonitor.logMetric name v) w = Normal tt /\
   MobilePerformanceMonitorView.series name w2
   = Some (evict 50 (default [] (MobilePerformanceMonitorView.series name w))
           ++ [metric_record name v (dateNow w) (mobile w) (host w)]) /\
   trace w2 = trace w ++ [HGtag name v] /\
   console w2 = console w ++ [ConsoleWarn "Failed to send metric to analytics:"]).
Proof.
  intros Hgtag w1 w2. split.
  - intros Hd. destruct (reportMetric_ready_frame name v w Hd) as (Hc & _ & Hs & _).
    split; [exact Hc|]. split; [exact Hs|].
    destruct (push_bounded_ready _ name 100 (sample v (dateNow w)) w ltac:(lia) Hd)
      as (h' & Hrun & _).
    assert (E : PerformanceMonitor.reportMetric name v w
                = (Normal tt,
                   set_console (console w ++ [ConsoleWarn "Failed to report metric:"])
                     (set_trace (trace w ++ [HGtag name v]) (set_heap h' w)))).
    { rewrite reportMetric_unfold, (try_catch_bind_normal _ _ _ _ _ _ Hrun).
      unfold try_catch, call_gtag, bind, gets, host_call, modify, throw, console_warn.
      cbn. rewrite Hgtag. reflexivity. }
    unfold w1, exec. rewrite E. repeat split.
  - intros Hm Hprod. destruct (logMetric_ready_frame name v w Hm) as (Hc & _ & _ & Hs & _).
    split; [exact Hc|]. split; [exact Hs|].
    destruct (push_bounded_ready _ name 50
                (metric_record name v (dateNow w) (mobile w) (host w)) w ltac:(lia) Hm)
      as (h' & Hrun & _).
    assert (E : MobilePerformanceMonitor.logMetric name v w
                = (Normal tt,
                   set_console (console w ++ [ConsoleWarn "Failed to send metric to analytics:"])
                     (set_trace (trace w ++ [HGtag name v]) (set_heap h' w)))).
    { rewrite logMetric_unfold, (bind_normal _ _ _ _ _ Hrun).
      unfold logMetric_after_push, MobilePerformanceMonitor.sendToAnalytics,
        is_development, is_production.
      assert (Hsend : try_catch (call_gtag name v)
                        (fun _ => console_warn "Failed to send metric to analytics:")
                        (set_heap h' w)
                      = (Normal tt,
                         set_console
                           (console w ++ [ConsoleWarn "Failed to send metric to analytics:"])
                           (set_trace (trace w ++ [HGtag name v]) (set_heap h' w)))).
      { unfold try_catch, call_gtag, bind, gets, host_call, modify, throw, console_warn.
        cbn. rewrite Hgtag. reflexivity. }
      destruct (checkPerformanceWarnings_quiet name v
                  (set_console
                     (console w ++ [ConsoleWarn "Failed to send metric to analytics:"])
                     (set_trace (trace w ++ [HGtag name v]) (set_heap h' w))))
        as [l Hl]; [cbn; now rewrite Hprod|].
      unfold bind, gets, when. cbn [host set_heap]. rewrite Hprod.
      cbn [String.eqb Ascii.eqb Bool.eqb ret host set_heap]. rewrite Hprod.
      cbn [String.eqb Ascii.eqb Bool.eqb].
      rewrite Hsend, Hl. reflexivity. }
    unfold w2, exec. rewrite E. repeat split.
Qed.

(** X5, witness: an LCP sample on a production page whose tag throws. *)
Lemma failing_gtag_keeps_the_sample_witness :
  map value_of <$>
    PerformanceMonitorView.series "LCP"
      (exec (PerformanceMonitor.reportMetric "LCP" (JNum 1800)) page_with_failing_gtag)
  = Some [JNum 1800] /\
  console (exec (PerformanceMonitor.reportMetric "LCP" (JNum 1800)) page_with_failing_gtag)
  = console page_with_failing_gtag ++ [ConsoleWarn "Failed to report metric:"].
Proof.
  destruct (failing_gtag_keeps_the_sample page_with_failing_gtag "LCP" (JNum 1800)
              (OtherError "SecurityError"))
    as (Hdesktop & _).
  - vm_compute. reflexivity.
  - destruct Hdesktop as (_ & Hs & _ & Hc & _).
    + split; [eexists; vm_compute; reflexivity | left; vm_compute; reflexivity].
    + split; [|exact Hc]. rewrite Hs. vm_compute. reflexivity.
Defined.


(** ** Custom timings, the other cases *)

(** [measure] as one step after [fn]. *)
Lemma measure_run {R : Type} (name : string) (fn : Eff R) (w : World) :
  PerformanceMonitor.measure name fn w
  = match fn w with
    | (Normal r, w1) =>
        (Normal r,
         exec (PerformanceMonitor.set_metric name (JNum (perfNow w1 - perfNow w)%float) ;;
               PerformanceMonitor.reportMetric name (JNum (perfNow w1 - perfNow w)%float)) w1)
    | (Throw e, w1) => (Throw e, w1)
    end.
Proof.
  unfold PerformanceMonitor.measure, performance_now.
  unfold bind at 1. cbn [gets]. unfold bind at 1.
  destruct (fn w) as [[r|e] w1]; [|reflexivity].
  unfold bind at 1. cbn [gets]. cbv zeta.
  unfold exec. unfold bind at 1 3. rewrite !set_metric_run.
  unfold bind at 1.
  destruct (never_throws_run _ (reportMetric_never_throws name
              (JNum (perfNow w1 - perfNow w)%float))
              (set_heap (write_prop (heap w1) (PM.metrics (desktop w1)) name
                           (JNum (perfNow w1 - perfNow w)%float)) w1)) as ([] & w2 & ->).
  reflexivity.
Qed.

(** X6.  [measure] and [measureAsync] end as [fn] ends: they return what
    [fn] returns and throw what [fn] throws, whatever the store holds.  When
    [fn] throws, nothing is recorded: the world is the one [fn] left.  When
    [fn] returns, the world is the one left by writing the duration under
    [name] and reporting it, after [fn]. *)
Theorem measure_ends_as_fn_ends {R : Type} (name : string) (fn : Eff R) (w : World) :
  let d := JNum (perfNow (exec fn w) - perfNow w)%float in
  let record := (PerformanceMonitor.set_metric name d ;;
                 PerformanceMonitor.reportMetric name d) in
  completion (PerformanceMonitor.measure name fn) w = completion fn w /\
  completion (PerformanceMonitor.measureAsync name fn) w = completion fn w /\
  exec (PerformanceMonitor.measure name fn) w
  = match completion fn w with
    | Normal _ => exec record (exec fn w)
    | Throw _ => exec fn w
    end /\
  exec (PerformanceMonitor.measureAsync name fn) w = exec (PerformanceMonitor.measure name fn) w.
Proof.
  intros d record. subst d record.
  change (PerformanceMonitor.measureAsync name fn) with (PerformanceMonitor.measure name fn).
  unfold completion, exec. rewrite measure_run. unfold exec.
  destruct (fn w) as [[r|e] w1]; cbn [fst snd]; repeat split.
Qed.

(** X7.  A measured duration that is falsy (zero, as when the clock did not
    advance, or NaN) does not stay in the store as a number: [reportMetric]
    takes the slot for empty and puts a new series there whose only sample
    is that duration.  A series kept under [name] before is dropped with all
    its samples.  This is so for every name but [__proto__], where the
    assignment of the duration is ignored. *)
Theorem measure_falsy_duration_starts_a_series
    {R : Type} (name : string) (fn : Eff R) (w w1 : World) (r : R)
    (props : gmap string JsValue) :
  fn w = (Normal r, w1) ->
  heap w1 !! PM.metrics (desktop w1) = Some (CObject props) ->
  truthy (JNum (perfNow w1 - perfNow w)%float) = false ->
  name <> "__proto__" ->
  let d := JNum (perfNow w1 - perfNow w)%float in
  let w2 := exec (PerformanceMonitor.measure name fn) w in
  completion (PerformanceMonitor.measure name fn) w = Normal r /\
  PerformanceMonitorView.store w2 !! name = Some (JRef (length (heap w1))) /\
  PerformanceMonitorView.series name w2 = Some [sample d (dateNow w1)].
Proof.
  intros Hfn Ho Hfalsy Hname d w2.
  pose proof (measure_run name fn w) as Hrun. rewrite Hfn in Hrun. fold d in Hrun.
  unfold w2, completion, exec at 1 2. rewrite Hrun. cbn [fst snd].
  split; [reflexivity|].
  set (w1' := set_heap (write_prop (heap w1) (PM.metrics (desktop w1)) name d) w1).
  change (exec (PerformanceMonitor.set_metric name d ;; PerformanceMonitor.reportMetric name d) w1)
    with (exec (PerformanceMonitor.reportMetric name d) w1').
  assert (Hread : read_prop (heap w1') (PM.metrics (desktop w1')) name = d).
  { cbn. now apply (read_prop_write_eq _ _ props). }
  assert (Ho' : heap w1' !! PM.metrics (desktop w1')
                = Some (CObject (<[name := d]> props))).
  { cbn. rewrite (write_prop_object _ _ props) by (assumption || discriminate).
    rewrite list_lookup_insert_eq; [done | eapply lookup_lt_Some; eauto]. }
  assert (Hnone : series_at (heap w1') (PM.metrics (desktop w1')) name = None).
  { unfold series_at. rewrite Hread. reflexivity. }
  assert (Hready : slot_ready (heap w1') (PM.metrics (desktop w1')) name).
  { split; [eauto|]. left. now rewrite Hread. }
  destruct (reportMetric_heap name d w1' _ Ho') as (Hh & Hd & _).
  assert (Hpos : (0 < 100)%nat) by lia.
  assert (Hs := pushed_series (heap w1') (PM.metrics (desktop w1')) name 100
                  (sample d (dateNow w1')) _ Hpos Ho' (proj2 Hready)).
  rewrite Hnone in Hs. cbn [default] in Hs. rewrite evict_nil in Hs by lia.
  unfold PerformanceMonitorView.store, PerformanceMonitorView.series.
  rewrite Hh, Hd. split; [|exact Hs].
  destruct (pushed_props (heap w1') (PM.metrics (desktop w1')) name 100
              (sample d (dateNow w1')) _ Ho') as [E | [_ E]].
  - exfalso. unfold series_at, read_prop in Hs. rewrite E, lookup_insert_eq in Hs.
    cbn in Hs. unfold as_array in Hs. discriminate.
  - rewrite E, lookup_insert_eq. f_equal. f_equal.
    cbn. rewrite (write_prop_object _ _ props) by (assumption || discriminate). now rewrite length_insert.
Qed.

(** X7, witness: timing work that takes no time on the clock, under a name
    that already holds a series. *)
Lemma measure_falsy_duration_starts_a_series_witness :
  map value_of <$> PerformanceMonitorView.series "render" page_with_render_series
  = Some [JNum 5] /\
  map value_of <$>
    PerformanceMonitorView.series "render"
      (exec (PerformanceMonitor.measure "render" (ret "done")) page_with_render_series)
  = Some [JNum 0].
Proof.
  destruct (measure_falsy_duration_starts_a_series "render" (ret "done")
              page_with_render_series page_with_render_series "done"
              (PerformanceMonitorView.store page_with_render_series))
    as (_ & _ & Hs).
  - reflexivity.
  - vm_compute. reflexivity.
  - vm_compute. reflexivity.
  - discriminate.
  - split; [vm_compute; reflexivity|]. rewrite Hs. vm_compute. reflexivity.
Defined.


(** ** Start and stop *)

Ltac subscribing_case :=
  cbn;
  repeat match goal with H : trace _ = _ |- _ => rewrite H; clear H end;
  rewrite ?map_app, ?app_nil_r; cbn; rewrite <- ?app_assoc; cbn [app];
  repeat split; congruence.

Lemma subscribe_step base types ty msg w :
  subscribing base types w ->
  exists w',
    try_catch
      (o <- new_PerformanceObserver ty ;; observe o ;; PerformanceMonitor.push_observer o)
      (fun _ => console_warn msg) w = (Normal tt, w') /\
    subscribing base (types ++ if observeThrows (host base) ty then [] else [ty]) w'.
Proof.
  intros (Ht & Hty & Hc & Hi & Hf & Hini & Hm & Hh & Hho).
  unfold try_catch, bind, new_PerformanceObserver, observe, PerformanceMonitor.push_observer,
    PerformanceMonitor.this, fresh_handle, host_call, console_warn, gets, modify, throw, ret.
  cbn. rewrite Hho.
  destruct (observeThrows (host base) ty); eexists; (split; [reflexivity|]);
    unfold subscribing; subscribing_case.
Qed.

Lemma subscribe_cls_step base types msg w :
  subscribing base types w ->
  exists w',
    try_catch
      (clsObserver <- new_PerformanceObserver "layout-shift" ;;
       modify (fun w => set_clsValue (<[obs_id clsObserver := 0%float]> (clsValue w)) w) ;;
       observe clsObserver ;;
       PerformanceMonitor.push_observer clsObserver)
      (fun _ => console_warn msg) w = (Normal tt, w') /\
    subscribing base
      (types ++ if observeThrows (host base) "layout-shift" then [] else ["layout-shift"]) w'.
Proof.
  intros (Ht & Hty & Hc & Hi & Hf & Hini & Hm & Hh & Hho).
  unfold try_catch, bind, new_PerformanceObserver, observe, PerformanceMonitor.push_observer,
    PerformanceMonitor.this, fresh_handle, host_call, console_warn, gets, modify, throw, ret.
  cbn. rewrite Hho.
  destruct (observeThrows (host base) "layout-shift"); eexists; (split; [reflexivity|]);
    unfold subscribing; subscribing_case.
Qed.

Lemma subscribe_navigation_paint_step base types msg w :
  subscribing base types w ->
  exists w',
    try_catch
      (navigationObserver <- new_PerformanceObserver "navigation" ;;
       observe navigationObserver ;;
       PerformanceMonitor.push_observer navigationObserver ;;
       paintObserver <- new_PerformanceObserver "paint" ;;
       observe paintObserver ;;
       PerformanceMonitor.push_observer paintObserver)
      (fun _ => console_warn msg) w = (Normal tt, w') /\
    subscribing base
      (types ++ if observeThrows (host base) "navigation" then []
                else "navigation" :: (if observeThrows (host base) "paint" then []
                                      else ["paint"])) w'.
Proof.
  intros (Ht & Hty & Hc & Hi & Hf & Hini & Hm & Hh & Hho).
  unfold try_catch, bind, new_PerformanceObserver, observe, PerformanceMonitor.push_observer,
    PerformanceMonitor.this, fresh_handle, host_call, console_warn, gets, modify, throw, ret.
  cbn. rewrite Hho.
  destruct (observeThrows (host base) "navigation"); cbn; rewrite ?Hho;
    [|destruct (observeThrows (host base) "paint")]; eexists; (split; [reflexivity|]);
    unfold subscribing; subscribing_case.
Qed.

(** The three observer set-ups of [init], one after the other. *)
Lemma observers_set_up base :
  PM.observers (desktop base) = [] -> PM.cleanupFunctions (desktop base) = [] ->
  PM.memoryCheckInterval (desktop base) = None -> PM.frameRateMonitor (desktop base) = None ->
  PM.isInitialized (desktop base) = false ->
  exists w',
    (PerformanceMonitor.setupWebVitals ;;
     PerformanceMonitor.setupPerformanceObserver ;;
     PerformanceMonitor.setupResourceTiming) base = (Normal tt, w') /\
    subscribing base (subscribed (host base)) w'.
Proof.
  intros Ho Hc Hi Hf Hini.
  assert (H0 : subscribing base [] base).
  { unfold subscribing. rewrite Ho. cbn. rewrite app_nil_r. repeat split; assumption. }
  unfold PerformanceMonitor.setupWebVitals, PerformanceMonitor.setupPerformanceObserver,
    PerformanceMonitor.setupResourceTiming, subscribed.
  unfold bind at 1. unfold bind at 1. cbn [gets].
  destruct (hasPerformanceObserver (host base)) eqn:Hpo.
  - cbn [when].
    destruct (subscribe_step base _ "largest-contentful-paint" "LCP monitoring failed:" _ H0)
      as (w1 & R1 & H1).
    destruct (subscribe_step base _ "first-input" "FID monitoring failed:" _ H1)
      as (w2 & R2 & H2).
    destruct (subscribe_cls_step base _ "CLS monitoring failed:" _ H2) as (w3 & R3 & H3).
    destruct (subscribe_navigation_paint_step base _ "Performance observer setup failed:" _ H3)
      as (w4 & R4 & H4).
    destruct (subscribe_step base _ "resource" "Resource timing monitoring failed:" _ H4)
      as (w5 & R5 & H5).
    assert (Hpo' : forall w types, subscribing base types w ->
                     hasPerformanceObserver (host w) = true).
    { intros w types Hs. destruct Hs as (_ & _ & _ & _ & _ & _ & _ & _ & ->). exact Hpo. }
    exists w5. split.
    + unfold bind at 1. rewrite R1. unfold bind at 1. rewrite R2. rewrite R3.
      unfold bind at 1. unfold bind at 1. cbn [gets]. rewrite (Hpo' _ _ H3). cbn [when].
      rewrite R4. unfold bind at 1. cbn [gets]. rewrite (Hpo' _ _ H4). cbn [when].
      exact R5.
    + replace (List.filter (fun ty => negb (observeThrows (host base) ty))
                 ["largest-contentful-paint"; "first-input"; "layout-shift"])
        with ((([] ++ (if observeThrows (host base) "largest-contentful-paint" then []
                      else ["largest-contentful-paint"]))
              ++ (if observeThrows (host base) "first-input" then [] else ["first-input"]))
             ++ (if observeThrows (host base) "layout-shift" then [] else ["layout-shift"]))
        by (cbn; destruct (observeThrows (host base) "largest-contentful-paint"),
              (observeThrows (host base) "first-input"),
              (observeThrows (host base) "layout-shift"); reflexivity).
      replace (List.filter (fun ty => negb (observeThrows (host base) ty)) ["resource"])
        with (if observeThrows (host base) "resource" then [] else ["resource"])
        by (cbn; destruct (observeThrows (host base) "resource"); reflexivity).
      rewrite app_assoc. exact H5.
  - cbn [when ret]. exists base. split; [|exact H0].
    unfold bind, gets, when, ret. cbn. rewrite Hpo. cbn. rewrite Hpo. reflexivity.
Qed.


Lemma bind_seq3 {X} (a b c : Eff unit) (k : Eff X) w w' :
  (a ;; b ;; c) w = (Normal tt, w') -> (a ;; b ;; c ;; k) w = k w'.
Proof.
  unfold bind. destruct (a w) as [[[]|e] w1]; [|discriminate].
  destruct (b w1) as [[[]|e] w2]; [|discriminate].
  destruct (c w2) as [[[]|e] w3]; [|discriminate].
  now intros [= ->].
Qed.

(** [init] on a collector as its constructor left it. *)
Lemma init_fresh_run w :
  PM.observers (desktop w) = [] -> PM.cleanupFunctions (desktop w) = [] ->
  PM.memoryCheckInterval (desktop w) = None -> PM.frameRateMonitor (desktop w) = None ->
  PM.isInitialized (desktop w) = false ->
  let w1 := exec PerformanceMonitor.init w in
  completion PerformanceMonitor.init w = Normal tt /\
  trace w1 = trace w ++ acquire_calls (desktop w1) /\
  map obs_entryType (PM.observers (desktop w1)) = subscribed (host w) /\
  PM.cleanupFunctions (desktop w1)
  = (if hasReactReconciler (host w) then [RestoreReactPerformWork] else []) /\
  match PM.memoryCheckInterval (desktop w1) with
  | Some _ => hasMemory (host w) = true
  | None => hasMemory (host w) = false
  end /\
  PM.frameRateMonitor (desktop w1) = None /\
  PM.isInitialized (desktop w1) = true /\
  PM.metrics (desktop w1) = PM.metrics (desktop w) /\
  heap w1 = heap w.
Proof.
  intros Ho Hc Hi Hf Hini w1.
  destruct (observers_set_up w Ho Hc Hi Hf Hini) as (w3 & Hrun & Hsub).
  destruct Hsub as (Ht & Hty & Hc3 & Hi3 & Hf3 & Hini3 & Hm3 & Hh3 & Hho3).
  assert (E : PerformanceMonitor.init w
              = try_catch
                  (PerformanceMonitor.setupUserTiming ;;
                   PerformanceMonitor.setupMemoryMonitoring ;;
                   PerformanceMonitor.this (PM.set_isInitialized true) ;;
                   dev <- is_development ;;
                   when dev (console_log "Performance monitoring initialized"))
                  (fun _ => console_warn "Performance monitoring initialization failed:") w3).
  { unfold PerformanceMonitor.init. unfold bind at 1. cbn [gets]. rewrite Hini.
    unfold try_catch. now rewrite (bind_seq3 _ _ _ _ _ _ Hrun). }
  unfold w1, completion, exec. rewrite E. clear E w1.
  unfold acquire_calls, try_catch, PerformanceMonitor.setupUserTiming,
    PerformanceMonitor.setupMemoryMonitoring, PerformanceMonitor.this, is_development,
    console_log, console_warn, host_call, fresh_handle, bind, gets, modify, when, ret.
  cbn. rewrite Hho3.
  destruct (hasReactReconciler (host w)); cbn; rewrite ?Hho3;
    destruct (hasMemory (host w)) eqn:Hmem; cbn; rewrite ?Hho3;
    destruct (String.eqb (nodeEnv (host w)) "development"); cbn;
    rewrite ?Hc3, ?Hi3, ?Ht; cbn; rewrite ?app_nil_r, <- ?app_assoc;
    repeat split; assumption.
Qed.


(** X8.  [init] on a collector as the constructor left it never throws and
    ends initialised, on every host.  It keeps one observer per entry type
    whose [observe] call went through, in the order LCP, first input, layout
    shift, navigation, paint, resource: an entry type the browser rejects
    costs that observer only, except that the paint observer is lost
    together with the navigation observer, whose [try] block it shares.
    Without [PerformanceObserver] nothing is subscribed.  The React patch
    and the memory interval are set up exactly when the host has the hook. *)
Theorem init_subscribes_where_observe_succeeds (w : World) :
  PM.observers (desktop w) = [] -> PM.cleanupFunctions (desktop w) = [] ->
  PM.memoryCheckInterval (desktop w) = None -> PM.frameRateMonitor (desktop w) = None ->
  PM.isInitialized (desktop w) = false ->
  let w1 := exec PerformanceMonitor.init w in
  completion PerformanceMonitor.init w = Normal tt /\
  PM.isInitialized (desktop w1) = true /\
  map obs_entryType (PM.observers (desktop w1)) = subscribed (host w) /\
  calls_of PerformanceMonitor.init w
  = map (fun o => HObserve (obs_id o) (obs_entryType o)) (PM.observers (desktop w1)) ++
    (if hasReactReconciler (host w) then [HPatchReact] else []) ++
    match PM.memoryCheckInterval (desktop w1) with
    | Some id => [HSetInterval id 30000%N]
    | None => []
    end /\
  (is_Some (PM.memoryCheckInterval (desktop w1)) <-> hasMemory (host w) = true) /\
  PerformanceMonitorView.store w1 = PerformanceMonitorView.store w.
Proof.
  intros Ho Hc Hi Hf Hini w1.
  destruct (init_fresh_run w Ho Hc Hi Hf Hini)
    as (Hn & Ht & Hty & Hcl & Hmem & _ & Hini1 & Hm1 & Hh1).
  fold w1 in Ht, Hty, Hcl, Hmem, Hini1, Hm1, Hh1.
  split; [exact Hn|]. split; [exact Hini1|]. split; [exact Hty|]. split; [|split].
  - unfold calls_of. fold w1. rewrite Ht, drop_app_length. unfold acquire_calls.
    rewrite Hcl. now destruct (hasReactReconciler (host w)).
  - destruct (PM.memoryCheckInterval (desktop w1)); split; intros H; try congruence; eauto.
    destruct H as [? H]. discriminate.
  - unfold PerformanceMonitorView.store. now rewrite Hh1, Hm1.
Qed.

(** X8, witness: a browser that rejects the navigation and layout-shift
    entry types. *)
Lemma init_subscribes_where_observe_succeeds_witness :
  map obs_entryType
      (PM.observers (desktop (exec PerformanceMonitor.init (load_page partial_browser))))
  = ["largest-contentful-paint"; "first-input"; "resource"].
Proof.
  destruct (init_subscribes_where_observe_succeeds (load_page partial_browser))
    as (_ & _ & Hty & _).
  - reflexivity.
  - reflexivity.
  - reflexivity.
  - reflexivity.
  - reflexivity.
  - rewrite Hty. reflexivity.
Defined.

(** X9.  Everything [init] acquires, the next [destroy] releases.  On a
    collector as the constructor left it, on every host: the platform calls
    of [init] are subscriptions, the React patch and the memory interval and
    nothing else; [destroy] disconnects every observer that was subscribed,
    clears the interval that was started and restores React when it was
    patched; and it leaves the collector as a constructor would, with an
    empty store, ready for another [init]. *)
Theorem destroy_releases_what_init_acquired (w : World) :
  PM.observers (desktop w) = [] -> PM.cleanupFunctions (desktop w) = [] ->
  PM.memoryCheckInterval (desktop w) = None -> PM.frameRateMonitor (desktop w) = None ->
  PM.isInitialized (desktop w) = false ->
  let w1 := exec PerformanceMonitor.init w in
  let w2 := exec PerformanceMonitor.destroy w1 in
  let acquired := calls_of PerformanceMonitor.init w in
  let released := calls_of PerformanceMonitor.destroy w1 in
  trace w1 = trace w ++ acquired /\
  trace w2 = trace w1 ++ released /\
  (forall c, In c acquired ->
     (exists id ty, c = HObserve id ty) \/ (exists id, c = HSetInterval id 30000%N) \/
     c = HPatchReact) /\
  (forall id ty, In (HObserve id ty) acquired -> In (HDisconnect id) released) /\
  (forall id ms, In (HSetInterval id ms) acquired -> In (HClearInterval id) released) /\
  (In HPatchReact acquired -> In (HRunCleanup RestoreReactPerformWork) released) /\
  length released = length acquired /\
  desktop w2 = PM.mk (length (heap w)) [] false [] None None /\
  PerformanceMonitorView.store w2 = ∅.
Proof.
  intros Ho Hc Hi Hf Hini w1 w2 acquired released.
  destruct (init_fresh_run w Ho Hc Hi Hf Hini)
    as (_ & Ht & _ & Hcl & _ & Hf1 & _ & _ & Hh1).
  fold w1 in Ht, Hcl, Hf1, Hh1.
  assert (Ha : acquired = acquire_calls (desktop w1)).
  { unfold acquired, calls_of. fold w1. now rewrite Ht, drop_app_length. }
  assert (Hw2 : w2 = snd (PerformanceMonitor.destroy w1)) by reflexivity.
  rewrite destroy_run in Hw2. cbn [snd] in Hw2.
  assert (Ht2 : trace w2 = trace w1 ++ destroy_calls (desktop w1)) by now rewrite Hw2.
  assert (Hr : released = destroy_calls (desktop w1)).
  { unfold released, calls_of. fold w2. now rewrite Ht2, drop_app_length. }
  split; [rewrite Ha; exact Ht|]. split; [rewrite Hr; exact Ht2|].
  rewrite Ha, Hr. unfold acquire_calls, destroy_calls. rewrite Hcl, Hf1.
  split; [|split; [|split; [|split; [|split; [|split]]]]].
  - intros c Hin. rewrite !in_app_iff, !in_map_iff in Hin.
    destruct Hin as [(o & <- & _) | [(x & <- & _) | Hin]]; eauto.
    destruct (PM.memoryCheckInterval (desktop w1)); cbn in Hin; [|tauto].
    destruct Hin as [<- | []]. eauto.
  - intros id ty Hin. rewrite !in_app_iff, !in_map_iff in *.
    destruct Hin as [(o & [= <- <-] & Hin) | [(x & [=] & _) | Hin]].
    + left. eauto.
    + destruct (PM.memoryCheckInterval (desktop w1)); cbn in Hin; [|tauto].
      destruct Hin as [[=] | []].
  - intros id ms Hin. rewrite !in_app_iff, !in_map_iff in *.
    destruct Hin as [(o & [=] & _) | [(x & [=] & _) | Hin]].
    destruct (PM.memoryCheckInterval (desktop w1)); cbn in Hin; [|tauto].
    destruct Hin as [[= <- <-] | []]. right. left. now left.
  - intros Hin. rewrite !in_app_iff, !in_map_iff in *.
    destruct Hin as [(o & [=] & _) | [(x & _ & Hin) | Hin]].
    + right. right. right. exists RestoreReactPerformWork. split; [reflexivity|].
      destruct (hasReactReconciler (host w)); cbn in *; [now left | tauto].
    + destruct (PM.memoryCheckInterval (desktop w1)); cbn in Hin; [|tauto].
      destruct Hin as [[=] | []].
  - rewrite !length_app, !length_map.
    destruct (PM.memoryCheckInterval (desktop w1)); cbn; lia.
  - rewrite Hw2. cbn. now rewrite Hh1.
  - rewrite Hw2. unfold PerformanceMonitorView.store. cbn. apply obj_props_fresh.
Qed.

(** X9, witness: the page of the scenarios, started and stopped. *)
Lemma destroy_releases_what_init_acquired_witness :
  calls_of PerformanceMonitor.init scenario_world
  = [HObserve 6 "largest-contentful-paint"; HObserve 7 "first-input";
     HObserve 8 "layout-shift"; HObserve 9 "navigation"; HObserve 10 "paint";
     HObserve 11 "resource"; HSetInterval 12 30000%N] /\
  calls_of PerformanceMonitor.destroy (exec PerformanceMonitor.init scenario_world)
  = [HDisconnect 6; HDisconnect 7; HDisconnect 8; HDisconnect 9; HDisconnect 10;
     HDisconnect 11; HClearInterval 12] /\
  In (HDisconnect 9)
     (calls_of PerformanceMonitor.destroy (exec PerformanceMonitor.init scenario_world)).
Proof.
  destruct (destroy_releases_what_init_acquired scenario_world)
    as (_ & _ & _ & Hobs & _).
  - reflexivity.
  - reflexivity.
  - reflexivity.
  - reflexivity.
  - reflexivity.
  - split; [vm_compute; reflexivity|]. split; [vm_compute; reflexivity|].
    apply (Hobs 9%positive "navigation"). vm_compute. tauto.
Defined.


(** ** A name already taken by something else *)

(** X10.  When the slot under [name] is taken, that is, holds a truthy
    value that is not an array (a number written by [measure] or by an
    observer, the [network] or [memory] record, a member inherited from
    [Object.prototype]), the two collectors part ways, each on its own slot.
    [logMetric] has no [try]: the [push] raises [TypeError] to the caller and
    the world is left exactly as it was, without sample, log or analytics
    call.  [reportMetric] catches the same error: it returns normally, and
    all it leaves is one warning on the console.  In every store a name of
    [Object.prototype] that is not an own property is taken. *)
Theorem recording_onto_a_taken_name (w : World) (name : string) (v : JsValue) :
  (slot_taken (heap w) (MPM.metrics (mobile w)) name ->
   MobilePerformanceMonitor.logMetric name v w = (Throw TypeError, w)) /\
  (slot_taken (heap w) (PM.metrics (desktop w)) name ->
   PerformanceMonitor.reportMetric name v w
   = (Normal tt, set_console (console w ++ [ConsoleWarn "Failed to report metric:"]) w)) /\
  (inherited name = true ->
   (forall props, heap w !! MPM.metrics (mobile w) = Some (CObject props) ->
                  props !! name = None -> slot_taken (heap w) (MPM.metrics (mobile w)) name) /\
   (forall props, heap w !! PM.metrics (desktop w) = Some (CObject props) ->
                  props !! name = None -> slot_taken (heap w) (PM.metrics (desktop w)) name)).
Proof.
  split; [apply logMetric_taken|]. split; [apply reportMetric_taken|].
  intros Hi. split; intros props Ho Hn; eapply inherited_taken; eauto.
Qed.

(** X10, witness: the [network] record of the mobile store on a page that
    has just loaded, where the desktop store has nothing under that name,
    and the inherited name [toString] on the desktop store. *)
Lemma recording_onto_a_taken_name_witness :
  MobilePerformanceMonitor.logMetric "network" (JNum 1) scenario_world
  = (Throw TypeError, scenario_world) /\
  PerformanceMonitorView.store scenario_world !! "network" = None /\
  PerformanceMonitor.reportMetric "toString" (JNum 1) scenario_world
  = (Normal tt,
     set_console (console scenario_world ++ [ConsoleWarn "Failed to report metric:"])
                 scenario_world).
Proof.
  pose proof (recording_onto_a_taken_name scenario_world "network" (JNum 1)) as (Hm & _).
  pose proof (recording_onto_a_taken_name scenario_world "toString" (JNum 1))
    as (_ & Hd & Hi).
  split; [apply Hm; split; vm_compute; reflexivity|].
  split; [vm_compute; reflexivity|].
  apply Hd. apply (proj2 (Hi eq_refl) ∅); vm_compute; reflexivity.
Defined.


(** The names of [Object.prototype] on a page that has just loaded:
    [reportMetric] stores nothing under [constructor], [logMetric] throws
    under [toString]; [measure] under [constructor] creates an own property
    that shadows the inherited one, and under [__proto__] it creates none. *)
Example inherited_names_on_a_loaded_page :
  let w0 := scenario_world in
  let w1 := exec (PerformanceMonitor.reportMetric "constructor" (JNum 1)) w0 in
  let w2 := exec (PerformanceMonitor.measure "constructor" twelve_ms_of_work) w0 in
  let w3 := exec (PerformanceMonitor.measure "__proto__" twelve_ms_of_work) w0 in
  read_prop (heap w0) (PM.metrics (desktop w0)) "constructor" = JNative "constructor" /\
  PerformanceMonitorView.store w1 = PerformanceMonitorView.store w0 /\
  console w1 = console w0 ++ [ConsoleWarn "Failed to report metric:"] /\
  completion (MobilePerformanceMonitor.logMetric "toString" (JNum 1)) w0 = Throw TypeError /\
  read_prop (heap w2) (PM.metrics (desktop w2)) "constructor" = JNum 12 /\
  PerformanceMonitorView.store w3 = PerformanceMonitorView.store w0.
Proof. vm_compute. repeat split. Qed.


(** ** The threshold report *)

Lemma checkThresholds_run w :
  PerformanceMonitor.checkThresholds w
  = (Normal (threshold_line "lcp" 2500 (read_prop (heap w) (PM.metrics (desktop w)) "lcp") ++
             threshold_line "fid" 100 (read_prop (heap w) (PM.metrics (desktop w)) "fid") ++
             threshold_line "cls" 0.1 (read_prop (heap w) (PM.metrics (desktop w)) "cls") ++
             threshold_line "fcp" 1800 (read_prop (heap w) (PM.metrics (desktop w)) "fcp")),
     w).
Proof.
  unfold PerformanceMonitor.checkThresholds, bind, gets, PerformanceMonitor.thresholds,
    threshold_line.
  cbn [flat_map fst snd]. rewrite app_nil_r.
  repeat match goal with
         | |- context [match ?v with JUndefined => [] | _ => _ end] =>
             lazymatch v with read_prop _ _ _ => generalize v; intros [] end
         end; reflexivity.
Qed.

Lemma without_line_other metric threshold stored other :
  String.eqb metric other = false ->
  without_line other (threshold_line metric threshold stored)
  = threshold_line metric threshold stored.
Proof. intros H. unfold without_line, threshold_line. destruct stored; cbn; now rewrite ?H. Qed.

Lemma without_line_same metric threshold stored :
  without_line metric (threshold_line metric threshold stored) = [].
Proof.
  unfold without_line, threshold_line. destruct stored; cbn; now rewrite ?String.eqb_refl.
Qed.

Lemma without_line_app metric a b :
  without_line metric (a ++ b) = without_line metric a ++ without_line metric b.
Proof. apply List.filter_app. Qed.

(** The desktop store after an LCP notification, whatever the [LCP] slot
    held: the scalar is written, every other name but [LCP] is as before. *)
Lemma lcp_callback_store entries e w props :
  heap w !! PM.metrics (desktop w) = Some (CObject props) ->
  let w' := exec (PerformanceMonitor.lcpObserver_callback (entries ++ [e])) w in
  PM.metrics (desktop w') = PM.metrics (desktop w) /\
  forall k, k <> "LCP" ->
    read_prop (heap w') (PM.metrics (desktop w')) k
    = if String.eqb k "lcp" then JNum (pe_startTime e)
      else read_prop (heap w) (PM.metrics (desktop w)) k.
Proof.
  intros Ho w'.
  unfold w', PerformanceMonitor.lcpObserver_callback. rewrite last_snoc.
  set (t := JNum (pe_startTime e)).
  set (w1 := set_heap (write_prop (heap w) (PM.metrics (desktop w)) "lcp" t) w).
  change (exec (PerformanceMonitor.set_metric "lcp" t ;; PerformanceMonitor.reportMetric "LCP" t) w)
    with (exec (PerformanceMonitor.reportMetric "LCP" t) w1).
  assert (Ho1 : heap w1 !! PM.metrics (desktop w1) = Some (CObject (<["lcp" := t]> props))).
  { cbn. rewrite (write_prop_object _ _ props) by (assumption || discriminate).
    rewrite list_lookup_insert_eq; [done | eapply lookup_lt_Some; eauto]. }
  destruct (reportMetric_heap "LCP" t w1 _ Ho1) as (Hh & Hd & _).
  rewrite Hd. split; [reflexivity|].
  intros k Hk. rewrite Hh.
  rewrite (pushed_read_other _ _ _ _ _ _ k Ho1 Hk). cbn [heap desktop w1 set_heap].
  destruct (String.eqb_spec k "lcp") as [->|Hne].
  - now apply (read_prop_write_eq _ _ props).
  - apply (read_prop_write_ne _ _ props); [assumption | congruence].
Qed.

(** X11.  An LCP notification shows in the threshold report as one line
    and changes no other: after the notification [checkThresholds] lists
    [lcp] first, with the start time of the last entry as value, 2500 as
    threshold and [passed] exactly when that time is at most 2500 (so never
    for NaN); the lines of [fid], [cls] and [fcp] are those of the report
    before the notification, a metric not seen yet having no line.
    [checkThresholds] itself never throws and changes nothing. *)
Theorem lcp_notification_in_threshold_report
    (entries : list PaintEntry) (e : PaintEntry) (w : World)
    (props : gmap string JsValue) (before : list (string * ThresholdResult)) :
  heap w !! PM.metrics (desktop w) = Some (CObject props) ->
  completion PerformanceMonitor.checkThresholds w = Normal before ->
  let w' := exec (PerformanceMonitor.lcpObserver_callback (entries ++ [e])) w in
  PerformanceMonitor.checkThresholds w'
  = (Normal (("lcp", {| tr_value := JNum (pe_startTime e);
                        tr_threshold := 2500;
                        tr_passed := (pe_startTime e <=? 2500)%float |})
             :: without_line "lcp" before),
     w') /\
  PerformanceMonitor.checkThresholds w = (Normal before, w).
Proof.
  intros Ho Hbefore w'.
  unfold completion in Hbefore. rewrite checkThresholds_run in Hbefore. cbn [fst] in Hbefore.
  injection Hbefore as <-.
  split; [|apply checkThresholds_run].
  rewrite checkThresholds_run.
  destruct (lcp_callback_store entries e w props Ho) as (Hm & Hread). fold w' in Hm, Hread.
  rewrite !Hread by discriminate. cbn [String.eqb Ascii.eqb Bool.eqb].
  rewrite !without_line_app, without_line_same, !without_line_other by reflexivity.
  reflexivity.
Qed.

(** X11, witness: a slow LCP reported after a fast first contentful
    paint. *)
Lemma lcp_notification_in_threshold_report_witness :
  let w := exec (PerformanceMonitor.paintObserver_callback
                   [{| np_name := "first-contentful-paint"; np_startTime := 900 |}])
                scenario_world in
  map (fun line => (fst line, tr_passed (snd line)))
      (default [] (completion_value PerformanceMonitor.checkThresholds
         (exec (PerformanceMonitor.lcpObserver_callback ([] ++ [{| pe_startTime := 3100 |}])) w)))
  = [("lcp", false); ("fcp", true)].
Proof.
  intros w.
  destruct (lcp_notification_in_threshold_report [] {| pe_startTime := 3100 |} w
              (PerformanceMonitorView.store w)
              (default [] (completion_value PerformanceMonitor.checkThresholds w)))
    as [Hrun _].
  - vm_compute. reflexivity.
  - vm_compute. reflexivity.
  - unfold completion_value, completion. rewrite Hrun. vm_compute. reflexivity.
Defined.


(** ** The mobile score *)

Lemma score_level (x t1 t2 t3 : float) :
  In (if (x <=? t1)%float then 100
      else if (x <=? t2)%float then 75
      else if (x <=? t3)%float then 50 else 25)%float score_levels.
Proof.
  unfold score_levels.
  destruct (x <=? t1)%float; [now left|].
  destruct (x <=? t2)%float; [right; now left|].
  destruct (x <=? t3)%float; [right; right; now left | right; right; right; now left].
Qed.

Lemma overall_table :
  forallb (fun a => forallb (fun b => forallb (overall_in_order a b) score_levels)
                            score_levels) score_levels = true.
Proof. vm_compute. reflexivity. Qed.

Lemma overall_of_levels a b c :
  In a score_levels -> In b score_levels -> In c score_levels ->
  overall_in_order a b c = true.
Proof.
  intros Ha Hb Hc. pose proof overall_table as H.
  rewrite forallb_forall in H. specialize (H a Ha).
  rewrite forallb_forall in H. specialize (H b Hb).
  rewrite forallb_forall in H. exact (H c Hc).
Qed.

(** X12.  [getPerformanceScore] reads the store and changes nothing, and
    whatever the store holds: each of the three scores is 100, 75, 50 or 25;
    the overall score lies between 25 and 100 and is 100 exactly when all
    three are; at most four recommendations are given, and an overall score
    below 75 always comes with at least one. *)
Theorem performance_score_is_bounded (w : World) :
  exists s,
    MobilePerformanceMonitor.getPerformanceScore w = (Normal s, w) /\
    In (score_lcp s) score_levels /\
    In (score_fid s) score_levels /\
    In (score_cls s) score_levels /\
    (25 <=? overall s)%float = true /\
    (overall s <=? 100)%float = true /\
    (overall s =? 100)%float
    = ((score_lcp s =? 100) && (score_fid s =? 100) && (score_cls s =? 100))%float /\
    (length (recommendations s) <= 4)%nat /\
    ((overall s <? 75)%float = true -> recommendations s <> []) /\
    score_isLowEndDevice s = MPM.isLowEndDevice (mobile w).
Proof.
  unfold MobilePerformanceMonitor.getPerformanceScore, MobilePerformanceMonitor.getLCPScore,
    MobilePerformanceMonitor.getFIDScore, MobilePerformanceMonitor.getCLSScore,
    MobilePerformanceMonitor.getRecommendations, MobilePerformanceMonitor.get_metric,
    get_prop, bind, gets, ret.
  cbn [s_lcp s_fid s_cls].
  pose proof (score_level
    (ToNumber (js_or (read_prop (heap w) (MPM.metrics (mobile w)) "lcp") (JNum 0)))
    2500 4000 6000) as Ha.
  pose proof (score_level
    (ToNumber (js_or (read_prop (heap w) (MPM.metrics (mobile w)) "fid") (JNum 0)))
    100 300 500) as Hb.
  pose proof (score_level
    (ToNumber (js_or (read_prop (heap w) (MPM.metrics (mobile w)) "cls") (JNum 0)))
    0.1 0.25 0.5) as Hc.
  revert Ha Hb Hc.
  generalize (if (ToNumber (js_or (read_prop (heap w) (MPM.metrics (mobile w)) "lcp") (JNum 0))
                  <=? 2500)%float then 100%float
              else if (ToNumber (js_or (read_prop (heap w) (MPM.metrics (mobile w)) "lcp")
                                       (JNum 0)) <=? 4000)%float then 75%float
              else if (ToNumber (js_or (read_prop (heap w) (MPM.metrics (mobile w)) "lcp")
                                       (JNum 0)) <=? 6000)%float then 50%float else 25%float).
  intros a.
  generalize (if (ToNumber (js_or (read_prop (heap w) (MPM.metrics (mobile w)) "fid") (JNum 0))
                  <=? 100)%float then 100%float
              else if (ToNumber (js_or (read_prop (heap w) (MPM.metrics (mobile w)) "fid")
                                       (JNum 0)) <=? 300)%float then 75%float
              else if (ToNumber (js_or (read_prop (heap w) (MPM.metrics (mobile w)) "fid")
                                       (JNum 0)) <=? 500)%float then 50%float else 25%float).
  intros b.
  generalize (if (ToNumber (js_or (read_prop (heap w) (MPM.metrics (mobile w)) "cls") (JNum 0))
                  <=? 0.1)%float then 100%float
              else if (ToNumber (js_or (read_prop (heap w) (MPM.metrics (mobile w)) "cls")
                                       (JNum 0)) <=? 0.25)%float then 75%float
              else if (ToNumber (js_or (read_prop (heap w) (MPM.metrics (mobile w)) "cls")
                                       (JNum 0)) <=? 0.5)%float then 50%float else 25%float).
  intros c Ha Hb Hc.
  pose proof (overall_of_levels a b c Ha Hb Hc) as Ho.
  unfold overall_in_order in Ho. cbv zeta in Ho.
  apply andb_prop in Ho as [Ho Hrec]. apply andb_prop in Ho as [Ho Hall].
  apply andb_prop in Ho as [Hlo Hhi]. apply Bool.eqb_prop in Hall.
  eexists. split; [reflexivity|].
  cbn [overall score_lcp score_fid score_cls recommendations score_isLowEndDevice].
  split; [exact Ha|]. split; [exact Hb|]. split; [exact Hc|].
  split; [exact Hlo|]. split; [exact Hhi|]. split; [exact Hall|]. split; [|split].
  - destruct (a <? 75)%float, (b <? 75)%float, (c <? 75)%float,
      (MPM.isLowEndDevice (mobile w)); cbn; lia.
  - intros Hlow. rewrite Hlow in Hrec. cbn in Hrec.
    destruct (a <? 75)%float, (b <? 75)%float, (c <? 75)%float; cbn in *;
      try discriminate; intros [=].
  - reflexivity.
Qed.


(** ** The mobile collector, from constructor to [destroy] *)

Ltac mobile_subscribing_case :=
  cbn;
  repeat match goal with H : trace _ = _ |- _ => rewrite H; clear H end;
  rewrite ?map_app, ?app_nil_r; cbn; rewrite <- ?app_assoc; cbn [app];
  repeat split; congruence.

Lemma mobile_subscribe_step base types ty msg w :
  mobile_subscribing base types w ->
  exists w',
    try_catch
      (o <- new_PerformanceObserver ty ;; observe o ;;
       MobilePerformanceMonitor.push_observer o)
      (fun _ => console_warn msg) w = (Normal tt, w') /\
    mobile_subscribing base (types ++ if observeThrows (host base) ty then [] else [ty]) w'.
Proof.
  intros (Ht & Hty & Hc & Hi & Hb & Hio & Hm & Hlow & Hrm & Hh & Hho).
  unfold try_catch, bind, new_PerformanceObserver, observe,
    MobilePerformanceMonitor.push_observer, MobilePerformanceMonitor.this, fresh_handle,
    host_call, console_warn, gets, modify, throw, ret.
  cbn. rewrite Hho.
  destruct (observeThrows (host base) ty); eexists; (split; [reflexivity|]);
    unfold mobile_subscribing; mobile_subscribing_case.
Qed.

Lemma mobile_subscribe_cls_step base types msg w :
  mobile_subscribing base types w ->
  exists w',
    try_catch
      (clsObserver <- new_PerformanceObserver "layout-shift" ;;
       modify (fun w => set_clsValue (<[obs_id clsObserver := 0%float]> (clsValue w)) w) ;;
       observe clsObserver ;;
       MobilePerformanceMonitor.push_observer clsObserver)
      (fun _ => console_warn msg) w = (Normal tt, w') /\
    mobile_subscribing base
      (types ++ if observeThrows (host base) "layout-shift" then [] else ["layout-shift"]) w'.
Proof.
  intros (Ht & Hty & Hc & Hi & Hb & Hio & Hm & Hlow & Hrm & Hh & Hho).
  unfold try_catch, bind, new_PerformanceObserver, observe,
    MobilePerformanceMonitor.push_observer, MobilePerformanceMonitor.this, fresh_handle,
    host_call, console_warn, gets, modify, throw, ret.
  cbn. rewrite Hho.
  destruct (observeThrows (host base) "layout-shift"); eexists; (split; [reflexivity|]);
    unfold mobile_subscribing; mobile_subscribing_case.
Qed.

Lemma mobile_observers_set_up base :
  MPM.observers (mobile base) = [] -> MPM.cleanupFunctions (mobile base) = [] ->
  MPM.memoryCheckInterval (mobile base) = None ->
  MPM.batteryCheckInterval (mobile base) = None ->
  MPM.intersectionObserver (mobile base) = None ->
  exists w',
    MobilePerformanceMonitor.setupPerformanceObserver base = (Normal tt, w') /\
    mobile_subscribing base
      (if hasPerformanceObserver (host base)
       then List.filter (fun ty => negb (observeThrows (host base) ty))
                        ["largest-contentful-paint"; "first-input"; "layout-shift"]
       else []) w'.
Proof.
  intros Ho Hc Hi Hb Hio.
  assert (H0 : mobile_subscribing base [] base).
  { unfold mobile_subscribing. rewrite Ho. cbn. rewrite app_nil_r. repeat split; assumption. }
  unfold MobilePerformanceMonitor.setupPerformanceObserver.
  unfold bind at 1. cbn [gets].
  destruct (hasPerformanceObserver (host base)) eqn:Hpo.
  - cbn [when].
    destruct (mobile_subscribe_step base _ "largest-contentful-paint"
                "LCP observer not supported:" _ H0) as (w1 & R1 & H1).
    destruct (mobile_subscribe_step base _ "first-input" "FID observer not supported:" _ H1)
      as (w2 & R2 & H2).
    destruct (mobile_subscribe_cls_step base _ "CLS observer not supported:" _ H2)
      as (w3 & R3 & H3).
    exists w3. split.
    + unfold bind at 1. rewrite R1. unfold bind at 1. rewrite R2. exact R3.
    + replace (List.filter (fun ty => negb (observeThrows (host base) ty))
                 ["largest-contentful-paint"; "first-input"; "layout-shift"])
        with ((([] ++ (if observeThrows (host base) "largest-contentful-paint" then []
                       else ["largest-contentful-paint"]))
               ++ (if observeThrows (host base) "first-input" then [] else ["first-input"]))
              ++ (if observeThrows (host base) "layout-shift" then [] else ["layout-shift"]))
        by (cbn; destruct (observeThrows (host base) "largest-contentful-paint"),
              (observeThrows (host base) "first-input"),
              (observeThrows (host base) "layout-shift"); reflexivity).
      exact H3.
  - cbn [when ret]. exists base. split; [reflexivity | exact H0].
Qed.

(** [init] on a mobile collector that holds nothing yet. *)
Lemma mobile_init_fresh_run w props :
  MPM.observers (mobile w) = [] -> MPM.cleanupFunctions (mobile w) = [] ->
  MPM.memoryCheckInterval (mobile w) = None ->
  MPM.batteryCheckInterval (mobile w) = None ->
  MPM.intersectionObserver (mobile w) = None ->
  heap w !! MPM.metrics (mobile w) = Some (CObject props) ->
  let w1 := exec MobilePerformanceMonitor.init w in
  completion MobilePerformanceMonitor.init w = Normal tt /\
  trace w1 = trace w ++ mobile_acquire_calls (host w) (mobile w1) /\
  MPM.cleanupFunctions (mobile w1)
  = (if hasConnection (host w) then [RemoveNetworkListener] else []) /\
  MPM.batteryCheckInterval (mobile w1) = None /\
  MPM.metrics (mobile w1) = MPM.metrics (mobile w) /\
  length (heap w1) = length (heap w).
Proof.
  intros Ho Hc Hi Hb Hio Hstore w1.
  destruct (mobile_observers_set_up w Ho Hc Hi Hb Hio) as (w3 & Hrun & Hsub).
  destruct Hsub as (Ht & Hty & Hc3 & Hi3 & Hb3 & Hio3 & Hm3 & Hlow3 & Hrm3 & Hh3 & Hho3).
  assert (E : MobilePerformanceMonitor.init w
              = (MobilePerformanceMonitor.setupNetworkObserver ;;
                 MobilePerformanceMonitor.setupBatteryObserver ;;
                 MobilePerformanceMonitor.setupMemoryObserver ;;
                 MobilePerformanceMonitor.setupIntersectionObserver) w3).
  { unfold MobilePerformanceMonitor.init. unfold bind at 1. now rewrite Hrun. }
  unfold w1, completion, exec. rewrite E. clear E w1.
  unfold mobile_acquire_calls, MobilePerformanceMonitor.setupNetworkObserver,
    MobilePerformanceMonitor.setupBatteryObserver, MobilePerformanceMonitor.setupMemoryObserver,
    MobilePerformanceMonitor.setupIntersectionObserver, MobilePerformanceMonitor.push_cleanup,
    MobilePerformanceMonitor.set_metric, set_prop,
    MobilePerformanceMonitor.this, host_call, fresh_handle, bind, gets, modify, when, ret.
  cbn. rewrite Hho3.
  destruct (hasConnection (host w)); cbn; rewrite ?Hho3;
    destruct (hasGetBattery (host w)); cbn; rewrite ?Hho3;
    destruct (hasMemory (host w)); cbn; rewrite ?Hho3;
    destruct (hasIntersectionObserver (host w)); cbn;
    rewrite ?Hc3, ?Hi3, ?Hio3, ?Ht, ?Hm3, ?Hh3; cbn; rewrite ?app_nil_r, <- ?app_assoc;
    rewrite ?(write_prop_object _ _ props) by (assumption || discriminate); rewrite ?length_insert;
    repeat split; assumption.
Qed.


(** X13.  What the mobile constructor acquires on page load, [destroy]
    releases, on every host: the calls made while loading are observer
    subscriptions, the connection listener, the battery request, the memory
    interval and the intersection observer, and none other; [destroy]
    disconnects every subscribed observer and the intersection observer,
    clears the interval and removes the connection listener, and leaves the
    observer and cleanup lists and the store empty.  Two things it leaves:
    the intersection observer stays in its field, and the battery request is
    not cancelled, so that a battery promise resolving after [destroy]
    registers its two listeners and a cleanup on the destroyed collector. *)
Theorem mobile_destroy_releases_what_load_acquired
    (h : Host) (level : float) (charging : bool) :
  let w := load_page h in
  let w2 := exec MobilePerformanceMonitor.destroy w in
  let w3 := exec (MobilePerformanceMonitor.battery_ready level charging) w2 in
  let acquired := trace w in
  let released := calls_of MobilePerformanceMonitor.destroy w in
  (forall c, In c acquired ->
     (exists id ty, c = HObserve id ty) \/ c = HAddListener "connection" "change" \/
     c = HGetBattery \/ (exists id, c = HSetInterval id 30000%N) \/
     (exists id, c = HNewIntersectionObserver id)) /\
  (forall id ty, In (HObserve id ty) acquired -> In (HDisconnect id) released) /\
  (forall id, In (HNewIntersectionObserver id) acquired -> In (HDisconnect id) released) /\
  (forall id ms, In (HSetInterval id ms) acquired -> In (HClearInterval id) released) /\
  (In (HAddListener "connection" "change") acquired ->
   In (HRunCleanup RemoveNetworkListener) released) /\
  (MPM.observers (mobile w2) = [] /\ MPM.cleanupFunctions (mobile w2) = [] /\
   MPM.memoryCheckInterval (mobile w2) = None /\
   MobilePerformanceMonitorView.store w2 = ∅ /\
   MPM.intersectionObserver (mobile w2) = MPM.intersectionObserver (mobile w)) /\
  (calls_of (MobilePerformanceMonitor.battery_ready level charging) w2
   = [HAddListener "battery" "levelchange"; HAddListener "battery" "chargingchange"] /\
   MPM.cleanupFunctions (mobile w3) = [RemoveBatteryListeners] /\
   MobilePerformanceMonitorView.store w3
   = {[ "battery" := JRecord [("level", JNum level); ("charging", JBool charging)] ]}).
Proof.
  intros w w2 w3 acquired released.
  assert (Hinit := mobile_init_fresh_run
            {| heap := [CObject ∅; CObject ∅];
               desktop := PM.mk 0 [] false [] None None;
               mobile := MPM.mk 1 [] [] (MobilePerformanceMonitor.detectLowEndDevice h)
                                (MobilePerformanceMonitor.detectReducedMotion h) None None None;
               clsValue := ∅; host := h; dateNow := 0; perfNow := 0;
               console := []; trace := []; nextHandle := 1 |} ∅
            eq_refl eq_refl eq_refl eq_refl eq_refl eq_refl).
  cbv zeta in Hinit. rewrite <- load_page_init in Hinit. fold w in Hinit.
  cbn [trace host app] in Hinit.
  destruct Hinit as (_ & Ht & Hcl & Hb & _ & _).
  assert (Hw2 : w2 = snd (MobilePerformanceMonitor.destroy w)) by reflexivity.
  rewrite mobile_destroy_run in Hw2. cbn [snd] in Hw2.
  assert (Hr : released = mobile_destroy_calls (mobile w)).
  { unfold released, calls_of. fold w2. rewrite Hw2. cbn [trace]. apply drop_app_length. }
  unfold acquired. rewrite Ht, Hr. unfold mobile_acquire_calls, mobile_destroy_calls.
  rewrite Hcl, Hb.
  split; [|split; [|split; [|split; [|split; [|split]]]]].
  - intros c Hin. rewrite !in_app_iff, !in_map_iff in Hin.
    destruct Hin as [(o & <- & _) | [(x & <- & _) | [Hin | [Hin | Hin]]]]; eauto.
    + destruct (hasGetBattery h); cbn in Hin; [|tauto]. destruct Hin as [<- | []]. auto.
    + destruct (MPM.memoryCheckInterval (mobile w)); cbn in Hin; [|tauto].
      destruct Hin as [<- | []]. eauto 6.
    + destruct (MPM.intersectionObserver (mobile w)); cbn in Hin; [|tauto].
      destruct Hin as [<- | []]. eauto 6.
  - intros id ty Hin. rewrite !in_app_iff, !in_map_iff in *.
    destruct Hin as [(o & [= <- <-] & Hin) | [(x & [=] & _) | [Hin | [Hin | Hin]]]].
    + left. eauto.
    + destruct (hasGetBattery h); cbn in Hin; [|tauto]. destruct Hin as [[=] | []].
    + destruct (MPM.memoryCheckInterval (mobile w)); cbn in Hin; [|tauto].
      destruct Hin as [[=] | []].
    + destruct (MPM.intersectionObserver (mobile w)); cbn in Hin; [|tauto].
      destruct Hin as [[=] | []].
  - intros id Hin. rewrite !in_app_iff, !in_map_iff in *.
    destruct Hin as [(o & [=] & _) | [(x & [=] & _) | [Hin | [Hin | Hin]]]].
    + destruct (hasGetBattery h); cbn in Hin; [|tauto]. destruct Hin as [[=] | []].
    + destruct (MPM.memoryCheckInterval (mobile w)); cbn in Hin; [|tauto].
      destruct Hin as [[=] | []].
    + destruct (MPM.intersectionObserver (mobile w)); cbn in Hin; [|tauto].
      destruct Hin as [[= <-] | []]. right. left. now left.
  - intros id ms Hin. rewrite !in_app_iff, !in_map_iff in *.
    destruct Hin as [(o & [=] & _) | [(x & [=] & _) | [Hin | [Hin | Hin]]]].
    + destruct (hasGetBattery h); cbn in Hin; [|tauto]. destruct Hin as [[=] | []].
    + destruct (MPM.memoryCheckInterval (mobile w)); cbn in Hin; [|tauto].
      destruct Hin as [[= <- <-] | []]. right. right. left. now left.
    + destruct (MPM.intersectionObserver (mobile w)); cbn in Hin; [|tauto].
      destruct Hin as [[=] | []].
  - intros Hin. rewrite !in_app_iff, !in_map_iff in *.
    destruct Hin as [(o & [=] & _) | [(x & _ & Hin) | [Hin | [Hin | Hin]]]].
    + right. right. right. right. exists RemoveNetworkListener. split; [reflexivity|].
      destruct (hasConnection h); cbn in *; [now left | tauto].
    + destruct (hasGetBattery h); cbn in Hin; [|tauto]. destruct Hin as [[=] | []].
    + destruct (MPM.memoryCheckInterval (mobile w)); cbn in Hin; [|tauto].
      destruct Hin as [[=] | []].
    + destruct (MPM.intersectionObserver (mobile w)); cbn in Hin; [|tauto].
      destruct Hin as [[=] | []].
  - rewrite Hw2. unfold MobilePerformanceMonitorView.store. cbn.
    rewrite obj_props_fresh. repeat split.
  - unfold w3, calls_of. rewrite Hw2.
    unfold exec, MobilePerformanceMonitor.battery_ready, MobilePerformanceMonitor.set_metric,
      MobilePerformanceMonitor.push_cleanup, MobilePerformanceMonitor.this,
      MobilePerformanceMonitorView.store, set_prop, host_call, bind, gets, modify.
    cbn. rewrite <- app_assoc, drop_app_length.
    split; [reflexivity|]. split; [reflexivity|].
    unfold write_prop. rewrite list_lookup_middle by reflexivity.
    change (assigns ∅ "battery") with true. cbv iota.
    unfold obj_props. rewrite list_lookup_insert_eq by (rewrite length_app; cbn; lia).
    reflexivity.
Qed.


(** ** Warnings and scores of the mobile collector *)

Lemma SFcompare_antisym (x y : SpecFloat.spec_float) :
  SpecFloat.SFcompare y x = option_map CompOpp (SpecFloat.SFcompare x y).
Proof.
  destruct x as [sx|sx| |sx mx ex], y as [sy|sy| |sy my ey]; cbn;
    try reflexivity; try (destruct sx; reflexivity); try (destruct sy; reflexivity);
    try (destruct sx, sy; reflexivity).
  destruct sx, sy; cbn; try reflexivity; f_equal;
    rewrite (Z.compare_antisym ex ey); destruct (ex ?= ey)%Z; cbn; try reflexivity.
  - f_equal. exact (eq_sym (Pos.compare_cont_antisym mx my Eq)).
  - exact (eq_sym (Pos.compare_cont_antisym mx my Eq)).
Qed.

(** [c < x] is the negation of [x <= c], unless one of them is NaN. *)
Lemma ltb_negb_leb (x c : float) :
  PrimFloat.is_nan x = false -> PrimFloat.is_nan c = false ->
  (c <? x)%float = negb (x <=? c)%float.
Proof.
  unfold PrimFloat.is_nan. rewrite FloatAxioms.ltb_spec, FloatAxioms.leb_spec.
  rewrite !FloatAxioms.eqb_spec.
  unfold SpecFloat.SFltb, SpecFloat.SFleb, SpecFloat.SFeqb.
  rewrite (SFcompare_antisym (Prim2SF x) (Prim2SF c)).
  intros Hx Hc.
  destruct (SpecFloat.SFcompare (Prim2SF x) (Prim2SF c)) as [[| |]|] eqn:E; cbn; try reflexivity.
  exfalso.
  destruct (Prim2SF x) as [sx|sx| |sx mx ex] eqn:Ex, (Prim2SF c) as [sy|sy| |sy my ey] eqn:Ey;
    cbn in *; try discriminate.
Qed.

Lemma nan_comparisons (x c : float) :
  PrimFloat.is_nan x = true -> (c <? x)%float = false.
Proof.
  unfold PrimFloat.is_nan. rewrite FloatAxioms.ltb_spec, FloatAxioms.eqb_spec.
  unfold SpecFloat.SFltb, SpecFloat.SFeqb. intros H.
  destruct (Prim2SF x) as [sx|sx| |sx mx ex]; cbn in H.
  - discriminate.
  - destruct sx; discriminate.
  - now destruct (Prim2SF c).
  - destruct sx; rewrite Z.compare_refl, Pos.compare_cont_refl in H; discriminate.
Qed.


Lemma zero_leb (x c : float) :
  (x =? 0)%float = true -> (0 <=? c)%float = true -> (x <=? c)%float = true.
Proof.
  rewrite FloatAxioms.eqb_spec, !FloatAxioms.leb_spec.
  change (Prim2SF 0) with (SpecFloat.S754_zero false).
  unfold SpecFloat.SFeqb, SpecFloat.SFleb.
  destruct (Prim2SF x) as [sx|sx| |sx mx ex]; cbn; try discriminate.
  - intros _ H. exact H.
  - destruct sx; discriminate.
  - destruct sx; discriminate.
Qed.

(** One vital: the top score and the absence of a warning are the same
    condition on the stored number, NaN and zero included. *)
Lemma top_score_iff_no_warning (x t1 t2 t3 : float) :
  PrimFloat.is_nan t1 = false -> (0 <=? t1)%float = true ->
  ((if (ToNumber (js_or (JNum x) (JNum 0)) <=? t1)%float then 100
    else if (ToNumber (js_or (JNum x) (JNum 0)) <=? t2)%float then 75
    else if (ToNumber (js_or (JNum x) (JNum 0)) <=? t3)%float then 50 else 25) =? 100)%float
  = negb (t1 <? x)%float.
Proof.
  intros Hnan Hpos. unfold js_or. cbn [truthy].
  destruct (PrimFloat.is_nan x) eqn:Hx.
  - rewrite orb_true_r. cbn [negb ToNumber]. rewrite Hpos.
    now rewrite (nan_comparisons x t1 Hx).
  - rewrite orb_false_r. rewrite (ltb_negb_leb x t1 Hx Hnan), negb_involutive.
    destruct (x =? 0)%float eqn:Hz; cbn [negb ToNumber].
    + rewrite Hpos. now rewrite (zero_leb x t1 Hz Hpos).
    + destruct (x <=? t1)%float; [reflexivity|].
      destruct (x <=? t2)%float; [reflexivity|].
      destruct (x <=? t3)%float; reflexivity.
Qed.

Lemma store_read_mobile w k v :
  MobilePerformanceMonitorView.store w !! k = Some v ->
  read_prop (heap w) (MPM.metrics (mobile w)) k = v.
Proof. unfold MobilePerformanceMonitorView.store, read_prop. now intros ->. Qed.

(** X14.  The warnings of the mobile collector and its scores draw the
    same line.  With the three vitals in the store as numbers, as the
    observers write them: a vital scores 100 exactly when
    [checkPerformanceWarnings] has no warning for that value, for LCP (2500),
    FID (100) and CLS (0.1) alike, and also when the number is zero or NaN,
    which scores 100 and raises no warning. *)
Theorem top_score_exactly_without_warning (w : World) (lcp fid cls : float) :
  MobilePerformanceMonitorView.store w !! "lcp" = Some (JNum lcp) ->
  MobilePerformanceMonitorView.store w !! "fid" = Some (JNum fid) ->
  MobilePerformanceMonitorView.store w !! "cls" = Some (JNum cls) ->
  let warnings name v :=
    completion_value (MobilePerformanceMonitor.checkPerformanceWarnings name (JNum v)) w in
  exists s,
    MobilePerformanceMonitor.getPerformanceScore w = (Normal s, w) /\
    ((score_lcp s =? 100)%float = true <-> warnings "LCP" lcp = Some []) /\
    ((score_fid s =? 100)%float = true <-> warnings "FID" fid = Some []) /\
    ((score_cls s =? 100)%float = true <-> warnings "CLS" cls = Some []).
Proof.
  intros Hl Hf Hc warnings.
  apply store_read_mobile in Hl, Hf, Hc.
  assert (Hw : forall name v,
             warnings name v
             = Some ((if String.eqb name "LCP" && (2500 <? v)%float
                      then ["LCP is above 2.5s threshold. Consider optimizing images and reducing render-blocking resources."]
                      else []) ++
                     (if String.eqb name "FID" && (100 <? v)%float
                      then ["FID is above 100ms threshold. Consider reducing JavaScript execution time."]
                      else []) ++
                     (if String.eqb name "CLS" && (0.1 <? v)%float
                      then ["CLS is above 0.1 threshold. Consider fixing layout shifts."]
                      else []) ++
                     (if String.eqb name "High Memory Usage" && (0.9 <? v)%float
                      then ["Memory usage is critically high. Consider implementing memory cleanup."]
                      else []))%list).
  { intros name v. unfold warnings, completion_value, completion,
      MobilePerformanceMonitor.checkPerformanceWarnings, is_development.
    cbv zeta. cbn [ToNumber]. set (l := (_ ++ _ ++ _ ++ _)%list).
    unfold bind at 1. cbn [gets]. unfold bind.
    assert (H : forall b (l0 : list string) w0,
               fst (forEach l0 (fun message : string =>
                      when b (console_warn ("Performance Warning - " ++ message)%string)) w0)
               = Normal tt).
    { intros b l0. induction l0 as [|m l0 IH]; intros w0; [reflexivity|].
      cbn. destruct b; cbn; apply IH. }
    specialize (H (String.eqb (nodeEnv (host w)) "development") l w).
    destruct (forEach l _ w) as [c w0]. cbn in H. now subst c. }
  unfold MobilePerformanceMonitor.getPerformanceScore, MobilePerformanceMonitor.getLCPScore,
    MobilePerformanceMonitor.getFIDScore, MobilePerformanceMonitor.getCLSScore,
    MobilePerformanceMonitor.getRecommendations, MobilePerformanceMonitor.get_metric,
    get_prop, bind, gets, ret.
  cbn [s_lcp s_fid s_cls]. rewrite Hl, Hf, Hc.
  eexists. split; [reflexivity|].
  cbn [score_lcp score_fid score_cls]. rewrite !Hw.
  rewrite (top_score_iff_no_warning lcp 2500 4000 6000) by reflexivity.
  rewrite (top_score_iff_no_warning fid 100 300 500) by reflexivity.
  rewrite (top_score_iff_no_warning cls 0.1 0.25 0.5) by reflexivity.
  cbn [String.eqb Ascii.eqb Bool.eqb andb app].
  split; [|split].
  - destruct (2500 <? lcp)%float; cbn; split; intros H; try discriminate; reflexivity.
  - destruct (100 <? fid)%float; cbn; split; intros H; try discriminate; reflexivity.
  - destruct (0.1 <? cls)%float; cbn; split; intros H; try discriminate; reflexivity.
Qed.

(** X14, witness: a slow LCP beside a fast first input and no layout shift. *)
Lemma top_score_exactly_without_warning_witness :
  exists s,
    MobilePerformanceMonitor.getPerformanceScore page_with_vitals = (Normal s, page_with_vitals) /\
    (score_lcp s =? 100)%float = false /\
    (score_fid s =? 100)%float = true /\
    completion_value
      (MobilePerformanceMonitor.checkPerformanceWarnings "FID" (JNum 12)) page_with_vitals
    = Some [].
Proof.
  destruct (top_score_exactly_without_warning page_with_vitals 3100 12 0)
    as (s & Hrun & _ & Hfid & _).
  - vm_compute. reflexivity.
  - vm_compute. reflexivity.
  - vm_compute. reflexivity.
  - exists s. split; [exact Hrun|].
    assert (Hs : fst (MobilePerformanceMonitor.getPerformanceScore page_with_vitals) = Normal s)
      by now rewrite Hrun.
    vm_compute in Hs. injection Hs as <-.
    split; [vm_compute; reflexivity|]. split; [vm_compute; reflexivity|].
    apply Hfid. vm_compute. reflexivity.
Defined.


(** ** Handlers that complete *)

Lemma read_prop_alloc h o c k : o < length h -> read_prop (h ++ [c]) o k = read_prop h o k.
Proof. intros H. unfold read_prop, obj_props. now rewrite lookup_app_l. Qed.

Lemma read_prop_write_other h o o' k v name :
  o' <> o -> read_prop (write_prop h o k v) o' name = read_prop h o' name.
Proof. intros H. unfold read_prop, obj_props. now rewrite write_prop_cell_other. Qed.

(** The value under [name'] after a push under [name]: as before, or the
    new series. *)
Lemma pushed_read h o name limit x props name' :
  h !! o = Some (CObject props) ->
  read_prop (pushed h o name limit x) o name' = read_prop h o name' \/
  exists r, read_prop (pushed h o name limit x) o name' = JRef r.
Proof.
  intros Ho. unfold read_prop at 1 3.
  destruct (pushed_props h o name limit x props Ho) as [-> | [_ ->]].
  - left. unfold read_prop, obj_props. now rewrite Ho.
  - destruct (decide (name' = name)) as [->|Hne].
    + right. rewrite lookup_insert_eq. eauto.
    + left. rewrite lookup_insert_ne by congruence.
      unfold read_prop, obj_props. now rewrite Ho.
Qed.

Lemma slot_open_pushed h o name limit x props name' :
  h !! o = Some (CObject props) ->
  slot_open (read_prop h o name') ->
  slot_open (read_prop (pushed h o name limit x) o name').
Proof.
  intros Ho Hopen.
  destruct (pushed_read h o name limit x props name' Ho) as [-> | Href];
    [exact Hopen | now right].
Qed.

Lemma obj_props_alloc h o c : o < length h -> obj_props (h ++ [c]) o = obj_props h o.
Proof. intros H. unfold obj_props. now rewrite lookup_app_l. Qed.

(** The names the mobile collector assigns directly are none of those an
    object inherits. *)
Lemma mobile_scalars_own k : In k mobile_scalars -> inherited k = false.
Proof. cbn. intros H. repeat destruct H as [<- | H]; try reflexivity. contradiction. Qed.

Section SlotsOpen.
Variable measured : list string.

Lemma slots_open_ext w w' :
  heap w' = heap w -> PM.metrics (desktop w') = PM.metrics (desktop w) ->
  MPM.metrics (mobile w') = MPM.metrics (mobile w) ->
  slots_open measured w -> slots_open measured w'.
Proof. unfold slots_open. intros -> -> ->. auto. Qed.

Lemma page_calm_ext w w' :
  heap w' = heap w -> PM.metrics (desktop w') = PM.metrics (desktop w) ->
  MPM.metrics (mobile w') = MPM.metrics (mobile w) ->
  page_calm measured w -> page_calm measured w'.
Proof.
  intros H1 H2 H3 [Hok Hopen]. split; [eapply page_ok_ext | eapply slots_open_ext]; eauto.
Qed.

Lemma calm_modify_quiet (g : World -> World) :
  (forall w, heap (g w) = heap w) ->
  (forall w, PM.metrics (desktop (g w)) = PM.metrics (desktop w)) ->
  (forall w, MPM.metrics (mobile (g w)) = MPM.metrics (mobile w)) ->
  keeps (page_calm measured) (modify g).
Proof. intros H1 H2 H3 w H. eapply page_calm_ext; eauto. Qed.

Lemma calm_fresh_handle : keeps (page_calm measured) fresh_handle.
Proof. intros w H. eapply page_calm_ext; eauto. Qed.

Lemma calm_get_metric k : keeps (page_calm measured) (PerformanceMonitor.get_metric k).
Proof. intros w H. exact H. Qed.

Lemma calm_mobile_get_metric k :
  keeps (page_calm measured) (MobilePerformanceMonitor.get_metric k).
Proof. intros w H. exact H. Qed.

Lemma calm_alloc c : keeps (page_calm measured) (alloc c).
Proof.
  intros w [Hok (Hd & Hm & Hi)]. split; [now apply page_ok_alloc|].
  destruct Hok as (Sd & Sm & _).
  split; [|split]; intros name; cbn;
    rewrite ?read_prop_alloc, ?obj_props_alloc by eauto using store_ok_lt; auto.
Qed.

Lemma calm_set_metric k v :
  (forall r, v <> JRef r) -> In k desktop_scalars \/ In k measured ->
  keeps (page_calm measured) (PerformanceMonitor.set_metric k v).
Proof.
  intros Hv Hk w [Hok (Hd & Hm & Hi)]. split; [now apply keeps_set_metric|].
  pose proof Hok as ((props & Ho & _) & _ & [Hne _]).
  split; [|split]; intros name H1; cbn.
  - intros H2 H3. rewrite (read_prop_write_ne _ _ props) by (try assumption; intros ->; tauto).
    now apply Hd.
  - intros H3. rewrite read_prop_write_other by congruence. now apply Hm.
  - rewrite obj_props_write_other by congruence. now apply Hi.
Qed.

Lemma calm_mobile_set_metric k v :
  (forall r, v <> JRef r) -> In k mobile_scalars ->
  keeps (page_calm measured) (MobilePerformanceMonitor.set_metric k v).
Proof.
  intros Hv Hk w [Hok (Hd & Hm & Hi)]. split; [now apply keeps_mobile_set_metric|].
  pose proof Hok as (_ & (props & Ho & _) & [Hne _]).
  split; [|split]; intros name H1; cbn.
  - intros H2 H3. rewrite read_prop_write_other by congruence. now apply Hd.
  - intros H3. rewrite (read_prop_write_ne _ _ props) by (try assumption; intros ->; tauto).
    now apply Hm.
  - assert (Hkn : k <> name).
    { intros ->. apply mobile_scalars_own in Hk. congruence. }
    specialize (Hi name H1). unfold obj_props in *. rewrite Ho in Hi.
    unfold write_prop. rewrite Ho. destruct (assigns props k); [|now rewrite Ho].
    rewrite list_lookup_insert_eq by (eapply lookup_lt_Some; eauto).
    now rewrite lookup_insert_ne.
Qed.

Lemma slots_open_pushed_desktop w name limit x :
  page_ok w -> slots_open measured w ->
  slots_open measured (set_heap (pushed (heap w) (PM.metrics (desktop w)) name limit x) w).
Proof.
  intros Hok (Hd & Hm & Hi). pose proof Hok as (Sd & Sm & Ha).
  pose proof Sd as (props & Ho & _).
  destruct (pushed_store_apart 100 50 _ _ _ name limit x Sd Sm Ha) as [Hp _].
  split; [|split]; intros name' H1; cbn.
  - intros H2 H3. apply (slot_open_pushed _ _ _ _ _ props); auto.
  - intros H3. unfold read_prop. rewrite Hp. now apply Hm.
  - rewrite Hp. now apply Hi.
Qed.

Lemma slots_open_pushed_mobile w name limit x :
  page_ok w -> slots_open measured w ->
  slots_open measured (set_heap (pushed (heap w) (MPM.metrics (mobile w)) name limit x) w).
Proof.
  intros Hok (Hd & Hm & Hi). pose proof Hok as (Sd & Sm & Ha).
  pose proof Sm as (props & Ho & _).
  destruct (pushed_store_apart 50 100 _ _ _ name limit x Sm Sd (stores_apart_sym _ _ _ Ha))
    as [Hp _].
  split; [|split]; intros name' H1; cbn.
  - intros H2 H3. unfold read_prop. rewrite Hp. now apply Hd.
  - intros H3. apply (slot_open_pushed _ _ _ _ _ props); auto.
  - specialize (Hi name' H1).
    assert (Hprops : obj_props (heap w) (MPM.metrics (mobile w)) = props)
      by (unfold obj_props; now rewrite Ho).
    rewrite Hprops in Hi.
    destruct (pushed_props (heap w) (MPM.metrics (mobile w)) name limit x props Ho)
      as [-> | [Hf ->]]; [exact Hi|].
    destruct (decide (name' = name)) as [->|Hne]; [|now rewrite lookup_insert_ne].
    rewrite (read_prop_absent _ _ _ _ Ho Hi), H1 in Hf. discriminate.
Qed.

Lemma calm_reportMetric name v :
  keeps (page_calm measured) (PerformanceMonitor.reportMetric name v).
Proof.
  intros w [Hok Hopen]. split; [now apply keeps_reportMetric|].
  pose proof Hok as ((props & Ho & _) & _).
  destruct (reportMetric_heap name v w props Ho) as (Hh & Hd & Hm).
  eapply slots_open_ext with
    (w := set_heap (pushed (heap w) (PM.metrics (desktop w)) name 100 (sample v (dateNow w))) w).
  - exact Hh.
  - now rewrite Hd.
  - now rewrite Hm.
  - now apply slots_open_pushed_desktop.
Qed.

Lemma calm_logMetric name v :
  keeps (page_calm measured) (MobilePerformanceMonitor.logMetric name v).
Proof.
  intros w [Hok Hopen]. split; [now apply keeps_logMetric|].
  pose proof Hok as (_ & (props & Ho & _) & _).
  destruct (logMetric_heap name v w props Ho) as (Hh & Hd & Hm).
  eapply slots_open_ext with
    (w := set_heap (pushed (heap w) (MPM.metrics (mobile w)) name 50
                           (metric_record name v (dateNow w) (mobile w) (host w))) w).
  - exact Hh.
  - now rewrite Hd.
  - now rewrite Hm.
  - now apply slots_open_pushed_mobile.
Qed.

Lemma calm_resource_step entry :
  keeps (page_calm measured)
    (when (String.eqb (initiatorType entry) "img" || String.eqb (initiatorType entry) "video")
       (slot <- PerformanceMonitor.get_metric "resources" ;;
        when (negb (truthy slot))
             (a <- alloc (CArray []) ;; PerformanceMonitor.set_metric "resources" (JRef a)) ;;
        slot <- PerformanceMonitor.get_metric "resources" ;;
        full <- length_ge slot 50 ;;
        when full (array_shift slot) ;;
        slot <- PerformanceMonitor.get_metric "resources" ;;
        array_push slot
          (JRecord [("name", JStr (re_name entry));
                    ("type", JStr (initiatorType entry));
                    ("duration", JNum (duration entry));
                    ("size", js_or (transferSize entry) (JNum 0))]))).
Proof.
  intros w [Hok Hopen]. split; [now apply keeps_resource_step|].
  unfold exec. rewrite resource_entry_unfold.
  destruct (is_media entry); [|exact Hopen]. cbn [when].
  pose proof Hok as ((props & Ho & _) & _).
  rewrite (push_bounded_run _ _ _ _ _ props) by (lia || assumption). cbn [snd].
  now apply slots_open_pushed_desktop.
Qed.

Lemma calm_destroy : keeps (page_calm measured) PerformanceMonitor.destroy.
Proof.
  intros w [Hok (Hd & Hm & Hi)]. split; [now apply keeps_destroy|].
  pose proof Hok as (_ & Sm & _).
  unfold exec. rewrite destroy_run. split; [|split]; intros name H1; cbn.
  - intros _ H3. left. unfold read_prop. now rewrite obj_props_fresh, lookup_empty, H3.
  - intros H3. rewrite read_prop_alloc by eauto using store_ok_lt. now apply Hm.
  - rewrite obj_props_alloc by eauto using store_ok_lt. now apply Hi.
Qed.

Lemma calm_mobile_destroy : keeps (page_calm measured) MobilePerformanceMonitor.destroy.
Proof.
  intros w [Hok (Hd & Hm & Hi)]. split; [now apply keeps_mobile_destroy|].
  pose proof Hok as (Sd & _ & _).
  unfold exec. rewrite mobile_destroy_run. split; [|split]; intros name H1; cbn.
  - intros H2 H3. rewrite read_prop_alloc by eauto using store_ok_lt. now apply Hd.
  - intros H3. left. unfold read_prop. now rewrite obj_props_fresh, lookup_empty, H3.
  - rewrite obj_props_fresh. apply lookup_empty.
Qed.
End SlotsOpen.

(** Goals of the form [keeps (page_calm measured) c], by the structure of
    [c]; a name written as a plain value has to be one of those kept for
    plain values. *)
Ltac keeps_calm :=
  repeat lazymatch goal with
  | |- forall _, _ => intro
  | |- keeps _ (match ?x with _ => _ end) => destruct x
  | |- keeps _ (PerformanceMonitor.reportMetric _ _) => apply calm_reportMetric
  | |- keeps _ (MobilePerformanceMonitor.logMetric _ _) => apply calm_logMetric
  | |- keeps _ PerformanceMonitor.destroy => apply calm_destroy
  | |- keeps _ MobilePerformanceMonitor.destroy => apply calm_mobile_destroy
  | |- keeps _ (PerformanceMonitor.set_metric _ _) =>
      apply calm_set_metric; [intros ?; discriminate | left; cbn; tauto]
  | |- keeps _ (MobilePerformanceMonitor.set_metric _ _) =>
      apply calm_mobile_set_metric; [intros ?; discriminate | cbn; tauto]
  | |- keeps _ (PerformanceMonitor.get_metric _) => apply calm_get_metric
  | |- keeps _ (MobilePerformanceMonitor.get_metric _) => apply calm_mobile_get_metric
  | |- keeps _ (ret _) => apply keeps_ret
  | |- keeps _ (throw _) => apply keeps_throw
  | |- keeps _ (gets _) => apply keeps_gets
  | |- keeps _ fresh_handle => apply calm_fresh_handle
  | |- keeps _ (alloc _) => apply calm_alloc
  | |- keeps _ (modify _) => apply calm_modify_quiet; intros; reflexivity
  | |- keeps _ (bind (gets _) _) => apply keeps_bind_gets; intro; cbv beta
  | |- keeps _ (bind _ _) => apply keeps_bind
  | |- keeps _ (try_catch _ _) => apply keeps_try_catch
  | |- keeps _ (when _ _) => apply keeps_when
  | |- keeps _ (forEach _ _) => apply keeps_forEach
  end.

Lemma page_step_calm measured e :
  (forall name elapsed, e = EvMeasure name elapsed -> In name measured) ->
  keeps (page_calm measured) (page_step e).
Proof.
  intros Hmeasured. destruct e; cbn [page_step].
  - keeps_calm.
  - unfold PerformanceMonitor.measure, work_of, performance_now. keeps_calm.
    apply calm_set_metric; [intros ?; discriminate | right; eauto].
  - unfold PerformanceMonitor.lcpObserver_callback. keeps_calm.
  - unfold PerformanceMonitor.fidObserver_callback. keeps_calm.
  - unfold PerformanceMonitor.clsObserver_callback, cls_add. keeps_calm.
  - unfold PerformanceMonitor.navigationObserver_callback. keeps_calm.
  - unfold PerformanceMonitor.paintObserver_callback. keeps_calm.
  - unfold PerformanceMonitor.resourceObserver_callback.
    apply keeps_forEach. intros entry. apply calm_resource_step.
  - unfold PerformanceMonitor.memoryCheck. keeps_calm.
  - unfold PerformanceMonitor.sendToAnalytics_settle, host_call, console_warn. keeps_calm.
  - unfold PerformanceMonitor.init, PerformanceMonitor.setupWebVitals,
      PerformanceMonitor.setupPerformanceObserver, PerformanceMonitor.setupResourceTiming,
      PerformanceMonitor.setupUserTiming, PerformanceMonitor.setupMemoryMonitoring,
      PerformanceMonitor.push_observer, PerformanceMonitor.this,
      new_PerformanceObserver, observe, host_call, console_warn, console_log, is_development.
    keeps_calm.
  - keeps_calm.
  - unfold PerformanceMonitor.getMetrics. keeps_calm.
  - unfold PerformanceMonitor.checkThresholds. keeps_calm.
  - keeps_calm.
  - unfold MobilePerformanceMonitor.lcpObserver_callback. keeps_calm.
  - unfold MobilePerformanceMonitor.fidObserver_callback. keeps_calm.
  - unfold MobilePerformanceMonitor.clsObserver_callback, cls_add. keeps_calm.
  - unfold MobilePerformanceMonitor.handleNetworkChange,
      MobilePerformanceMonitor.network_record. keeps_calm.
  - unfold MobilePerformanceMonitor.battery_ready, MobilePerformanceMonitor.push_cleanup,
      MobilePerformanceMonitor.this, host_call. keeps_calm.
  - unfold MobilePerformanceMonitor.memoryCheck. keeps_calm.
  - unfold MobilePerformanceMonitor.intersectionObserver_callback. keeps_calm.
  - unfold MobilePerformanceMonitor.init, MobilePerformanceMonitor.setupPerformanceObserver,
      MobilePerformanceMonitor.setupNetworkObserver, MobilePerformanceMonitor.setupBatteryObserver,
      MobilePerformanceMonitor.setupMemoryObserver,
      MobilePerformanceMonitor.setupIntersectionObserver,
      MobilePerformanceMonitor.push_observer, MobilePerformanceMonitor.push_cleanup,
      MobilePerformanceMonitor.this, MobilePerformanceMonitor.network_record,
      new_PerformanceObserver, observe, host_call, console_warn.
    keeps_calm.
  - keeps_calm.
  - unfold MobilePerformanceMonitor.getPerformanceScore, MobilePerformanceMonitor.getLCPScore,
      MobilePerformanceMonitor.getFIDScore, MobilePerformanceMonitor.getCLSScore,
      MobilePerformanceMonitor.getRecommendations.
    keeps_calm.
  - keeps_calm.
Qed.


Lemma page_calm_weaken measured measured' w :
  (forall name, In name measured -> In name measured') ->
  page_calm measured w -> page_calm measured' w.
Proof.
  intros Hsub [Hok (Hd & Hm & Hi)]. split; [exact Hok|]. split; [|split; assumption].
  intros name H1 H2. apply Hd; auto.
Qed.

Lemma measured_names_snoc events e :
  measured_names (events ++ [e])
  = measured_names events ++ match e with EvMeasure name _ => [name] | _ => [] end.
Proof. unfold measured_names. rewrite flat_map_app. cbn. now rewrite app_nil_r. Qed.

Lemma page_calm_load h : page_calm [] (load_page h).
Proof.
  rewrite load_page_init. apply (page_step_calm [] EvMobileInit); [discriminate|].
  split.
  - unfold page_ok. cbn. split; [|split].
    + exists ∅. split; [reflexivity|]. split; intros *; rewrite lookup_empty; discriminate.
    + exists ∅. split; [reflexivity|]. split; intros *; rewrite lookup_empty; discriminate.
    + split; [lia|]. intros k1 k2 r H. unfold obj_props in H. cbn in H.
      now rewrite lookup_empty in H.
  - split; [|split]; intros name; intros; [left | left | apply lookup_empty];
      rewrite (read_prop_absent _ _ ∅) by (reflexivity || apply lookup_empty);
      match goal with H : inherited name = false |- _ => now rewrite H end.
Qed.

Lemma page_calm_reachable h events :
  page_calm (measured_names events) (page_run events (load_page h)).
Proof.
  induction events as [|e events IH] using rev_ind; [apply page_calm_load|].
  rewrite page_run_snoc, measured_names_snoc.
  apply page_step_calm.
  - intros name elapsed ->. apply in_app_iff. right. now left.
  - eapply page_calm_weaken; [|exact IH]. intros name H. apply in_app_iff. now left.
Qed.

Lemma open_ready bound h o name :
  store_ok bound h o -> slot_open (read_prop h o name) -> slot_ready h o name.
Proof.
  intros (props & Ho & Hrefs & _) Hopen. split; [eauto|].
  destruct Hopen as [Hf | [r Hr]]; [now left|]. right.
  pose proof (read_prop_ref _ _ _ _ _ Ho Hr) as Hk.
  destruct (Hrefs _ _ Hk) as (elems & He & _).
  rewrite (series_at_intro _ _ _ _ _ _ Ho Hk He). eauto.
Qed.

(** ** Computations sure to complete *)

Section Sure.
Context {A B : Type} (P : World -> Prop).

Lemma sure_never_throws (c : Eff A) : never_throws c -> sure P c.
Proof. intros H w _. apply H. Qed.

Lemma sure_bind (c : Eff A) (k : A -> Eff B) :
  sure P c -> keeps P c -> (forall a, sure P (k a)) -> sure P (bind c k).
Proof.
  intros Hs Hk Hc w Hw. destruct (Hs w Hw) as [a Ha]. specialize (Hk w Hw).
  unfold completion, exec, bind in *.
  destruct (c w) as [[a'|e] w']; cbn in *; [|discriminate]. now apply Hc.
Qed.

Lemma sure_bind_gets (f : World -> A) (k : A -> Eff B) :
  (forall w0, sure P (k (f w0))) -> sure P (bind (gets f) k).
Proof. intros H w Hw. apply (H w w Hw). Qed.

Lemma sure_try_catch (body : Eff A) (handler : JsError -> Eff A) :
  keeps P body -> (forall e, sure P (handler e)) -> sure P (try_catch body handler).
Proof.
  intros Hk Hh w Hw. specialize (Hk w Hw). unfold completion, exec, try_catch in *.
  destruct (body w) as [[a|e] w']; cbn in *; [eauto | now apply Hh].
Qed.
End Sure.

Lemma sure_when (P : World -> Prop) (b : bool) (c : Eff unit) :
  sure P c -> sure P (when b c).
Proof. intros H. destruct b; [exact H | apply sure_never_throws, never_throws_ret]. Qed.

Lemma sure_forEach {A} (P : World -> Prop) (l : list A) (f : A -> Eff unit) :
  (forall x, sure P (f x)) -> (forall x, keeps P (f x)) -> sure P (forEach l f).
Proof.
  intros Hs Hk. induction l as [|x l IH]; cbn.
  - apply sure_never_throws, never_throws_ret.
  - apply sure_bind; [apply Hs | apply Hk | intros _; exact IH].
Qed.

Lemma never_throws_fresh_handle : never_throws fresh_handle.
Proof. intros w. eexists. reflexivity. Qed.

Lemma never_throws_alloc c : never_throws (alloc c).
Proof. intros w. eexists. reflexivity. Qed.

Lemma never_throws_set_metric k v : never_throws (PerformanceMonitor.set_metric k v).
Proof. intros w. eexists. reflexivity. Qed.

Lemma never_throws_get_metric k : never_throws (PerformanceMonitor.get_metric k).
Proof. intros w. eexists. reflexivity. Qed.

Lemma never_throws_mobile_set_metric k v :
  never_throws (MobilePerformanceMonitor.set_metric k v).
Proof. intros w. eexists. reflexivity. Qed.

Lemma never_throws_mobile_get_metric k :
  never_throws (MobilePerformanceMonitor.get_metric k).
Proof. intros w. eexists. reflexivity. Qed.

Lemma never_throws_destroy : never_throws PerformanceMonitor.destroy.
Proof. intros w. exists tt. unfold completion. now rewrite destroy_run. Qed.

Lemma never_throws_mobile_destroy : never_throws MobilePerformanceMonitor.destroy.
Proof. intros w. exists tt. unfold completion. now rewrite mobile_destroy_run. Qed.

(** Goals of the form [never_throws c], by the structure of [c]. *)
Ltac total :=
  repeat lazymatch goal with
  | |- forall _, _ => intro
  | |- never_throws (match ?x with _ => _ end) => destruct x
  | |- never_throws (PerformanceMonitor.reportMetric _ _) => apply reportMetric_never_throws
  | |- never_throws PerformanceMonitor.destroy => apply never_throws_destroy
  | |- never_throws MobilePerformanceMonitor.destroy => apply never_throws_mobile_destroy
  | |- never_throws (PerformanceMonitor.set_metric _ _) => apply never_throws_set_metric
  | |- never_throws (PerformanceMonitor.get_metric _) => apply never_throws_get_metric
  | |- never_throws (MobilePerformanceMonitor.set_metric _ _) =>
      apply never_throws_mobile_set_metric
  | |- never_throws (MobilePerformanceMonitor.get_metric _) =>
      apply never_throws_mobile_get_metric
  | |- never_throws (ret _) => apply never_throws_ret
  | |- never_throws (gets _) => apply never_throws_gets
  | |- never_throws (modify _) => apply never_throws_modify
  | |- never_throws fresh_handle => apply never_throws_fresh_handle
  | |- never_throws (alloc _) => apply never_throws_alloc
  | |- never_throws (bind _ _) => apply never_throws_bind
  | |- never_throws (try_catch _ _) => apply never_throws_try_catch
  | |- never_throws (when _ _) => apply never_throws_when
  | |- never_throws (forEach _ _) => apply never_throws_forEach
  end.

(** The handlers that complete from every world. *)
Lemma total_handlers e :
  match e with
  | EvLargestContentfulPaint _ | EvResource _ | EvLogMetric _ _
  | EvMobileLargestContentfulPaint _ | EvMobileFirstInput _ | EvMobileLayoutShift _ _
  | EvNetworkChange | EvMobileMemoryCheck _ | EvIntersection _ => False
  | _ => True
  end ->
  never_throws (page_step e).
Proof.
  destruct e; cbn [page_step]; intros H; try contradiction.
  - total.
  - unfold PerformanceMonitor.measure, work_of, performance_now. total.
  - unfold PerformanceMonitor.fidObserver_callback. total.
  - unfold PerformanceMonitor.clsObserver_callback, cls_add. total.
  - unfold PerformanceMonitor.navigationObserver_callback. total.
  - unfold PerformanceMonitor.paintObserver_callback. total.
  - unfold PerformanceMonitor.memoryCheck. total.
  - unfold PerformanceMonitor.sendToAnalytics_settle, console_warn. total.
  - unfold PerformanceMonitor.init, console_warn. total.
  - total.
  - unfold PerformanceMonitor.getMetrics. total.
  - unfold PerformanceMonitor.checkThresholds. total.
  - unfold MobilePerformanceMonitor.battery_ready, MobilePerformanceMonitor.push_cleanup,
      MobilePerformanceMonitor.this, host_call. total.
  - unfold MobilePerformanceMonitor.init, MobilePerformanceMonitor.setupPerformanceObserver,
      MobilePerformanceMonitor.setupNetworkObserver, MobilePerformanceMonitor.setupBatteryObserver,
      MobilePerformanceMonitor.setupMemoryObserver,
      MobilePerformanceMonitor.setupIntersectionObserver,
      MobilePerformanceMonitor.push_observer, MobilePerformanceMonitor.push_cleanup,
      MobilePerformanceMonitor.this, host_call, console_warn.
    total.
  - total.
  - unfold MobilePerformanceMonitor.getPerformanceScore, MobilePerformanceMonitor.getLCPScore,
      MobilePerformanceMonitor.getFIDScore, MobilePerformanceMonitor.getCLSScore,
      MobilePerformanceMonitor.getRecommendations.
    total.
  - total.
Qed.

Section SureCalm.
Variable measured : list string.

Lemma sure_logMetric name v :
  ~ In name mobile_scalars -> inherited name = false ->
  sure (page_calm measured) (MobilePerformanceMonitor.logMetric name v).
Proof.
  intros Hname Hown w [(_ & Sm & _) (_ & Hm & _)].
  destruct (logMetric_ready name v w (open_ready _ _ _ _ Sm (Hm name Hname Hown)))
    as (w' & Hrun & _).
  exists tt. unfold completion. now rewrite Hrun.
Qed.

Lemma sure_resource_callback entries :
  ~ In "resources" measured ->
  sure (page_calm measured) (PerformanceMonitor.resourceObserver_callback entries).
Proof.
  intros Hname w [(Sd & _ & _) (Hd & _)].
  assert (Hin : ~ In "resources" desktop_scalars).
  { cbn. intuition discriminate. }
  destruct (resourceObserver_callback_ready entries w
              (open_ready _ _ _ _ Sd (Hd "resources" Hin Hname eq_refl))) as (w' & Hrun & _).
  exists tt. unfold completion. now rewrite Hrun.
Qed.
End SureCalm.

(** Goals of the form [sure (page_calm measured) c], by the structure of
    [c]. *)
Ltac sure_calm :=
  repeat lazymatch goal with
  | |- forall _, _ => intro
  | |- sure _ (match ?x with _ => _ end) => destruct x
  | |- sure _ (MobilePerformanceMonitor.logMetric _ _) =>
      apply sure_logMetric; [cbn; intuition discriminate | reflexivity]
  | |- sure _ (MobilePerformanceMonitor.set_metric _ _) =>
      apply sure_never_throws, never_throws_mobile_set_metric
  | |- sure _ (MobilePerformanceMonitor.get_metric _) =>
      apply sure_never_throws, never_throws_mobile_get_metric
  | |- sure _ (ret _) => apply sure_never_throws, never_throws_ret
  | |- sure _ (gets _) => apply sure_never_throws, never_throws_gets
  | |- sure _ (modify _) => apply sure_never_throws, never_throws_modify
  | |- sure _ (bind (gets _) _) => apply sure_bind_gets; intro; cbv beta
  | |- sure _ (bind _ _) => apply sure_bind; [| solve [keeps_calm] |]
  | |- sure _ (when _ _) => apply sure_when
  | |- sure _ (forEach _ _) => apply sure_forEach; [| solve [keeps_calm]]
  end.


Lemma last_nonempty {A} (l : list A) : l <> [] -> exists x, last l = Some x.
Proof.
  intros H. destruct (last l) as [x|] eqn:E; [eauto|].
  apply last_None in E. contradiction.
Qed.

(** X15.  On a page that has been loaded and has then seen any sequence of
    events, a handler completes without an exception whenever: a
    largest-contentful-paint notification carries at least one entry, a
    name passed to [logMetric] is neither one of the keys the mobile
    collector assigns directly nor a name every object inherits from
    [Object.prototype], and a resource notification arrives only if
    [measure] was never called with the name [resources].  Every other
    handler completes unconditionally.  The exclusion of the inherited names
    is needed: on such a page [logMetric] under any of them throws
    [TypeError] and leaves the page as it was. *)
Theorem handlers_complete_on_a_loaded_page h events e :
  let w := page_run events (load_page h) in
  (completes (measured_names events) e -> completion (page_step e) w = Normal tt) /\
  (forall name v, inherited name = true ->
                  MobilePerformanceMonitor.logMetric name v w = (Throw TypeError, w)).
Proof.
  intros w.
  pose proof (page_calm_reachable h events) as Hcalm. fold w in Hcalm. clearbody w.
  set (measured := measured_names events) in *. clearbody measured.
  split.
  - intros He.
    enough (Hsure : sure (page_calm measured) (page_step e)).
    { destruct (Hsure w Hcalm) as [[] Ha]. exact Ha. }
    assert (Htotal := total_handlers e).
    destruct e; try (apply sure_never_throws, Htotal; exact I); clear Htotal;
      cbn [page_step]; cbn [completes] in He.
    + destruct (last_nonempty _ He) as [x Hx].
      apply sure_never_throws. unfold PerformanceMonitor.lcpObserver_callback.
      rewrite Hx. total.
    + now apply sure_resource_callback.
    + destruct He as [Hname Hown]. now apply sure_logMetric.
    + destruct (last_nonempty _ He) as [x Hx].
      unfold MobilePerformanceMonitor.lcpObserver_callback. rewrite Hx. sure_calm.
    + unfold MobilePerformanceMonitor.fidObserver_callback. sure_calm.
    + unfold MobilePerformanceMonitor.clsObserver_callback, cls_add. sure_calm.
    + unfold MobilePerformanceMonitor.handleNetworkChange,
        MobilePerformanceMonitor.network_record. sure_calm.
    + unfold MobilePerformanceMonitor.memoryCheck. sure_calm.
    + unfold MobilePerformanceMonitor.intersectionObserver_callback. sure_calm.
  - intros name v Hname.
    destruct Hcalm as [(_ & (props & Ho & _) & _) (_ & _ & Hi)].
    specialize (Hi name Hname). unfold obj_props in Hi. rewrite Ho in Hi.
    apply logMetric_taken. eapply inherited_taken; eauto.
Qed.

(** X15, witness: an image load after a timing under another name and a
    visibility sample. *)
Lemma handlers_complete_on_a_loaded_page_witness :
  completion
    (page_step (EvResource [{| re_name := "hero.png"; initiatorType := "img";
                               duration := 12; transferSize := JNum 2048 |}]))
    (page_run [EvMeasure "render" 5; EvLogMetric "Element Visible" (JStr "IMG")]
              (load_page modern_browser))
  = Normal tt.
Proof.
  apply (proj1 (handlers_complete_on_a_loaded_page modern_browser
                  [EvMeasure "render" 5; EvLogMetric "Element Visible" (JStr "IMG")]
                  (EvResource [{| re_name := "hero.png"; initiatorType := "img";
                                  duration := 12; transferSize := JNum 2048 |}]))).
  cbn. intros [H | []]. discriminate.
Defined.


(** * Rate limiters *)

Lemma last_cons_default {A} (a d : A) (l : list A) : List.last (a :: l) d = List.last l a.
Proof.
  revert a d. induction l as [|b l IH]; intros a d; [reflexivity|].
  change (List.last (a :: b :: l) d) with (List.last (b :: l) d).
  now rewrite !IH.
Qed.

Section DebounceFacts.
Context {Args : Type}.
Variable func : Args -> option JsError.
Variable wait : N.
Variable immediate : bool.

Lemma debounce_call_step (a : Args) (s : Debounce.t) :
  debounce_inv wait s ->
  let s' := snd (Debounce.executedFunction func wait immediate a s) in
  Debounce.timeout s' = Some (Debounce.nextTimer s) /\
  Debounce.timers s' = [(Debounce.nextTimer s, (wait, a))] /\
  Debounce.calls s' = Debounce.calls s ++ (if immediate && debounce_idle s then [a] else []) /\
  debounce_inv wait s'.
Proof.
  unfold debounce_inv, debounce_idle, Debounce.executedFunction, Debounce.clearTimeout,
    Debounce.call_func.
  destruct s as [[id|] tms nxt cs]; cbn.
  - intros [args ->]. cbn. rewrite Pos.eqb_refl. cbn.
    rewrite andb_false_r. cbn. rewrite app_nil_r. eauto 6.
  - intros ->. rewrite andb_true_r. destruct immediate; cbn; rewrite ?app_nil_r; eauto 6.
Qed.

Lemma debounce_fire_pending (id : positive) (a : Args) (s : Debounce.t) :
  Debounce.timeout s = Some id -> Debounce.timers s = [(id, (wait, a))] ->
  let s' := snd (Debounce.fire func immediate id s) in
  Debounce.timeout s' = None /\ Debounce.timers s' = [] /\
  Debounce.calls s' = Debounce.calls s ++ (if immediate then [] else [a]).
Proof.
  unfold Debounce.fire, Debounce.later, Debounce.call_func.
  destruct s as [t tms nxt cs]; cbn. intros -> ->. cbn. rewrite Pos.eqb_refl. cbn.
  destruct immediate; cbn; rewrite ?app_nil_r; auto.
Qed.

Lemma debounce_fire_inv (id : positive) (s : Debounce.t) :
  debounce_inv wait s -> debounce_inv wait (snd (Debounce.fire func immediate id s)).
Proof.
  unfold debounce_inv. intros H.
  destruct (Debounce.timeout s) as [id'|] eqn:Ht.
  - destruct H as [a Htm]. destruct (Pos.eqb_spec id' id) as [->|Hne].
    + destruct (debounce_fire_pending id a s Ht Htm) as (-> & -> & _). reflexivity.
    + unfold Debounce.fire. rewrite Htm. cbn.
      destruct (Pos.eqb_spec id' id); [contradiction|]. cbn. rewrite Ht. eauto.
  - unfold Debounce.fire. rewrite H. cbn. now rewrite Ht.
Qed.

Lemma debounce_run_inv (events : list (LimiterEvent Args)) :
  debounce_inv wait (debounce_run func wait immediate events).
Proof.
  unfold debounce_run.
  induction events as [|e events IH] using rev_ind; [reflexivity|].
  rewrite fold_left_app. cbn [fold_left]. destruct e as [a|id]; cbn.
  - now apply debounce_call_step.
  - now apply debounce_fire_inv.
Qed.

(** A burst, call by call. *)
Lemma debounce_burst_run (first : Args) (rest : list Args) (s : Debounce.t) :
  debounce_inv wait s ->
  let s1 := debounce_burst func wait immediate (first :: rest) s in
  exists id,
    Debounce.timeout s1 = Some id /\
    Debounce.timers s1 = [(id, (wait, List.last rest first))] /\
    Debounce.calls s1
    = Debounce.calls s ++ (if immediate && debounce_idle s then [first] else []).
Proof.
  revert first s. induction rest as [|a rest IH]; intros first s Hinv.
  - cbn. destruct (debounce_call_step first s Hinv) as (Ht & Htm & Hc & _). eauto.
  - intros s1.
    destruct (debounce_call_step first s Hinv) as (Ht & Htm & Hc & Hinv').
    set (s' := snd (Debounce.executedFunction func wait immediate first s)) in *.
    destruct (IH a s' Hinv') as (id & Ht1 & Htm1 & Hc1).
    exists id. change s1 with (debounce_burst func wait immediate (a :: rest) s').
    split; [exact Ht1|]. split.
    + rewrite Htm1. now rewrite last_cons_default.
    + rewrite Hc1, Hc.
      assert (Hidle : debounce_idle s' = false) by (unfold debounce_idle; now rewrite Ht).
      rewrite Hidle, andb_false_r. now rewrite app_nil_r.
Qed.
End DebounceFacts.

(** X16.  A debounced function, after any history of calls and timers,
    given a burst of calls with no timer running in between: every call
    cancels the pending timer and starts a new one, so that one timer is
    pending at the end, with the full wait and the arguments of the last
    call.  In the default mode [func] is not called during the burst; it is
    called once when that timer runs, with the arguments of the last call.
    With [immediate] it is called at once with the arguments of the first
    call if no timer was pending before the burst, and not at all otherwise;
    the timer then only re-arms the function.  A timer that was cancelled
    never calls [func]. *)
Theorem debounce_calls_func_once_per_burst
    {Args : Type} (func : Args -> option JsError) (wait : N) (immediate : bool)
    (events : list (LimiterEvent Args)) (first : Args) (rest : list Args) :
  let s := debounce_run func wait immediate events in
  let s1 := debounce_burst func wait immediate (first :: rest) s in
  exists id,
    Debounce.timers s1 = [(id, (wait, List.last rest first))] /\
    Debounce.timeout s1 = Some id /\
    Debounce.calls s1
    = Debounce.calls s ++ (if immediate && debounce_idle s then [first] else []) /\
    (forall id', id' <> id -> Debounce.fire func immediate id' s1 = (Normal tt, s1)) /\
    let s2 := snd (Debounce.fire func immediate id s1) in
    Debounce.calls s2
    = Debounce.calls s1 ++ (if immediate then [] else [List.last rest first]) /\
    Debounce.timers s2 = [] /\
    debounce_idle s2 = true.
Proof.
  intros s s1.
  destruct (debounce_burst_run func wait immediate first rest s
              (debounce_run_inv func wait immediate events)) as (id & Ht & Htm & Hc).
  fold s1 in Ht, Htm, Hc.
  exists id. split; [exact Htm|]. split; [exact Ht|]. split; [exact Hc|].
  split.
  { intros id' Hne. unfold Debounce.fire. rewrite Htm. cbn.
    destruct (Pos.eqb_spec id id'); [congruence | reflexivity]. }
  destruct (debounce_fire_pending func wait immediate id _ s1 Ht Htm) as (Ht2 & Htm2 & Hc2).
  split; [exact Hc2|]. split; [exact Htm2|].
  unfold debounce_idle. now rewrite Ht2.
Qed.


Section ThrottleFacts.
Context {Args : Type}.
Variable func : Args -> option JsError.
Variable limit : N.

Lemma throttle_call_step (a : Args) (s : Throttle.t) :
  throttle_inv limit s ->
  let s' := snd (Throttle.executedFunction func limit a s) in
  throttle_inv limit s' /\
  Throttle.calls s' = Throttle.calls s ++ (if Throttle.inThrottle s then [] else [a]) /\
  Throttle.inThrottle s'
  = Throttle.inThrottle s || match func a with Some _ => false | None => true end.
Proof.
  unfold throttle_inv, Throttle.executedFunction.
  destruct s as [[|] tms nxt cs]; cbn.
  - intros H. rewrite app_nil_r. auto.
  - intros ->. destruct (func a); cbn; eauto.
Qed.

Lemma throttle_fire_inv (id : positive) (s : @Throttle.t Args) :
  throttle_inv limit s -> throttle_inv limit (Throttle.fire id s).
Proof.
  unfold throttle_inv, Throttle.fire.
  destruct s as [[|] tms nxt cs]; cbn.
  - intros [id' ->]. cbn. destruct (Pos.eqb id' id); cbn; eauto.
  - intros ->. reflexivity.
Qed.

Lemma throttle_run_inv (events : list (LimiterEvent Args)) :
  throttle_inv limit (throttle_run func limit events).
Proof.
  unfold throttle_run.
  induction events as [|e events IH] using rev_ind; [reflexivity|].
  rewrite fold_left_app. cbn [fold_left]. destruct e as [a|id]; cbn.
  - now apply throttle_call_step.
  - now apply throttle_fire_inv.
Qed.

Lemma throttle_burst_run (burst : list Args) (s : Throttle.t) :
  throttle_inv limit s ->
  let s1 := throttle_burst func limit burst s in
  throttle_inv limit s1 /\
  Throttle.calls s1
  = Throttle.calls s ++ (if Throttle.inThrottle s then [] else let_through func burst) /\
  Throttle.inThrottle s1
  = Throttle.inThrottle s
    || existsb (fun a => match func a with Some _ => false | None => true end) burst.
Proof.
  revert s. induction burst as [|a burst IH]; intros s Hinv.
  - cbn. rewrite orb_false_r. destruct (Throttle.inThrottle s); rewrite app_nil_r; auto.
  - intros s1.
    destruct (throttle_call_step a s Hinv) as (Hinv' & Hc & Hin).
    set (s' := snd (Throttle.executedFunction func limit a s)) in *.
    destruct (IH s' Hinv') as (Hinv1 & Hc1 & Hin1).
    change s1 with (throttle_burst func limit burst s').
    split; [exact Hinv1|]. rewrite Hc1, Hin1, Hc, Hin. cbn [let_through existsb].
    destruct (Throttle.inThrottle s); cbn.
    + rewrite !app_nil_r. auto.
    + destruct (func a); cbn; rewrite <- ?app_assoc, ?app_nil_r; auto.
Qed.
End ThrottleFacts.

(** X17.  A throttled function, after any history of calls and timers,
    given a burst of calls with no timer running in between.  While the
    throttle is closed no call reaches [func].  While it is open a call
    reaches [func]; if [func] returns, the throttle closes and one reset
    timer is started, and the rest of the burst is dropped; if [func]
    throws, the throttle stays open and no timer is started, so the next
    call reaches [func] again.  A closed throttle always has exactly one
    reset timer pending, an open one none; when that timer runs the throttle
    is open again and the next call reaches [func]. *)
Theorem throttle_lets_one_call_through
    {Args : Type} (func : Args -> option JsError) (limit : N)
    (events : list (LimiterEvent Args)) (burst : list Args) (next : Args) :
  let s := throttle_run func limit events in
  let s1 := throttle_burst func limit burst s in
  Throttle.calls s1
  = Throttle.calls s ++ (if Throttle.inThrottle s then [] else let_through func burst) /\
  Throttle.inThrottle s1
  = Throttle.inThrottle s
    || existsb (fun a => match func a with Some _ => false | None => true end) burst /\
  if Throttle.inThrottle s1 then
    exists id,
      Throttle.timers s1 = [(id, limit)] /\
      let s2 := Throttle.fire id s1 in
      Throttle.inThrottle s2 = false /\ Throttle.timers s2 = [] /\
      Throttle.calls (snd (Throttle.executedFunction func limit next s2))
      = Throttle.calls s1 ++ [next]
  else Throttle.timers s1 = [].
Proof.
  intros s s1.
  destruct (throttle_burst_run func limit burst s (throttle_run_inv func limit events))
    as (Hinv & Hc & Hin).
  fold s1 in Hinv, Hc, Hin.
  split; [exact Hc|]. split; [exact Hin|].
  unfold throttle_inv in Hinv.
  destruct (Throttle.inThrottle s1) eqn:Hopen; [|exact Hinv].
  destruct Hinv as [id Htm]. exists id. split; [exact Htm|].
  unfold Throttle.fire, Throttle.executedFunction. rewrite Htm. cbn.
  rewrite Pos.eqb_refl. cbn. destruct (func next); auto.
Qed.


(** * The animation loop *)

Section AnimationFacts.
Variable callback : nat -> option JsError * bool.

Lemma animate_no_frame (s : AnimateWithRAF.t) :
  AnimateWithRAF.frames s = [] ->
  let s' := snd (AnimateWithRAF.animate callback s) in
  AnimateWithRAF.runs s' = S (AnimateWithRAF.runs s) /\
  match fst (callback (AnimateWithRAF.runs s)) with
  | None => AnimateWithRAF.animationId s' = Some (AnimateWithRAF.nextFrame s) /\
            AnimateWithRAF.frames s' = [AnimateWithRAF.nextFrame s]
  | Some _ => AnimateWithRAF.frames s' = []
  end.
Proof.
  intros Hf. unfold AnimateWithRAF.animate, AnimateWithRAF.cancel.
  destruct s as [aid fr nxt n]. cbn in *. subst fr.
  destruct (callback n) as [[e|] [|]]; cbn; destruct aid; cbn; auto.
Qed.

Lemma frame_pending (id : positive) (s : AnimateWithRAF.t) :
  AnimateWithRAF.frames s = [id] ->
  let s' := snd (AnimateWithRAF.frame callback id s) in
  AnimateWithRAF.runs s' = S (AnimateWithRAF.runs s) /\
  match fst (callback (AnimateWithRAF.runs s)) with
  | None => exists id', AnimateWithRAF.animationId s' = Some id' /\
                        AnimateWithRAF.frames s' = [id']
  | Some _ => AnimateWithRAF.frames s' = []
  end.
Proof.
  intros Hf. unfold AnimateWithRAF.frame. rewrite Hf. cbn. rewrite Pos.eqb_refl. cbn.
  destruct (animate_no_frame
              (AnimateWithRAF.mk (AnimateWithRAF.animationId s) []
                 (AnimateWithRAF.nextFrame s) (AnimateWithRAF.runs s)) eq_refl) as [Hr Hm].
  cbn in Hr, Hm. split; [exact Hr|].
  destruct (fst (callback (AnimateWithRAF.runs s))); [exact Hm|]. destruct Hm. eauto.
Qed.

Lemma frame_inv (id : positive) (s : AnimateWithRAF.t) :
  raf_inv s -> raf_inv (snd (AnimateWithRAF.frame callback id s)).
Proof.
  intros [Hf | (id' & Ha & Hf)].
  - unfold AnimateWithRAF.frame. rewrite Hf. cbn. now left.
  - destruct (Pos.eqb_spec id id') as [->|Hne].
    + destruct (frame_pending id' s Hf) as [_ Hm].
      destruct (fst (callback (AnimateWithRAF.runs s))); [now left | now right].
    + unfold AnimateWithRAF.frame. rewrite Hf. cbn.
      destruct (Pos.eqb_spec id id'); [contradiction|]. cbn. right. eauto.
Qed.

Lemma cancel_clears (s : AnimateWithRAF.t) :
  raf_inv s ->
  AnimateWithRAF.frames (AnimateWithRAF.cancel s) = [] /\
  AnimateWithRAF.runs (AnimateWithRAF.cancel s) = AnimateWithRAF.runs s.
Proof.
  unfold AnimateWithRAF.cancel. intros [Hf | (id & Ha & Hf)].
  - destruct (AnimateWithRAF.animationId s); cbn; rewrite ?Hf; auto.
  - rewrite Ha. cbn. rewrite Hf. cbn. rewrite Pos.eqb_refl. auto.
Qed.

Lemma raf_run_inv (events : list FrameEvent) : raf_inv (raf_run callback events).
Proof.
  unfold raf_run.
  induction events as [|e events IH] using rev_ind.
  - cbn. destruct (animate_no_frame (AnimateWithRAF.mk None [] 1 0) eq_refl) as [_ Hm].
    cbn in Hm. unfold AnimateWithRAF.animateWithRAF.
    destruct (fst (callback 0)); [now left|]. destruct Hm. right. eauto.
  - rewrite fold_left_app. cbn [fold_left]. destruct e as [id|]; cbn.
    + now apply frame_inv.
    + left. now apply cancel_clears.
Qed.

(** Once no frame is pending nothing happens any more. *)
Lemma raf_stopped (events : list FrameEvent) (s : AnimateWithRAF.t) :
  AnimateWithRAF.frames s = [] -> fold_left (raf_step callback) events s = s.
Proof.
  intros Hf. induction events as [|e events IH]; [reflexivity|].
  cbn [fold_left]. destruct e as [id|]; cbn.
  - unfold AnimateWithRAF.frame. rewrite Hf. cbn. exact IH.
  - unfold AnimateWithRAF.cancel. destruct s as [[aid|] fr nxt n]; cbn in *; subst; exact IH.
Qed.
End AnimationFacts.

(** X18.  An animation loop started by [animateWithRAF], after any frames
    and cancel calls.  At most one frame is pending, and [animationId] names
    it.  When the pending frame runs, the callback runs once; if it returns,
    one new frame is pending afterwards, whether or not the callback called
    the cancel function itself (inside the callback [animationId] still names
    the frame that is running); if it throws, no frame is pending and the
    loop has ended.  A cancel call from outside leaves no frame pending, and
    from then on the callback never runs again, whatever frames the platform
    runs. *)
Theorem animation_loop_runs_until_cancelled
    (callback : nat -> option JsError * bool) (events later : list FrameEvent) :
  let s := raf_run callback events in
  raf_inv s /\
  (forall id, AnimateWithRAF.frames s = [id] ->
     let s2 := snd (AnimateWithRAF.frame callback id s) in
     AnimateWithRAF.runs s2 = S (AnimateWithRAF.runs s) /\
     match fst (callback (AnimateWithRAF.runs s)) with
     | None => exists id', AnimateWithRAF.animationId s2 = Some id' /\
                           AnimateWithRAF.frames s2 = [id']
     | Some _ => AnimateWithRAF.frames s2 = []
     end) /\
  AnimateWithRAF.frames (AnimateWithRAF.cancel s) = [] /\
  fold_left (raf_step callback) later (AnimateWithRAF.cancel s) = AnimateWithRAF.cancel s /\
  AnimateWithRAF.runs (fold_left (raf_step callback) later (AnimateWithRAF.cancel s))
  = AnimateWithRAF.runs s.
Proof.
  intros s. pose proof (raf_run_inv callback events) as Hinv. fold s in Hinv.
  destruct (cancel_clears s Hinv) as [Hc Hr].
  split; [exact Hinv|]. split; [intros id Hf; now apply frame_pending|].
  split; [exact Hc|].
  rewrite (raf_stopped callback later _ Hc). split; [reflexivity | exact Hr].
Qed.
